(** * Weather plugin: query orchestration core

    A shallow embedding of the command parser, the circuit breaker, the retry
    wrapper, the validator and sanitizer, the provider conversions, the cache
    key and the orchestrator entry points of the weather plugin, followed by
    the properties established about them.

    Conventions of the embedding
    - a Python [str] is the list of its code points;
    - a Python [int] is a [Z]; a Python [float] is an exact rational [Q]
      (rounding, infinities and NaN are outside the model);
    - a raised exception is the [Raise] result of a computation;
    - awaited calls on collaborators thread an explicit world state;
    - logging has no influence on results and is left out. *)

From Stdlib Require Import ZArith NArith QArith Qround Qpower List Bool Lia String Ascii.
From stdpp Require Import base option list sorting gmap.

Local Open Scope Z_scope.

(** ** Python strings *)

Module PyStr.

Definition char := N.
Definition str := list char.

(** Decoder used to write the source's literals: the file holds them as
    UTF-8 bytes, the program sees code points. *)
Definition cont (b : N) : N := N.land b 63.

Fixpoint utf8_decode (bs : list N) : str :=
  match bs with
  | [] => []
  | b :: rest =>
      if (b <? 128)%N then b :: utf8_decode rest
      else if (b <? 224)%N then
        match rest with
        | b1 :: rest1 =>
            (N.lor (N.shiftl (N.land b 31) 6) (cont b1)) :: utf8_decode rest1
        | _ => []
        end
      else if (b <? 240)%N then
        match rest with
        | b1 :: b2 :: rest2 =>
            (N.lor (N.shiftl (N.land b 15) 12)
               (N.lor (N.shiftl (cont b1) 6) (cont b2))) :: utf8_decode rest2
        | _ => []
        end
      else
        match rest with
        | b1 :: b2 :: b3 :: rest3 =>
            (N.lor (N.shiftl (N.land b 7) 18)
               (N.lor (N.shiftl (cont b1) 12)
                  (N.lor (N.shiftl (cont b2) 6) (cont b3)))) :: utf8_decode rest3
        | _ => []
        end
  end.

Definition py (s : string) : str :=
  utf8_decode (map N_of_ascii (list_ascii_of_string s)).

(** [str.encode('utf-8')]: lone surrogates and values beyond U+10FFFF
    cannot be encoded ([UnicodeEncodeError], here [None]). *)
Definition encode_char (c : char) : option (list N) :=
  if (c <? 128)%N then Some [c]
  else if (c <? 2048)%N then
    Some [N.lor 192 (N.shiftr c 6); N.lor 128 (N.land c 63)]
  else if (c <? 65536)%N then
    if ((55296 <=? c) && (c <=? 57343))%N then None
    else Some [N.lor 224 (N.shiftr c 12);
               N.lor 128 (N.land (N.shiftr c 6) 63);
               N.lor 128 (N.land c 63)]
  else if (c <? 1114112)%N then
    Some [N.lor 240 (N.shiftr c 18);
          N.lor 128 (N.land (N.shiftr c 12) 63);
          N.lor 128 (N.land (N.shiftr c 6) 63);
          N.lor 128 (N.land c 63)]
  else None.

Fixpoint encode_utf8 (s : str) : option (list N) :=
  match s with
  | [] => Some []
  | c :: s' =>
      match encode_char c, encode_utf8 s' with
      | Some bs, Some rest => Some (bs ++ rest)
      | _, _ => None
      end
  end.

(** [str.isspace] on one character (also the class [\s] of [re]). *)
Definition isspace (c : char) : bool :=
  if (c <? 9)%N then false
  else if (c <=? 13)%N then true
  else if (c <? 28)%N then false
  else if (c <=? 32)%N then true
  else if (c <? 133)%N then false
  else if (c =? 133)%N then true
  else if (c =? 160)%N then true
  else if (c <? 5760)%N then false
  else if (c =? 5760)%N then true
  else if (c <? 8192)%N then false
  else if (c <=? 8202)%N then true
  else if (c =? 8232)%N then true
  else if (c =? 8233)%N then true
  else if (c =? 8239)%N then true
  else if (c =? 8287)%N then true
  else (c =? 12288)%N.

Fixpoint lstrip (s : str) : str :=
  match s with
  | [] => []
  | c :: s' => if isspace c then lstrip s' else s
  end.

Fixpoint rstrip (s : str) : str :=
  match s with
  | [] => []
  | c :: s' =>
      match rstrip s' with
      | [] => if isspace c then [] else [c]
      | r => c :: r
      end
  end.

(** [s.strip()] *)
Definition strip (s : str) : str := rstrip (lstrip s).

Definition str_eqb (a b : str) : bool := bool_decide (a = b).

Fixpoint startswith (s p : str) : bool :=
  match p, s with
  | [], _ => true
  | x :: p', y :: s' => (x =? y)%N && startswith s' p'
  | _ :: _, [] => false
  end.

(** [needle in hay] for strings *)
Fixpoint str_in (needle hay : str) : bool :=
  startswith hay needle ||
  match hay with
  | [] => false
  | _ :: hay' => str_in needle hay'
  end.

(** [s.replace(' ', '_')], a one-character replacement *)
Definition replace_char (old new : char) (s : str) : str :=
  map (fun c => if (c =? old)%N then new else c) s.

(** [sep.join(parts)] *)
Fixpoint join (sep : str) (parts : list str) : str :=
  match parts with
  | [] => []
  | [p] => p
  | p :: rest => p ++ sep ++ join sep rest
  end.

(** Order of [str] values: code point by code point, as [sorted] uses. *)
Fixpoint str_leb (a b : str) : bool :=
  match a, b with
  | [], _ => true
  | _ :: _, [] => false
  | x :: a', y :: b' =>
      if (x <? y)%N then true
      else if (y <? x)%N then false
      else str_leb a' b'
  end.

(** [str(n)] for an [int] *)
Fixpoint digits_of_pos (fuel : nat) (n : N) (acc : str) : str :=
  match fuel with
  | O => acc
  | S fuel' =>
      let acc' := (48 + n mod 10)%N :: acc in
      if (n / 10 =? 0)%N then acc' else digits_of_pos fuel' (n / 10)%N acc'
  end.

Definition str_of_Z (z : Z) : str :=
  let n := Z.abs_N z in
  let ds := digits_of_pos (S (N.to_nat (N.log2 n))) n [] in
  if z <? 0 then 45%N :: ds else ds.

(** ASCII part of [str.lower] and of the decimal digits, used to run the
    model on concrete inputs. *)
Definition ascii_lower_char (c : char) : char :=
  if ((65 <=? c) && (c <=? 90))%N then (c + 32)%N else c.
Definition ascii_lower (s : str) : str := map ascii_lower_char s.
Definition ascii_decimal (c : char) : option Z :=
  if ((48 <=? c) && (c <=? 57))%N then Some (Z.of_N c - 48) else None.

End PyStr.
Export PyStr.

(** What the program uses from the interpreter and its libraries without
    defining it. *)
Class PyRuntime := {
  (** [str.lower] *)
  str_lower : str -> str;
  (** value of a character of the class [\d] (Unicode decimal digit) *)
  decimal_value : char -> option Z;
  (** rendering of a float inside an f-string *)
  float_str : Q -> str;
  (** [hashlib.md5(b).hexdigest()] *)
  md5_hexdigest : list N -> str;
  (** the order in which [set(l)] yields its elements *)
  set_order : list str -> list str;
  (** [datetime.fromtimestamp(t).date()] as a day number; [None] when the
      platform rejects the timestamp *)
  local_date : Z -> option Z;
  (** [datetime.strptime(s, '%Y-%m-%d').date()] as a day number; [None]
      when the text does not have that format *)
  strptime_date : str -> option Z;
  (** [str.isupper] and [str.isalpha] *)
  str_isupper : str -> bool;
  str_isalpha : str -> bool
}.

(** ** Exceptions and results *)

(** The exception classes the program raises or catches.  [WeatherError] is
    the base class of [APIError], [LocationError] and [CacheError]. *)
Inductive exn : Type :=
| ValueError (msg : str)
| KeyError (msg : str)
| IndexError (msg : str)
| OverflowError (msg : str)
| WeatherError (msg : str)
| APIError (msg : str)
| LocationError (msg : str)
| CacheError (msg : str)
| OtherException (msg : str).

(** [str(e)] *)
Definition exn_str (e : exn) : str :=
  match e with
  | ValueError m | KeyError m | IndexError m | OverflowError m
  | WeatherError m | APIError m | LocationError m | CacheError m
  | OtherException m => m
  end.

(** [isinstance(e, APIError)] and [isinstance(e, LocationError)] *)
Definition is_APIError (e : exn) : bool :=
  match e with APIError _ => true | _ => false end.
Definition is_LocationError (e : exn) : bool :=
  match e with LocationError _ => true | _ => false end.

Inductive Res (A : Type) : Type :=
| Ok (a : A)
| Raise (e : exn).
Arguments Ok {A} a.
Arguments Raise {A} e.

Definition res_bind {A B} (r : Res A) (k : A -> Res B) : Res B :=
  match r with
  | Ok a => k a
  | Raise e => Raise e
  end.

Notation "'let?' x := r 'in' k" := (res_bind r (fun x => k))
  (at level 10, x name, r at level 100, k at level 200).

Fixpoint res_mapM {A B} (f : A -> Res B) (l : list A) : Res (list B) :=
  match l with
  | [] => Ok []
  | x :: l' =>
      let? y := f x in
      let? ys := res_mapM f l' in
      Ok (y :: ys)
  end.

(** Computations that read and change a state [S] and may raise. *)
Definition M (S A : Type) : Type := S -> Res A * S.

Definition ret {S A} (a : A) : M S A := fun s => (Ok a, s).
Definition raise {S A} (e : exn) : M S A := fun s => (Raise e, s).
Definition lift_res {S A} (r : Res A) : M S A := fun s => (r, s).

Definition bind {S A B} (m : M S A) (k : A -> M S B) : M S B :=
  fun s =>
    match m s with
    | (Ok a, s') => k a s'
    | (Raise e, s') => (Raise e, s')
    end.

(** [try: m except Exception as e: h(e)] *)
Definition try_except {S A} (m : M S A) (h : exn -> M S A) : M S A :=
  fun s =>
    match m s with
    | (Ok a, s') => (Ok a, s')
    | (Raise e, s') => h e s'
    end.

Notation "x <- c1 ; c2" := (bind c1 (fun x => c2))
  (at level 20, c1 at level 100, c2 at level 200).

(** ** Numbers *)

Definition Qlt_bool (a b : Q) : bool := negb (Qle_bool b a).

(** [int(x)] for a float: truncation towards zero *)
Definition int_of_float (q : Q) : Z := Z.quot (Qnum q) (Zpos (Qden q)).

Definition Qsum (l : list Q) : Q := fold_left Qplus l 0%Q.

(** [sum(l) / len(l)] *)
Definition mean (l : list Q) : Q := (Qsum l / inject_Z (Z.of_nat (length l)))%Q.

(** [max(l)] and [min(l)] keep the first extremal element. *)
Fixpoint max_from (best : Q) (l : list Q) : Q :=
  match l with
  | [] => best
  | x :: l' => max_from (if Qlt_bool best x then x else best) l'
  end.

Fixpoint min_from (best : Q) (l : list Q) : Q :=
  match l with
  | [] => best
  | x :: l' => min_from (if Qlt_bool x best then x else best) l'
  end.

Definition py_max (l : list Q) : Res Q :=
  match l with
  | [] => Raise (ValueError (py "max() arg is an empty sequence"))
  | x :: l' => Ok (max_from x l')
  end.

Definition py_min (l : list Q) : Res Q :=
  match l with
  | [] => Raise (ValueError (py "min() arg is an empty sequence"))
  | x :: l' => Ok (min_from x l')
  end.

(** [max(iterable, key=f)]: the first element whose key is largest *)
Fixpoint max_by_from {A} (key : A -> Z) (best : A) (l : list A) : A :=
  match l with
  | [] => best
  | x :: l' => max_by_from key (if key best <? key x then x else best) l'
  end.

(** [l.count(x)] *)
Definition count_occ_str (l : list str) (x : str) : Z :=
  Z.of_nat (length (filter (fun y => y = x) l)).

(** [l[:n]] *)
Definition slice_to {A} (l : list A) (n : Z) : list A :=
  if 0 <=? n then take (Z.to_nat n) l
  else take (length l - Z.to_nat (- n)) l.

(** ** Data model (models.py) *)

Module WeatherData.

Record t : Type := mk {
  location : str;
  temperature : Q;
  feels_like : Q;
  humidity : Z;
  wind_speed : Q;
  wind_direction : Z;
  pressure : Q;
  visibility : Q;
  uv_index : Q;
  condition : str;
  condition_code : str;
  timestamp : Z;
  units : str
}.

Section Init.
Context `{PyRuntime}.

Definition __post_init__ (self : t) : Res unit :=
  if negb ((0 <=? humidity self) && (humidity self <=? 100)) then
    Raise (ValueError (py "湿度必须在 0-100 之间，得到: " ++ str_of_Z (humidity self)))
  else if Qlt_bool (wind_speed self) 0 then
    Raise (ValueError (py "风速不能为负数，得到: " ++ float_str (wind_speed self)))
  else if negb ((0 <=? wind_direction self) && (wind_direction self <=? 360)) then
    Raise (ValueError (py "风向必须在 0-360 度之间，得到: " ++ str_of_Z (wind_direction self)))
  else Ok tt.

(** The constructor call [WeatherData(...)]: the generated [__init__]
    stores the fields and runs [__post_init__]. *)
Definition new (fields : t) : Res t :=
  let? _ := __post_init__ fields in Ok fields.
End Init.

End WeatherData.

Module ForecastDay.

Record t : Type := mk {
  date : Z;
  high_temp : Q;
  low_temp : Q;
  condition : str;
  precipitation_chance : Z;
  wind_speed : Q;
  humidity : Z
}.

Section Init.
Context `{PyRuntime}.

Definition __post_init__ (self : t) : Res unit :=
  if Qlt_bool (high_temp self) (low_temp self) then
    Raise (ValueError (py "最高温度不能低于最低温度: " ++ float_str (high_temp self)
                         ++ py " < " ++ float_str (low_temp self)))
  else if negb ((0 <=? precipitation_chance self) && (precipitation_chance self <=? 100)) then
    Raise (ValueError (py "降水概率必须在 0-100 之间，得到: "
                         ++ str_of_Z (precipitation_chance self)))
  else Ok tt.

Definition new (fields : t) : Res t :=
  let? _ := __post_init__ fields in Ok fields.
End Init.

End ForecastDay.

Module ForecastData.

Record t : Type := mk {
  location : str;
  days : list ForecastDay.t;
  units : str;
  generated_at : Z
}.

End ForecastData.

Record LocationInfo : Type := { name : str }.

Record UserPrefs : Type := { units : str }.

(** ** The outside world

    [W] is the state of everything the service does not own: the clock, the
    network, the cache database.  Time is counted in microseconds. *)
Class Clock (W : Type) := {
  (** [datetime.now()] *)
  datetime_now : W -> Z;
  (** [await asyncio.sleep(delay)] *)
  asyncio_sleep : Q -> W -> W
}.

(** ** Circuit breaker (weather_service.py) *)

Module CircuitBreaker.

Inductive CircuitBreakerState : Type := CLOSED | OPEN | HALF_OPEN.

Record t : Type := mk {
  failure_threshold : Z;
  recovery_timeout : Z;
  failure_count : Z;
  last_failure_time : option Z;
  state : CircuitBreakerState
}.

Definition __init__ (failure_threshold recovery_timeout : Z) : t :=
  mk failure_threshold recovery_timeout 0 None CLOSED.

Definition set_state (s : CircuitBreakerState) (self : t) : t :=
  mk (failure_threshold self) (recovery_timeout self) (failure_count self)
     (last_failure_time self) s.

(** [(now - last_failure_time).total_seconds() > recovery_timeout] *)
Definition _should_attempt_reset (self : t) (now : Z) : bool :=
  match last_failure_time self with
  | None => true
  | Some last => recovery_timeout self * 1000000 <? now - last
  end.

Definition _on_success (self : t) : t :=
  mk (failure_threshold self) (recovery_timeout self) 0
     (last_failure_time self) CLOSED.

Definition _on_failure (self : t) (now : Z) : t :=
  let count := failure_count self + 1 in
  mk (failure_threshold self) (recovery_timeout self) count (Some now)
     (if failure_threshold self <=? count then OPEN else state self).

Definition breaker_open_error : exn :=
  APIError (py "服务暂时不可用（断路器开启）").

(** The test at the head of [call]: the breaker as it is when the wrapped
    function starts, or the rejection. *)
Definition call_gate (self : t) (now : Z) : Res t :=
  match state self with
  | OPEN =>
      if _should_attempt_reset self now then Ok (set_state HALF_OPEN self)
      else Raise breaker_open_error
  | _ => Ok self
  end.

Definition call {W A} `{Clock W} (func : M W A) : M (t * W) A :=
  fun '(self, w) =>
    match call_gate self (datetime_now w) with
    | Raise e => (Raise e, (self, w))
    | Ok self1 =>
        match func w with
        | (Ok result, w') => (Ok result, (_on_success self1, w'))
        | (Raise e, w') => (Raise e, (_on_failure self1 (datetime_now w'), w'))
        end
    end.

End CircuitBreaker.

(** ** Cache key (cache.py) *)

Module CacheManager.

Definition str_le (a b : str) : Prop := str_leb a b = true.

#[export] Instance str_le_dec a b : Decision (str_le a b).
Proof. unfold str_le. apply _. Defined.

(** [kwargs[key]] on the keyword arguments in call order *)
Fixpoint kwargs_get (key : str) (kwargs : list (str * str)) : option str :=
  match kwargs with
  | [] => None
  | (k, v) :: rest => if str_eqb k key then Some v else kwargs_get key rest
  end.

Section Key.
Context `{PyRuntime}.

Definition normalize_location (location : str) : str :=
  replace_char 32%N 95%N (strip (str_lower location)).

(** The components joined by ["|"]; a value is given by its [str()]. *)
Definition key_components (location data_type : str) (kwargs : list (str * str))
  : list str :=
  [normalize_location location; data_type]
  ++ map (fun key => key ++ py ":" ++ default [] (kwargs_get key kwargs))
         (merge_sort str_le (map fst kwargs)).

Definition key_string (location data_type : str) (kwargs : list (str * str)) : str :=
  join (py "|") (key_components location data_type kwargs).

Definition generate_cache_key (location data_type : str) (kwargs : list (str * str))
  : Res str :=
  match encode_utf8 (key_string location data_type kwargs) with
  | None => Raise (OtherException (py "UnicodeEncodeError"))
  | Some bytes => Ok (py "weather_cache:" ++ md5_hexdigest bytes)
  end.
End Key.

End CacheManager.

(** ** Provider payloads

    A well-formed payload of a provider, with the fields the conversions
    read.  A field read with [.get(name, default)] is optional. *)

Record WeatherItem : Type := { description : str; icon : str }.

Record OWMCurrent : Type := {
  owm_temp : Q;
  owm_feels_like : Q;
  owm_humidity : Q;
  owm_pressure : Q;
  owm_weather : list WeatherItem;
  owm_wind_speed : option Q;
  owm_wind_deg : option Q;
  owm_visibility : option Q
}.

Record WAPICurrent : Type := {
  temp_c : Q; temp_f : Q;
  feelslike_c : Q; feelslike_f : Q;
  wapi_humidity : Q;
  wind_kph : Q; wind_mph : Q;
  wind_degree : Q;
  pressure_mb : Q;
  vis_km : Q; vis_miles : Q;
  uv : option Q;
  condition_text : str;
  condition_icon : str
}.

Inductive RawCurrent : Type :=
| OWM_current (r : OWMCurrent)
| WAPI_current (r : WAPICurrent).

Record OWMForecastItem : Type := {
  dt : Z;
  item_temp : Q;
  item_humidity : Q;
  item_weather : list WeatherItem;
  item_wind_speed : option Q;
  item_pop : option Q
}.

Record WAPIForecastDay : Type := {
  day_date : str;
  maxtemp_c : Q; maxtemp_f : Q;
  mintemp_c : Q; mintemp_f : Q;
  day_condition_text : str;
  daily_chance_of_rain : option Q;
  maxwind_kph : Q; maxwind_mph : Q;
  avghumidity : Q
}.

Inductive RawForecast : Type :=
| OWM_forecast (list_ : list OWMForecastItem)
| WAPI_forecast (forecastday : list WAPIForecastDay).

(** ** Collaborators of the service (interfaces.py) *)

Inductive DataType : Type := Weather | Forecast.

Definition data_type_str (d : DataType) : str :=
  match d with Weather => py "weather" | Forecast => py "forecast" end.

Definition payload (d : DataType) : Type :=
  match d with Weather => WeatherData.t | Forecast => ForecastData.t end.

Record WeatherConfig : Type := {
  api_provider : str;
  cache_ttl_current : Z;
  cache_ttl_forecast : Z
}.

Class Collaborators (W : Type) := {
  collab_clock :: Clock W;
  parse_location : str -> M W LocationInfo;
  suggest_corrections : str -> M W (list str);
  get_user_preferences : str -> M W UserPrefs;
  get_cached_weather : str -> M W (option WeatherData.t);
  cache_weather_data : str -> WeatherData.t -> Z -> M W unit;
  get_cached_forecast : str -> M W (option ForecastData.t);
  cache_forecast_data : str -> ForecastData.t -> Z -> M W unit;
  fetch_current_weather : str -> M W RawCurrent;
  fetch_forecast : str -> Z -> M W RawForecast;
  (** the two direct database reads of the fallback; they swallow every
      exception themselves *)
  _get_stale_cache_data : forall d : DataType, str -> W -> option (payload d) * W;
  _get_similar_location_cache :
    forall d : DataType, str -> str -> list (str * str) -> W -> option (payload d) * W
}.

(** ** The weather service (weather_service.py) *)

Module WeatherService.

Import CircuitBreaker.

Definition res_try {A} (r : Res A) (handler : exn -> Res A) : Res A :=
  match r with
  | Ok a => Ok a
  | Raise e => handler e
  end.

(** *** Retry wrapper *)

Definition non_retryable_errors : list str :=
  map py ["invalid"; "404"; "not found"; "unauthorized"; "401";
          "forbidden"; "403"; "bad request"; "400"; "quota";
          "limit exceeded"; "api key"]%string.

Definition is_non_retryable (error_msg : str) : bool :=
  existsb (fun keyword => str_in keyword error_msg) non_retryable_errors.

Definition actual_delay (error_msg : str) (retry_delay : Q) : Q :=
  if str_in (py "rate limit") error_msg || str_in (py "429") error_msg then
    (retry_delay * 3)%Q
  else if str_in (py "timeout") error_msg || str_in (py "network") error_msg then
    retry_delay
  else if str_in (py "500") error_msg || str_in (py "502") error_msg
          || str_in (py "503") error_msg then
    (retry_delay * 2)%Q
  else retry_delay.

Section Retry.
Context `{PyRuntime} {St A : Type}.
Variable sleep : Q -> St -> St.
Variable api_call : M St A.

(** The [for attempt in range(max_retries + 1)] loop with [todo]
    iterations left, followed by the final [raise];
    [attempt < max_retries] holds when an iteration is left after the
    current one. *)
Fixpoint retry_loop (todo : nat) (retry_delay : Q) (last_error : option exn)
  : M St A :=
  match todo with
  | O => raise (default (APIError (py "API调用失败")) last_error)
  | S todo' =>
      fun s =>
        match api_call s with
        | (Ok result, s') => (Ok result, s')
        | (Raise e, s') =>
            if is_APIError e then
              let error_msg := str_lower (exn_str e) in
              if is_non_retryable error_msg then (Raise e, s')
              else
                match todo' with
                | S _ =>
                    retry_loop todo' (retry_delay * (3 # 2))%Q (Some e)
                               (sleep (actual_delay error_msg retry_delay) s')
                | O => retry_loop todo' retry_delay (Some e) s'
                end
            else (Raise e, s')
        end
  end.

Definition _handle_api_error_with_retry (max_retries : Z) (retry_delay : Q) : M St A :=
  retry_loop (Z.to_nat (max_retries + 1)) retry_delay None.
End Retry.

(** *** Validator and sanitizer *)

Definition _validate_weather_data (data : WeatherData.t) : bool :=
  if negb (Qle_bool (-100) (WeatherData.temperature data)
           && Qle_bool (WeatherData.temperature data) 60) then false
  else if negb ((0 <=? WeatherData.humidity data)
                && (WeatherData.humidity data <=? 100)) then false
  else if Qlt_bool (WeatherData.wind_speed data) 0
          || Qlt_bool 500 (WeatherData.wind_speed data) then false
  else if negb (Qle_bool 800 (WeatherData.pressure data)
                && Qle_bool (WeatherData.pressure data) 1100) then false
  else if bool_decide (WeatherData.location data = [])
          || bool_decide (WeatherData.condition data = []) then false
  else true.

(** [if x < lo: x = lo elif x > hi: x = hi] *)
Definition clampQ (lo hi x : Q) : Q :=
  if Qlt_bool x lo then lo else if Qlt_bool hi x then hi else x.

Definition clampZ (lo hi x : Z) : Z :=
  if x <? lo then lo else if hi <? x then hi else x.

Definition _sanitize_weather_data (data : WeatherData.t) : WeatherData.t :=
  WeatherData.mk
    (strip (WeatherData.location data))
    (clampQ (-100) 60 (WeatherData.temperature data))
    (WeatherData.feels_like data)
    (clampZ 0 100 (WeatherData.humidity data))
    (clampQ 0 500 (WeatherData.wind_speed data))
    (WeatherData.wind_direction data mod 360)
    (clampQ 800 1100 (WeatherData.pressure data))
    (WeatherData.visibility data)
    (WeatherData.uv_index data)
    (strip (WeatherData.condition data))
    (WeatherData.condition_code data)
    (WeatherData.timestamp data)
    (WeatherData.units data).

(** *** Conversion of the current weather *)

Definition first_weather (l : list WeatherItem) : Res WeatherItem :=
  match l with
  | [] => Raise (IndexError (py "list index out of range"))
  | w :: _ => Ok w
  end.

Section Convert.
Context `{PyRuntime}.
Variable config : WeatherConfig.

Definition _convert_openweathermap_current
  (raw_data : RawCurrent) (location units : str) (now : Z) : Res WeatherData.t :=
  match raw_data with
  | WAPI_current _ => Raise (KeyError (py "'main'"))
  | OWM_current r =>
      let? weather := first_weather (owm_weather r) in
      WeatherData.new
        (WeatherData.mk
           location
           (owm_temp r)
           (owm_feels_like r)
           (int_of_float (owm_humidity r))
           (default 0%Q (owm_wind_speed r))
           (int_of_float (default 0%Q (owm_wind_deg r)))
           (owm_pressure r)
           (default 10000%Q (owm_visibility r) / 1000)%Q
           0%Q
           (description weather)
           (icon weather)
           now
           units)
  end.

Definition _convert_weatherapi_current
  (raw_data : RawCurrent) (location units : str) (now : Z) : Res WeatherData.t :=
  match raw_data with
  | OWM_current _ => Raise (KeyError (py "'current'"))
  | WAPI_current r =>
      let metric := str_eqb units (py "metric") in
      WeatherData.new
        (WeatherData.mk
           location
           (if metric then temp_c r else temp_f r)
           (if metric then feelslike_c r else feelslike_f r)
           (int_of_float (wapi_humidity r))
           (if metric then wind_kph r else wind_mph r)
           (int_of_float (wind_degree r))
           (pressure_mb r)
           (if metric then vis_km r else vis_miles r)
           (default 0%Q (uv r))
           (condition_text r)
           (condition_icon r)
           now
           units)
  end.

Definition _convert_current_weather_data
  (raw_data : RawCurrent) (location units : str) (now : Z) : Res WeatherData.t :=
  res_try
    (if str_eqb (api_provider config) (py "openweathermap") then
       _convert_openweathermap_current raw_data location units now
     else if str_eqb (api_provider config) (py "weatherapi") then
       _convert_weatherapi_current raw_data location units now
     else Raise (WeatherError (py "不支持的API提供商: " ++ api_provider config)))
    (fun e =>
       match e with
       | KeyError _ => Raise (WeatherError (py "API数据格式错误，缺少字段: " ++ exn_str e))
       | _ => Raise (WeatherError (py "数据转换失败: " ++ exn_str e))
       end).

(** *** Conversion of the forecast *)

(** The grouping loop: [daily_data[date_key].append(item)] for each
    entry, in payload order. *)
Fixpoint group_by_date (items : list OWMForecastItem)
  (daily_data : gmap Z (list OWMForecastItem))
  : Res (gmap Z (list OWMForecastItem)) :=
  match items with
  | [] => Ok daily_data
  | item :: rest =>
      match local_date (dt item) with
      | None => Raise (OverflowError (py "timestamp out of range for platform time_t"))
      | Some date_key =>
          group_by_date rest
            (<[date_key := default [] (daily_data !! date_key) ++ [item]]> daily_data)
      end
  end.

(** [max(set(conditions), key=conditions.count)] *)
Definition most_common (conditions : list str) : Res str :=
  match set_order conditions with
  | [] => Raise (ValueError (py "max() arg is an empty sequence"))
  | c :: rest => Ok (max_by_from (count_occ_str conditions) c rest)
  end.

(** The body of the loop over the sorted dates. *)
Definition convert_day (date_key : Z) (day_items : list OWMForecastItem)
  : Res ForecastDay.t :=
  let temps := map item_temp day_items in
  let humidities := map item_humidity day_items in
  let wind_speeds := map (fun item => default 0%Q (item_wind_speed item)) day_items in
  let? conditions :=
    res_mapM (fun item => let? w := first_weather (item_weather item) in
                          Ok (description w)) day_items in
  let? main_condition := most_common conditions in
  let pops := map (fun item => (default 0%Q (item_pop item) * 100)%Q) day_items in
  let avg_pop := match pops with [] => 0%Q | _ => mean pops end in
  let? high := py_max temps in
  let? low := py_min temps in
  ForecastDay.new
    (ForecastDay.mk
       date_key high low main_condition
       (int_of_float avg_pop)
       (mean wind_speeds)
       (int_of_float (mean humidities))).

(** [sorted(daily_data.keys())] *)
Definition sorted_keys (daily_data : gmap Z (list OWMForecastItem)) : list Z :=
  merge_sort Z.le (map fst (map_to_list daily_data)).

Definition _convert_openweathermap_forecast
  (raw_data : RawForecast) (location : str) (days : Z) (units : str) (now : Z)
  : Res ForecastData.t :=
  match raw_data with
  | WAPI_forecast _ => Raise (KeyError (py "'list'"))
  | OWM_forecast forecast_list =>
      let? daily_data := group_by_date forecast_list ∅ in
      let? forecast_days :=
        res_mapM (fun date_key =>
                    convert_day date_key (default [] (daily_data !! date_key)))
                 (slice_to (sorted_keys daily_data) days) in
      Ok (ForecastData.mk location forecast_days units now)
  end.

Definition convert_weatherapi_day (units : str) (day : WAPIForecastDay)
  : Res ForecastDay.t :=
  let metric := str_eqb units (py "metric") in
  match strptime_date (day_date day) with
  | None => Raise (ValueError (py "time data does not match format '%Y-%m-%d'"))
  | Some d =>
      ForecastDay.new
        (ForecastDay.mk
           d
           (if metric then maxtemp_c day else maxtemp_f day)
           (if metric then mintemp_c day else mintemp_f day)
           (day_condition_text day)
           (int_of_float (default 0%Q (daily_chance_of_rain day)))
           (if metric then maxwind_kph day else maxwind_mph day)
           (int_of_float (avghumidity day)))
  end.

Definition _convert_weatherapi_forecast
  (raw_data : RawForecast) (location : str) (days : Z) (units : str) (now : Z)
  : Res ForecastData.t :=
  match raw_data with
  | OWM_forecast _ => Raise (KeyError (py "'forecast'"))
  | WAPI_forecast forecastday =>
      let? forecast_days :=
        res_mapM (convert_weatherapi_day units) (slice_to forecastday days) in
      Ok (ForecastData.mk location forecast_days units now)
  end.

Definition _convert_forecast_data
  (raw_data : RawForecast) (location : str) (days : Z) (units : str) (now : Z)
  : Res ForecastData.t :=
  res_try
    (if str_eqb (api_provider config) (py "openweathermap") then
       _convert_openweathermap_forecast raw_data location days units now
     else if str_eqb (api_provider config) (py "weatherapi") then
       _convert_weatherapi_forecast raw_data location days units now
     else Raise (WeatherError (py "不支持的API提供商: " ++ api_provider config)))
    (fun e =>
       match e with
       | KeyError _ => Raise (WeatherError (py "预报数据格式错误，缺少字段: " ++ exn_str e))
       | _ => Raise (WeatherError (py "预报数据转换失败: " ++ exn_str e))
       end).
End Convert.

(** *** User-facing error messages *)

Definition error_messages (location : str) : list (str * str) :=
  [ (py "api_unavailable",
     py "抱歉，天气服务暂时不可用。请稍后重试查询 " ++ location
        ++ py " 的天气。我们正在努力恢复服务。");
    (py "location_not_found",
     py "未找到位置 '" ++ location
        ++ py "'，请检查拼写或尝试使用更具体的地名（如：北京市、上海市浦东新区）。");
    (py "rate_limit",
     py "请求过于频繁，请稍后再试。为了保证服务质量，我们限制了查询频率。");
    (py "network_error",
     py "网络连接出现问题，请检查网络连接后重试。如果问题持续存在，请联系管理员。");
    (py "service_error",
     py "天气服务出现错误，无法获取 " ++ location
        ++ py " 的天气信息。请稍后重试或联系技术支持。");
    (py "invalid_location",
     py "位置 '" ++ location
        ++ py "' 无效，请提供有效的城市名称或坐标（如：北京、上海、40.7128,-74.0060）。");
    (py "data_error",
     py "天气数据格式错误，我们已记录此问题并正在修复。请稍后重试。");
    (py "timeout_error",
     py "获取 " ++ location ++ py " 天气信息超时，请检查网络连接或稍后重试。");
    (py "auth_error", py "API认证失败，请检查配置或联系管理员。");
    (py "quota_exceeded", py "今日查询次数已达上限，请明天再试或升级服务计划。");
    (py "maintenance", py "天气服务正在维护中，预计很快恢复。感谢您的耐心等待。");
    (py "invalid_api_key", py "API密钥无效或已过期，请联系管理员更新配置。");
    (py "server_error",
     py "天气服务器出现内部错误，无法处理 " ++ location
        ++ py " 的请求。我们已收到错误报告。") ].

Definition _get_friendly_error_message (error_type location : str) : str :=
  default
    (py "获取 " ++ location
        ++ py " 天气信息时发生未知错误，请稍后重试。如问题持续，请联系技术支持。")
    (CacheManager.kwargs_get error_type (error_messages location)).

(** [kw in error_msg] for a literal [kw] *)
Definition keyword_in (error_msg : str) (kw : string) : bool :=
  str_in (py kw) error_msg.

Section Orchestrator.
Context `{PyRuntime} {W : Type} `{Collaborators W}.
Variable config : WeatherConfig.

(** The state the service works on: its breaker and the world. *)
Definition ServiceState : Type := (CircuitBreaker.t * W)%type.

Definition liftW {A} (m : M W A) : M ServiceState A :=
  fun '(breaker, w) => let '(r, w') := m w in (r, (breaker, w')).

Definition now : M ServiceState Z :=
  fun '(breaker, w) => (Ok (datetime_now w), (breaker, w)).

Definition sleep (delay : Q) (s : ServiceState) : ServiceState :=
  (fst s, asyncio_sleep delay (snd s)).

(** The chain of tests on the message of the [APIError] that survived
    the fallback. *)
Definition friendly_error (e : exn) (location : str) : exn :=
  let error_msg := str_lower (exn_str e) in
  if keyword_in error_msg "rate limit" || keyword_in error_msg "429" then
    APIError (_get_friendly_error_message (py "rate_limit") [])
  else if keyword_in error_msg "not found" || keyword_in error_msg "404" then
    LocationError (_get_friendly_error_message (py "location_not_found") location)
  else if keyword_in error_msg "network" || keyword_in error_msg "timeout" || keyword_in error_msg "connection" then
    APIError (_get_friendly_error_message (py "network_error") [])
  else if keyword_in error_msg "unauthorized" || keyword_in error_msg "401" then
    APIError (_get_friendly_error_message (py "auth_error") [])
  else if keyword_in error_msg "forbidden" || keyword_in error_msg "403" then
    APIError (_get_friendly_error_message (py "invalid_api_key") [])
  else if keyword_in error_msg "quota" || keyword_in error_msg "limit exceeded" then
    APIError (_get_friendly_error_message (py "quota_exceeded") [])
  else if keyword_in error_msg "maintenance" || keyword_in error_msg "503" then
    APIError (_get_friendly_error_message (py "maintenance") [])
  else if keyword_in error_msg "500" || keyword_in error_msg "internal server" then
    APIError (_get_friendly_error_message (py "server_error") location)
  else
    APIError (_get_friendly_error_message (py "api_unavailable") location).

(** [except LocationError:] of the three entry points *)
Definition location_error_handler {A} (location : str) : M ServiceState A :=
  suggestions <- liftW (suggest_corrections location);
  match suggestions with
  | [] => raise (LocationError (py "无法解析位置: " ++ location))
  | _ =>
      raise (LocationError (py "位置 '" ++ location ++ py "' 未找到，您是否想查询: "
                              ++ join (py ", ") (take 3 suggestions)))
  end.

(** [stale_data.condition = f"[...] {stale_data.condition}"], for the
    records that have a [condition] attribute *)
Definition tag_condition (d : DataType) (tag : str) : payload d -> payload d :=
  match d with
  | Weather => fun data =>
      WeatherData.mk
        (WeatherData.location data) (WeatherData.temperature data)
        (WeatherData.feels_like data) (WeatherData.humidity data)
        (WeatherData.wind_speed data) (WeatherData.wind_direction data)
        (WeatherData.pressure data) (WeatherData.visibility data)
        (WeatherData.uv_index data)
        (tag ++ py " " ++ WeatherData.condition data)
        (WeatherData.condition_code data) (WeatherData.timestamp data)
        (WeatherData.units data)
  | Forecast => fun data => data
  end.

Definition _fallback_to_stale_cache
  (d : DataType) (location user_id : str) (kwargs : list (str * str))
  : M ServiceState (option (payload d)) :=
  try_except
    (user_prefs <- liftW (get_user_preferences user_id);
     let units := units user_prefs in
     location_info <- liftW (parse_location location);
     let normalized_location := name location_info in
     cache_key <- lift_res (CacheManager.generate_cache_key
                              normalized_location (data_type_str d)
                              ((py "units", units) :: kwargs));
     stale_data <- liftW (fun w => let '(r, w') := _get_stale_cache_data d cache_key w in
                                   (Ok r, w'));
     match stale_data with
     | Some data => ret (Some (tag_condition d (py "[缓存数据]") data))
     | None =>
         similar_data <- liftW (fun w =>
                                  let '(r, w') :=
                                    _get_similar_location_cache
                                      d normalized_location units kwargs w in
                                  (Ok r, w'));
         match similar_data with
         | Some data => ret (Some (tag_condition d (py "[相似位置]") data))
         | None => ret None
         end
     end)
    (fun _ => ret None).

(** [except APIError as e:] of [get_current_weather] and [get_forecast] *)
Definition api_error_handler
  (d : DataType) (e : exn) (location user_id : str) (kwargs : list (str * str))
  : M ServiceState (payload d) :=
  fallback_data <- try_except (_fallback_to_stale_cache d location user_id kwargs)
                              (fun _ => ret None);
  match fallback_data with
  | Some data => ret data
  | None => raise (friendly_error e location)
  end.

Definition get_current_weather_body (location user_id : str)
  : M ServiceState WeatherData.t :=
  location_info <- liftW (parse_location location);
  let normalized_location := name location_info in
  user_prefs <- liftW (get_user_preferences user_id);
  let units := units user_prefs in
  cache_key <- lift_res (CacheManager.generate_cache_key
                           normalized_location (py "weather") [(py "units", units)]);
  cached_data <- liftW (get_cached_weather cache_key);
  match cached_data with
  | Some data => ret data
  | None =>
      raw_data <- _handle_api_error_with_retry sleep
                    (CircuitBreaker.call (fetch_current_weather normalized_location))
                    2 1;
      timestamp <- now;
      weather_data <- lift_res (_convert_current_weather_data
                                  config raw_data normalized_location units timestamp);
      let weather_data :=
        if negb (_validate_weather_data weather_data)
        then _sanitize_weather_data weather_data else weather_data in
      _ <- liftW (cache_weather_data cache_key weather_data (cache_ttl_current config));
      ret weather_data
  end.

Definition get_current_weather (location user_id : str)
  : M ServiceState WeatherData.t :=
  try_except (get_current_weather_body location user_id)
    (fun e =>
       match e with
       | LocationError _ => location_error_handler location
       | APIError _ => api_error_handler Weather e location user_id []
       | _ => raise (WeatherError (py "获取天气数据时发生错误: " ++ exn_str e))
       end).

Definition get_forecast_body (location : str) (days : Z) (user_id : str)
  : M ServiceState ForecastData.t :=
  if (days <=? 0) || (16 <? days) then
    raise (ValueError (py "预报天数必须在 1-16 之间"))
  else
    location_info <- liftW (parse_location location);
    let normalized_location := name location_info in
    user_prefs <- liftW (get_user_preferences user_id);
    let units := units user_prefs in
    cache_key <- lift_res (CacheManager.generate_cache_key
                             normalized_location (py "forecast")
                             [(py "days", str_of_Z days); (py "units", units)]);
    cached_data <- liftW (get_cached_forecast cache_key);
    match cached_data with
    | Some data => ret data
    | None =>
        raw_data <- _handle_api_error_with_retry sleep
                      (CircuitBreaker.call (fetch_forecast normalized_location days))
                      2 1;
        generated_at <- now;
        forecast_data <- lift_res (_convert_forecast_data
                                     config raw_data normalized_location days units
                                     generated_at);
        _ <- liftW (cache_forecast_data cache_key forecast_data
                      (cache_ttl_forecast config));
        ret forecast_data
    end.

Definition get_forecast (location : str) (days : Z) (user_id : str)
  : M ServiceState ForecastData.t :=
  try_except (get_forecast_body location days user_id)
    (fun e =>
       match e with
       | LocationError _ => location_error_handler location
       | APIError _ =>
           api_error_handler Forecast e location user_id [(py "days", str_of_Z days)]
       | _ => raise (WeatherError (py "获取预报数据时发生错误: " ++ exn_str e))
       end).
End Orchestrator.

End WeatherService.

(** ** Regular expressions

    The fragment of [re] the command parser uses: literals, character
    sets, greedy and lazy repetition of one character set, optional parts,
    alternation, one capturing group and the end anchor.  Matching is
    backtracking search with the priorities of [re]: alternatives from left
    to right, greedy repetition longest first, lazy repetition shortest
    first, [search] at the leftmost position that matches. *)

Module Re.

Inductive item : Type :=
| Rng (lo hi : char)
| Sp.

Inductive cset : Type :=
| CAny                                   (* any character but a newline *)
| CSpace                                 (* white space *)
| CChar (c : char)                       (* a literal character *)
| CSet (negated : bool) (items : list item).   (* a bracketed set, possibly negated *)

Inductive re : Type :=
| Eps
| One (c : cset)
| Rep (lazy : bool) (at_least_one : bool) (c : cset)   (* repetition of c: star, plus and their lazy forms *)
| Seq (r1 r2 : re)
| Alt (r1 r2 : re)
| Opt (r : re)                           (* optional r *)
| Group (r : re)                         (* capturing group 1 *)
| Eol.                                   (* end anchor *)

(** Case folding of [re.IGNORECASE] on the characters that can equal an
    ASCII letter: the ASCII capitals and U+0130, U+0131, U+017F, U+212A. *)
Definition fold_case (c : char) : char :=
  if (c <? 65)%N then c
  else if (c <=? 90)%N then (c + 32)%N
  else if (c <? 304)%N then c
  else if (c <=? 305)%N then 105%N
  else if (c =? 383)%N then 115%N
  else if (c =? 8490)%N then 107%N
  else c.

Definition in_range (lo hi t : char) : bool :=
  if (lo <=? t)%N then (t <=? hi)%N else false.

(** [t] is the character read and [ft] its folded form when case is
    ignored ([t] itself otherwise). *)
Definition item_matches (i : item) (t ft : char) : bool :=
  match i with
  | Sp => isspace t
  | Rng lo hi => if in_range lo hi t then true else in_range lo hi ft
  end.

Fixpoint items_match (items : list item) (t ft : char) : bool :=
  match items with
  | [] => false
  | i :: items' => if item_matches i t ft then true else items_match items' t ft
  end.

Definition cset_matches (ignorecase : bool) (c : cset) (t : char) : bool :=
  match c with
  | CAny => negb (t =? 10)%N
  | CSpace => isspace t
  | CChar p =>
      if (p =? t)%N then true
      else if ignorecase then (fold_case p =? fold_case t)%N else false
  | CSet negated items =>
      xorb negated (items_match items t (if ignorecase then fold_case t else t))
  end.

(** The state of group 1: the text where it opened and where it closed. *)
Definition capture : Type := option (str * str).

(** A successful match, with the state of group 1. *)
Definition result : Type := option capture.

Section Match.
Variable ignorecase : bool.

Fixpoint rep_greedy (c : cset) (s : str) (k : str -> result) : result :=
  match s with
  | t :: s' =>
      if cset_matches ignorecase c t then
        match rep_greedy c s' k with
        | Some m => Some m
        | None => k s
        end
      else k s
  | [] => k s
  end.

Fixpoint rep_lazy (c : cset) (s : str) (k : str -> result) : result :=
  match k s with
  | Some m => Some m
  | None =>
      match s with
      | t :: s' => if cset_matches ignorecase c t then rep_lazy c s' k else None
      | [] => None
      end
  end.

Definition one (c : cset) (s : str) (k : str -> result) : result :=
  match s with
  | t :: s' => if cset_matches ignorecase c t then k s' else None
  | [] => None
  end.

(** [exec r s g k]: match [r] at the head of [s], then continue with
    [k] on the rest; the first success in priority order wins. *)
Fixpoint exec (r : re) (s : str) (g : capture) (k : str -> capture -> result)
  : result :=
  match r with
  | Eps => k s g
  | One c => one c s (fun s' => k s' g)
  | Rep lazy at_least_one c =>
      let loop := if lazy then rep_lazy else rep_greedy in
      if at_least_one then one c s (fun s' => loop c s' (fun s'' => k s'' g))
      else loop c s (fun s' => k s' g)
  | Seq r1 r2 => exec r1 s g (fun s' g' => exec r2 s' g' k)
  | Alt r1 r2 =>
      match exec r1 s g k with
      | Some m => Some m
      | None => exec r2 s g k
      end
  | Opt r1 =>
      match exec r1 s g k with
      | Some m => Some m
      | None => k s g
      end
  | Group r1 => exec r1 s g (fun s' _ => k s' (Some (s, s')))
  | Eol =>
      match s with
      | [] => k s g
      | [t] => if (t =? 10)%N then k s g else None
      | _ => None
      end
  end.

(** [pattern.search(text)]: [None] when nothing matches. *)
Fixpoint search (r : re) (text : str) : result :=
  match exec r text None (fun _ g => Some g) with
  | Some m => Some m
  | None =>
      match text with
      | [] => None
      | _ :: text' => search r text'
      end
  end.
End Match.

(** [match.group(1)]; [None] when the group took no part in the match. *)
Definition group1 (g : capture) : option str :=
  match g with
  | None => None
  | Some (opened, closed) => Some (take (length opened - length closed) opened)
  end.

(** Writing patterns: [ws_star] and [ws_plus] are white space repeated,
    [any_plus] and [any_star] the captured run of any characters. *)
Fixpoint chars (s : str) : re :=
  match s with
  | [] => Eps
  | [c] => One (CChar c)
  | c :: s' => Seq (One (CChar c)) (chars s')
  end.

Definition lit (s : string) : re := chars (py s).

Fixpoint seqs (rs : list re) : re :=
  match rs with
  | [] => Eps
  | [r] => r
  | r :: rs' => Seq r (seqs rs')
  end.

Fixpoint alts (rs : list re) : re :=
  match rs with
  | [] => Eps
  | [r] => r
  | r :: rs' => Alt r (alts rs')
  end.

Definition lits (ss : list string) : re := alts (map lit ss).

Definition ws_star : re := Rep false false CSpace.
Definition ws_plus : re := Rep false true CSpace.
Definition any_plus : re := Group (Rep false true CAny).
Definition any_star : re := Group (Rep false false CAny).

(** a word of a pattern followed by [\s+] *)
Definition word (s : string) : re := Seq (lit s) ws_plus.

(** one of the characters of [s] as set items *)
Definition chars_of (s : string) : list item := map (fun c => Rng c c) (py s).

End Re.

(** ** Command parser (command_parser.py) *)

Inductive CommandType : Type :=
| CURRENT_WEATHER | FORECAST | HOURLY_FORECAST | SET_LOCATION
| SET_UNITS | HELP | ALERTS | ACTIVITIES.

(** A value of the [additional_params] dictionary. *)
Inductive ParamValue : Type :=
| PStr (s : str)
| PInt (n : Z).

Record WeatherCommand : Type := {
  command_type : CommandType;
  location : option str;
  time_period : option str;
  additional_params : gmap str ParamValue
}.

Module CommandParser.

Import Re.

(** [(?:in\s+|at\s+|for\s+)?] and its variants *)
Definition opt_words (ws : list string) : re := Opt (alts (map word ws)).

(** [what'?s\s+the\s+] with an optional apostrophe *)
Definition whats_the (w : string) : re :=
  seqs [lit w; Opt (lit "'"); lit "s"; ws_plus; lit "the"; ws_plus].

Definition weather_patterns : list re :=
  [ seqs [lits ["今天"; "现在"]; any_star; lits ["天气"; "气温"; "温度"];
          lits ["怎么样"; "如何"; "多少"]];
    seqs [any_star; lits ["的天气"; "天气怎么样"; "天气如何"; "气温多少"]];
    seqs [lits ["天气"; "weather"]; ws_star; any_plus];
    seqs [any_plus; lits ["天气"; "weather"]];
    seqs [Opt (whats_the "what"); lit "weather"; ws_plus;
          opt_words ["in"; "at"; "for"]; any_plus];
    seqs [Opt (whats_the "how"); lit "weather"; ws_plus;
          opt_words ["in"; "at"; "for"]; any_plus];
    seqs [lit "current"; ws_plus; lit "weather"; ws_plus;
          opt_words ["in"; "at"; "for"]; any_plus] ]%string.

Definition forecast_patterns : list re :=
  [ seqs [lits ["明天"; "后天"; "大后天"]; any_star;
          lits ["天气"; "气温"; "温度"; "预报"];
          alts [lit "怎么样"; lit "如何"; lit "多少"; Eol]];
    seqs [any_star; lits ["明天"; "后天"; "大后天"]; lits ["天气"; "预报"]];
    seqs [any_star; lits ["的预报"; "预报怎么样"]];
    seqs [lits ["预报"; "forecast"]; ws_star; any_plus];
    seqs [Opt (word "weather"); lit "forecast"; ws_plus;
          opt_words ["for"; "in"; "at"]; any_plus];
    seqs [Opt (whats_the "what"); lit "forecast"; ws_plus;
          opt_words ["for"; "in"; "at"]; any_plus];
    seqs [alts [seqs [word "will"; word "it"; lit "rain"];
                seqs [word "will"; word "it"; lit "snow"]];
          ws_plus; opt_words ["in"; "at"]; any_plus];
    seqs [lit "tomorrow"; Opt (lit "'"); Opt (lit "s"); ws_plus; lit "weather"; ws_plus;
          opt_words ["in"; "at"; "for"]; any_plus] ]%string.

Definition hourly_patterns : list re :=
  [ seqs [lits ["小时"; "hourly"]; ws_star; lits ["预报"; "forecast"]; ws_star; any_plus];
    seqs [any_plus; lits ["的小时预报"; "小时预报"]];
    seqs [lit "hourly"; ws_plus; Opt (word "weather");
          opt_words ["for"; "in"; "at"]; any_plus] ]%string.

Definition help_patterns : list re :=
  [ lits ["帮助"; "help"; "使用说明"; "命令列表"];
    seqs [lits ["天气"; "weather"]; lits ["帮助"; "help"]];
    alts [seqs [word "how"; word "to"; lit "use"]; lit "usage"; lit "commands"] ]%string.

Definition set_location_patterns : list re :=
  [ seqs [lits ["设置"; "set"]; ws_star; lits ["位置"; "location"]; ws_star; any_plus];
    seqs [lits ["默认"; "default"]; ws_star; lits ["位置"; "location"]; ws_star; any_plus];
    seqs [word "set"; Opt (word "my"); Opt (word "default"); word "location";
          Opt (word "to"); any_plus] ]%string.

Definition set_units_patterns : list re :=
  [ seqs [lits ["设置"; "set"]; ws_star; lits ["单位"; "units"]; ws_star; any_plus];
    seqs [lits ["使用"; "use"]; ws_star; any_plus; ws_star; lits ["单位"; "units"]];
    seqs [word "set"; word "units"; Opt (word "to"); any_plus] ]%string.

Definition alert_patterns : list re :=
  [ seqs [lits ["警报"; "alert"; "通知"; "notification"]; any_plus];
    seqs [any_plus; lits ["警报"; "alert"]];
    seqs [word "weather"; lits ["alert"; "warning"]; Opt (lit "s"); ws_star;
          Opt (word "for"); any_plus] ]%string.

Definition activity_patterns : list re :=
  [ seqs [lits ["活动"; "activity"; "activities"]; ws_star;
          lits ["推荐"; "recommendation"]; any_plus];
    seqs [any_plus; lits ["适合什么活动"; "能做什么"]];
    seqs [word "what";
          alts [seqs [word "can"; word "i"; lit "do"]; lit "activities"];
          ws_plus; opt_words ["in"; "at"]; any_plus];
    seqs [Opt (word "outdoor"); lit "activities"; ws_plus;
          opt_words ["for"; "in"; "at"]; any_plus] ]%string.

(** The punctuation set [，,。.！!？?] of the location patterns. *)
Definition punct : list item := chars_of "，,。.！!？?".

Definition letters_or_space : cset :=
  CSet false [Rng 97 122; Rng 65 90; Sp]%N.

Definition location_extraction_patterns : list re :=
  [ seqs [lits ["今天"; "明天"; "后天"]; ws_star;
          Group (Rep true true (CSet true (chars_of "的天气预报")));
          alts [lit "的天气"; lit "天气"; lit "预报"; Eol]];
    seqs [Group (Rep true true (CSet true punct));
          lits ["的天气"; "天气怎么样"; "天气如何"; "的预报"; "的小时预报"; "小时预报"]];
    seqs [lits ["天气"; "预报"; "小时预报"; "weather"; "forecast"; "hourly"]; ws_plus;
          Group (Rep true true (CSet true punct));
          alts [Eol; One (CSet false punct)]];
    seqs [lits ["在"; "去"; "到"; "位于"]; ws_star;
          Group (Rep true true (CSet true (chars_of "的")));
          alts [lit "的"; Eol]];
    seqs [lits ["weather"; "forecast"; "hourly"]; ws_plus;
          opt_words ["in"; "at"; "for"];
          Group (Rep true true letters_or_space);
          alts [Eol; One (CSet false (chars_of ",."))]];
    seqs [lits ["in"; "at"; "for"]; ws_plus;
          Group (Rep true true letters_or_space);
          alts [Seq ws_plus (lit "weather"); Seq ws_plus (lit "forecast"); Eol]] ]%string.

(** The table of time words, in the order the dictionary is filled. *)
Definition time_patterns : list (str * list re) :=
  [ (py "today", [lit "今天"; lit "现在"; lit "当前"; lit "today"; lit "now"; lit "current"]);
    (py "tomorrow", [lit "明天"; lit "tomorrow"]);
    (py "day_after_tomorrow",
     [lit "后天"; seqs [word "day"; word "after"; lit "tomorrow"]]);
    (py "this_week", [lit "这周"; lit "本周"; seqs [word "this"; lit "week"]]);
    (py "next_week", [lit "下周"; seqs [word "next"; lit "week"]]) ]%string.

(** All patterns are compiled with [re.IGNORECASE]. *)
Definition matches (pattern : re) (text : str) : bool :=
  match search true pattern text with
  | Some _ => true
  | None => false
  end.

Definition any_matches (patterns : list re) (text : str) : bool :=
  existsb (fun pattern => matches pattern text) patterns.

Definition detect_command_type (text : str) : CommandType :=
  match text with
  | [] => CURRENT_WEATHER
  | _ =>
      let text := strip text in
      if any_matches help_patterns text then HELP
      else if any_matches set_location_patterns text then SET_LOCATION
      else if any_matches set_units_patterns text then SET_UNITS
      else if any_matches alert_patterns text then ALERTS
      else if any_matches activity_patterns text then ACTIVITIES
      else if any_matches hourly_patterns text then HOURLY_FORECAST
      else if any_matches forecast_patterns text then FORECAST
      else if any_matches weather_patterns text then CURRENT_WEATHER
      else CURRENT_WEATHER
  end.

Definition _extract_time_period (text : str) : option str :=
  match List.find (fun entry => any_matches (snd entry) text) time_patterns with
  | None => None
  | Some (time_key, _) => Some time_key
  end.

Section Parser.
Context `{PyRuntime}.

Definition is_digit (c : char) : bool :=
  match decimal_value c with Some _ => true | None => false end.

(** [re.findall(r'\d+', text)]: the maximal runs of decimal digits;
    [run] holds the current run, last digit first. *)
Fixpoint digit_runs (text : str) (run : str) : list str :=
  match text with
  | [] => match run with [] => [] | _ => [rev_append run []] end
  | c :: text' =>
      if is_digit c then digit_runs text' (c :: run)
      else match run with
           | [] => digit_runs text' []
           | _ => rev_append run [] :: digit_runs text' []
           end
  end.

(** [int(num_str)] on a run of decimal digits.  The interpreter refuses
    a string of more than [sys.int_info.default_max_str_digits] = 4300
    digits with a [ValueError]. *)
Definition int_max_str_digits : nat := 4300.

Definition int_of_digits (num_str : str) : Res Z :=
  if (int_max_str_digits <? length num_str)%nat then
    Raise (ValueError
             (py "Exceeds the limit (4300 digits) for integer string conversion: value has "
                 ++ str_of_Z (Z.of_nat (length num_str))
                 ++ py " digits; use sys.set_int_max_str_digits() to increase the limit"))
  else
    Ok (fold_left (fun acc c => 10 * acc + default 0 (decimal_value c)) num_str 0).

(** [for num_str in numbers: num = int(num_str); if lo <= num <= hi: return num] *)
Fixpoint first_in_range (lo hi : Z) (numbers : list str) : Res (option Z) :=
  match numbers with
  | [] => Ok None
  | num_str :: rest =>
      let? num := int_of_digits num_str in
      if (lo <=? num) && (num <=? hi) then Ok (Some num)
      else first_in_range lo hi rest
  end.

Definition _extract_units (text : str) : option str :=
  let metric_keywords := map py ["摄氏度"; "公制"; "metric"; "celsius"; "c"]%string in
  let imperial_keywords := map py ["华氏度"; "英制"; "imperial"; "fahrenheit"; "f"]%string in
  let text_lower := str_lower text in
  if existsb (fun keyword => str_in keyword text_lower) metric_keywords then
    Some (py "metric")
  else if existsb (fun keyword => str_in keyword text_lower) imperial_keywords then
    Some (py "imperial")
  else None.

Definition _extract_forecast_days (text : str) : Res (option Z) :=
  let numbers := digit_runs text [] in
  if str_in (py "明天") text || str_in (py "tomorrow") (str_lower text) then Ok (Some 1)
  else if str_in (py "后天") text || str_in (py "day after tomorrow") (str_lower text) then
    Ok (Some 2)
  else if str_in (py "三天") text || str_in (py "3天") text
          || str_in (py "3 day") (str_lower text) then Ok (Some 3)
  else if str_in (py "一周") text || str_in (py "7天") text
          || str_in (py "week") (str_lower text) then Ok (Some 7)
  else first_in_range 1 14 numbers.

Definition _extract_forecast_hours (text : str) : Res Z :=
  let numbers := digit_runs text [] in
  if str_in (py "小时") text || str_in (py "hour") (str_lower text) then
    let? found := first_in_range 1 48 numbers in
    match found with
    | Some num => Ok num
    | None => Ok 24
    end
  else Ok 24.

Definition _extract_additional_params (text : str) (command_type : CommandType)
  : Res (gmap str ParamValue) :=
  match command_type with
  | SET_UNITS =>
      match _extract_units text with
      | Some units => Ok (<[py "units" := PStr units]> ∅)
      | None => Ok ∅
      end
  | FORECAST =>
      let? days := _extract_forecast_days text in
      match days with
      | Some days => if days =? 0 then Ok ∅ else Ok (<[py "days" := PInt days]> ∅)
      | None => Ok ∅
      end
  | HOURLY_FORECAST =>
      let? hours := _extract_forecast_hours text in
      if hours =? 0 then Ok ∅ else Ok (<[py "hours" := PInt hours]> ∅)
  | _ => Ok ∅
  end.

(** [s.split()]: the runs of characters that are not white space *)
Fixpoint split_ws (s : str) (run : str) : list str :=
  match s with
  | [] => match run with [] => [] | _ => [rev_append run []] end
  | c :: s' =>
      if isspace c then
        match run with
        | [] => split_ws s' []
        | _ => rev_append run [] :: split_ws s' []
        end
      else split_ws s' (c :: run)
  end.

Definition str_elem (x : str) (l : list str) : bool :=
  existsb (fun y => str_eqb x y) l.

Definition _clean_location_string (location : str) : str :=
  match location with
  | [] => []
  | _ =>
      let stop_words :=
        map py ["的"; "在"; "去"; "到"; "位于"; "地方"; "城市"; "地区"; "今天"; "明天"; "后天";
                "the"; "in"; "at"; "for"; "of"; "city"; "area"; "place"; "today";
                "tomorrow"]%string in
      let time_words := map py ["今天"; "明天"; "后天"; "today"; "tomorrow"]%string in
      let location :=
        List.filter (fun c => negb (existsb (N.eqb c) (py "，,。.！!？?；;：:"))) location in
      let words := split_ws location [] in
      let filtered_words :=
        List.filter (fun word =>
                       negb (str_elem (str_lower word) time_words)
                       && negb (str_elem (str_lower word) stop_words)) words in
      strip (join (py " ") filtered_words)
  end.

Definition _is_valid_location (location : str) : bool :=
  if bool_decide (location = []) || (length (strip location) <? 2)%nat then false
  else
    let invalid_words :=
      map py ["今天"; "明天"; "后天"; "现在"; "当前"; "天气"; "预报";
              "today"; "tomorrow"; "now"; "current"; "weather"; "forecast";
              "怎么样"; "如何"; "多少"; "how"; "what"; "when"; "where"]%string in
    negb (str_elem (strip (str_lower location)) invalid_words).

Definition _looks_like_location (word : str) : bool :=
  if (length word <? 2)%nat then false
  else
    let location_indicators :=
      map py ["市"; "省"; "县"; "区"; "镇"; "村"; "州"; "港"; "岛"]%string in
    if existsb (fun indicator => str_in indicator word) location_indicators then true
    else if str_isupper (take 1 word) && str_isalpha word then true
    else
      let common_cities :=
        map py ["北京"; "上海"; "广州"; "深圳"; "杭州"; "南京"; "武汉"; "成都"; "西安"; "重庆";
                "beijing"; "shanghai"; "guangzhou"; "shenzhen"; "hangzhou"; "nanjing";
                "wuhan"; "chengdu"; "xian"; "chongqing"; "london"; "paris"; "tokyo";
                "newyork"; "losangeles"; "chicago"; "houston"; "philadelphia"]%string in
      str_elem (str_lower word) common_cities.

(** The words of [re.findall(r'[\u4e00-\u9fff]+|[a-zA-Z]+', text)]:
    maximal runs of ideographs and maximal runs of ASCII letters. *)
Definition word_kind (c : char) : option bool :=
  if ((19968 <=? c) && (c <=? 40959))%N then Some true
  else if (((97 <=? c) && (c <=? 122)) || ((65 <=? c) && (c <=? 90)))%N then Some false
  else None.

Fixpoint word_runs (text : str) (kind : option bool) (run : str) : list str :=
  let flush := match run with [] => [] | _ => [rev_append run []] end in
  match text with
  | [] => flush
  | c :: text' =>
      match word_kind c with
      | None => flush ++ word_runs text' None []
      | Some k =>
          if bool_decide (kind = Some k) then word_runs text' kind (c :: run)
          else flush ++ word_runs text' (Some k) [c]
      end
  end.

Definition _extract_location_fallback (text : str) : option str :=
  List.find (fun word => (2 <=? length word)%nat && _is_valid_location word
                         && _looks_like_location word)
            (word_runs text None []).

(** The loop of [extract_location] over the compiled patterns. *)
Fixpoint extract_location_loop (patterns : list re) (text : str) : Res (option str) :=
  match patterns with
  | [] => Ok (_extract_location_fallback text)
  | pattern :: rest =>
      match search true pattern text with
      | None => extract_location_loop rest text
      | Some m =>
          match group1 m with
          | None =>
              Raise (OtherException (py "'NoneType' object has no attribute 'strip'"))
          | Some g =>
              let location := _clean_location_string (strip g) in
              if negb (bool_decide (location = [])) && _is_valid_location location
              then Ok (Some location)
              else extract_location_loop rest text
          end
      end
  end.

Definition extract_location (text : str) : Res (option str) :=
  match text with
  | [] => Ok None
  | _ => extract_location_loop location_extraction_patterns text
  end.

Definition parse_command (message : str) : Res (option WeatherCommand) :=
  if bool_decide (message = []) || bool_decide (strip message = []) then Ok None
  else
    let message := strip message in
    let command_type := detect_command_type message in
    match command_type with
    | HELP => Ok (Some (Build_WeatherCommand command_type None None ∅))
    | _ =>
        let? location := extract_location message in
        let time_period := _extract_time_period message in
        let? additional_params := _extract_additional_params message command_type in
        Ok (Some (Build_WeatherCommand command_type location time_period
                                       additional_params))
    end.
End Parser.

End CommandParser.

(** ** A runtime to run the model on ASCII and Chinese text

    On text whose cased letters and digits are ASCII these functions agree
    with the interpreter; the parts no example depends on are left trivial. *)
Definition ascii_runtime : PyRuntime := {|
  str_lower := ascii_lower;
  decimal_value := ascii_decimal;
  float_str := fun _ => py "<float>";
  md5_hexdigest := fun bytes => map (fun b => (b mod 16 + 97)%N) bytes;
  set_order := fun l => remove_dups l;
  local_date := fun t => Some (t / 86400);
  strptime_date := fun _ => None;
  str_isupper := fun s => forallb (fun c => ((65 <=? c) && (c <=? 90))%N) s
                          && negb (bool_decide (s = []));
  str_isalpha := fun s => forallb (fun c => ((97 <=? c) && (c <=? 122))%N
                                            || ((65 <=? c) && (c <=? 90))%N
                                            || ((19968 <=? c) && (c <=? 40959))%N) s
                          && negb (bool_decide (s = []))
|}.

(** ** Vocabulary of the properties *)

(** [y] is [x] clamped to the interval from [lo] to [hi]. *)
Definition clampedQ (lo hi x y : Q) : Prop :=
  (lo <= y <= hi)%Q /\
  ((x < lo)%Q -> y = lo) /\ ((hi < x)%Q -> y = hi) /\ ((lo <= x <= hi)%Q -> y = x).

Definition clampedZ (lo hi x y : Z) : Prop :=
  lo <= y <= hi /\
  (x < lo -> y = lo) /\ (hi < x -> y = hi) /\ (lo <= x <= hi -> y = x).

(** The ranges the constructors of the records enforce. *)
Definition weather_in_range (w : WeatherData.t) : Prop :=
  0 <= WeatherData.humidity w <= 100 /\
  (0 <= WeatherData.wind_speed w)%Q /\
  0 <= WeatherData.wind_direction w <= 360.

Definition day_in_range (d : ForecastDay.t) : Prop :=
  (ForecastDay.low_temp d <= ForecastDay.high_temp d)%Q /\
  0 <= ForecastDay.precipitation_chance d <= 100.

(** Calls through the breaker one after the other, each with its own
    wrapped function. *)
Fixpoint calls {W A} `{Clock W} (funcs : list (M W A)) (s : CircuitBreaker.t * W)
  : CircuitBreaker.t * W :=
  match funcs with
  | [] => s
  | func :: rest => calls rest (snd (CircuitBreaker.call func s))
  end.

(** A wrapped function that raises whenever it is invoked. *)
Definition always_fails {W A} (func : M W A) : Prop :=
  forall w, exists e w', func w = (Raise e, w').

(** A world that is only a clock: the state is the time, and sleeping
    moves it forward. *)
#[export] Instance clock_world : Clock Z := {|
  datetime_now := fun w => w;
  asyncio_sleep := fun delay w => w + int_of_float (delay * 1000000)
|}.

(** A call that takes one second and fails. *)
Definition failing_call : M Z unit :=
  fun w => (Raise (APIError (py "HTTP 500")), w + 1000000).

(** A state with a record of what the retry wrapper did to it: how many
    times the call was made, the errors it raised and the delays slept,
    oldest first. *)
Record Recorded (St : Type) : Type := mkRecorded {
  rec_inner : St;
  rec_attempts : nat;
  rec_errors : list exn;
  rec_sleeps : list Q
}.
Arguments mkRecorded {St}.
Arguments rec_inner {St}.
Arguments rec_attempts {St}.
Arguments rec_errors {St}.
Arguments rec_sleeps {St}.

Definition fresh_record {St} (s : St) : Recorded St := mkRecorded s 0 [] [].

Definition recorded_call {St A} (api_call : M St A) : M (Recorded St) A :=
  fun r =>
    match api_call (rec_inner r) with
    | (Ok result, s') =>
        (Ok result, mkRecorded s' (S (rec_attempts r)) (rec_errors r) (rec_sleeps r))
    | (Raise e, s') =>
        (Raise e, mkRecorded s' (S (rec_attempts r)) (rec_errors r ++ [e]) (rec_sleeps r))
    end.

Definition recorded_sleep {St} (sleep : Q -> St -> St) (delay : Q) (r : Recorded St)
  : Recorded St :=
  mkRecorded (sleep delay (rec_inner r)) (rec_attempts r) (rec_errors r)
             (rec_sleeps r ++ [delay]).

(** An error the retry wrapper answers with a further attempt. *)
Definition retryable `{PyRuntime} (e : exn) : Prop :=
  is_APIError e = true /\
  WeatherService.is_non_retryable (str_lower (exn_str e)) = false.

(** The base delay after [k] attempts. *)
Fixpoint grown (retry_delay : Q) (k : nat) : Q :=
  match k with
  | O => retry_delay
  | S k' => grown (retry_delay * (3 # 2))%Q k'
  end.

(** The delays slept after the errors [errs], starting from [retry_delay]. *)
Fixpoint backoff `{PyRuntime} (retry_delay : Q) (errs : list exn) : list Q :=
  match errs with
  | [] => []
  | e :: rest =>
      WeatherService.actual_delay (str_lower (exn_str e)) retry_delay
      :: backoff (retry_delay * (3 # 2))%Q rest
  end.

(** The classes of error messages the delay depends on. *)
Definition rate_limit_msg (error_msg : str) : bool :=
  str_in (py "rate limit") error_msg || str_in (py "429") error_msg.
Definition network_msg (error_msg : str) : bool :=
  str_in (py "timeout") error_msg || str_in (py "network") error_msg.
Definition server_msg (error_msg : str) : bool :=
  str_in (py "500") error_msg || str_in (py "502") error_msg || str_in (py "503") error_msg.

(** What a run of the retry loop with [todo] iterations adds to the record:
    the errors [errs] of its attempts, and the delays slept between them. *)
Definition loop_outcome `{PyRuntime} {St A} (todo : nat) (delay : Q) (last : option exn)
  (r : Recorded St) (res : Res A) (r' : Recorded St) : Prop :=
  exists errs,
    rec_errors r' = rec_errors r ++ errs /\
    match res with
    | Ok _ =>
        rec_attempts r' = (rec_attempts r + length errs + 1)%nat /\
        (length errs < todo)%nat /\
        Forall retryable errs /\
        rec_sleeps r' = rec_sleeps r ++ backoff delay errs
    | Raise e =>
        rec_attempts r' = (rec_attempts r + length errs)%nat /\
        (length errs <= todo)%nat /\
        ((errs = [] /\ todo = O /\ rec_sleeps r' = rec_sleeps r /\
          e = default (APIError (py "API调用失败")) last) \/
         (exists es, errs = es ++ [e] /\ Forall retryable es /\
                     rec_sleeps r' = rec_sleeps r ++ backoff delay es /\
                     (retryable e -> length errs = todo)))
    end.

(** The entries of a payload that fall on the calendar date [d]. *)
Definition entries_on `{PyRuntime} (d : Z) (items : list OWMForecastItem)
  : list OWMForecastItem :=
  List.filter (fun item => bool_decide (local_date (dt item) = Some d)) items.

(** The condition texts of a group of entries. *)
Definition conditions_of (items : list OWMForecastItem) : list str :=
  flat_map (fun item => match item_weather item with
                        | [] => []
                        | w :: _ => [description w]
                        end) items.

(** [c] occurs in [conditions], and no text occurs more often. *)
Definition most_frequent (conditions : list str) (c : str) : Prop :=
  c ∈ conditions /\
  forall c', count_occ_str conditions c' <= count_occ_str conditions c.

(** The most frequent text with ties broken by first-seen order. *)
Definition first_seen_most_common (conditions : list str) : option str :=
  match conditions with
  | [] => None
  | c :: rest => Some (max_by_from (count_occ_str conditions) c rest)
  end.

(** A set yields each of its elements once, in some order. *)
Definition set_order_ok `{PyRuntime} : Prop :=
  forall l : list str, set_order l ≡ₚ remove_dups l.

(** A runtime whose sets yield their elements in the opposite order. *)
Definition reversed_set_runtime : PyRuntime := {|
  str_lower := ascii_lower;
  decimal_value := ascii_decimal;
  float_str := fun _ => py "<float>";
  md5_hexdigest := fun bytes => map (fun b => (b mod 16 + 97)%N) bytes;
  set_order := fun l => rev (remove_dups l);
  local_date := fun t => Some (t / 86400);
  strptime_date := fun _ => None;
  str_isupper := @str_isupper ascii_runtime;
  str_isalpha := @str_isalpha ascii_runtime
|}.

(** A forecast entry with the given time, temperature, humidity, condition
    text and precipitation probability. *)
Definition entry (t : Z) (temp humidity : Q) (text : string) (pop : Q) : OWMForecastItem :=
  {| dt := t; item_temp := temp; item_humidity := humidity;
     item_weather := [ {| description := py text; icon := py "01d" |} ];
     item_wind_speed := Some 3%Q; item_pop := Some pop |}.

(** A payload of three dates: one entry with humidity 150; three entries with
    humidities 60, 61, 61; two entries with different condition texts. *)
Definition sample_entries : list OWMForecastItem :=
  [ entry 0 10 150 "rain" 0;
    entry 86400 10 60 "rain" 0; entry 90000 12 61 "rain" (1 # 2);
    entry 93600 11 61 "rain" 1;
    entry 172800 10 50 "rain" 0; entry 176400 10 50 "clear" 0 ].

Definition sample_forecast : RawForecast := OWM_forecast sample_entries.

Definition owm_config : WeatherConfig :=
  {| api_provider := py "openweathermap"; cache_ttl_current := 600;
     cache_ttl_forecast := 3600 |}.

(** [m] is the first largest element of [x :: l] in the order of [Q]. *)
Definition is_max_of (l : list Q) (m : Q) : Prop :=
  In m l /\ forall x, In x l -> (x <= m)%Q.
Definition is_min_of (l : list Q) (m : Q) : Prop :=
  In m l /\ forall x, In x l -> (m <= x)%Q.

(** What a [ForecastDay] says about the entries of its date. *)
Definition day_summarises `{PyRuntime} (items : list OWMForecastItem) (day : ForecastDay.t)
  : Prop :=
  let group := entries_on (ForecastDay.date day) items in
  group <> [] /\
  is_max_of (map item_temp group) (ForecastDay.high_temp day) /\
  is_min_of (map item_temp group) (ForecastDay.low_temp day) /\
  (ForecastDay.low_temp day <= ForecastDay.high_temp day)%Q /\
  ForecastDay.humidity day = int_of_float (mean (map item_humidity group)) /\
  ForecastDay.precipitation_chance day
  = int_of_float (mean (map (fun item => (default 0%Q (item_pop item) * 100)%Q) group)) /\
  0 <= ForecastDay.precipitation_chance day <= 100 /\
  ForecastDay.wind_speed day
  = mean (map (fun item => default 0%Q (item_wind_speed item)) group) /\
  most_frequent (conditions_of group) (ForecastDay.condition day) /\
  (Forall (fun item => (0 <= item_humidity item <= 100)%Q) group ->
   0 <= ForecastDay.humidity day <= 100).

(** A payload the conversion accepts: every time stamp has a date, every
    entry a condition, every probability lies between 0 and 1. *)
Definition well_formed_forecast `{PyRuntime} (items : list OWMForecastItem) : Prop :=
  Forall (fun item =>
            is_Some (local_date (dt item)) /\
            item_weather item <> [] /\
            (0 <= default 0%Q (item_pop item) <= 1)%Q) items.

(** The daily entries of a payload carry dates in ascending order.  The
    first provider's entries are grouped and sorted by the conversion itself;
    the second provider's days are taken in payload order. *)
Definition payload_ascending `{PyRuntime} (raw_data : RawForecast) : Prop :=
  match raw_data with
  | OWM_forecast _ => True
  | WAPI_forecast forecastday =>
      exists dates,
        Forall2 (fun day d => strptime_date (day_date day) = Some d) forecastday dates /\
        StronglySorted Z.lt dates
  end.

(** A pattern that matches no text over [alphabet]: it needs a character
    that none of the alphabet's characters is. *)
Fixpoint unmatchable (ignorecase : bool) (alphabet : list char) (r : Re.re) : bool :=
  let none_of c := forallb (fun t => negb (Re.cset_matches ignorecase c t)) alphabet in
  match r with
  | Re.Eps | Re.Eol | Re.Opt _ => false
  | Re.One c => none_of c
  | Re.Rep _ at_least_one c => if at_least_one then none_of c else false
  | Re.Seq r1 r2 =>
      if unmatchable ignorecase alphabet r1 then true else unmatchable ignorecase alphabet r2
  | Re.Alt r1 r2 =>
      if unmatchable ignorecase alphabet r1 then unmatchable ignorecase alphabet r2 else false
  | Re.Group r1 => unmatchable ignorecase alphabet r1
  end.

(** A request for an hourly forecast followed by a number of 4301 digits. *)
Definition long_hourly_request : str := py "北京小时预报 " ++ repeat 49%N 4301.

(** A text without the separator of the key components. *)
Definition sep_free (s : str) : Prop := 124%N ∉ s.

(** A current-weather payload of the first provider with the given
    temperature, humidity, wind speed, wind direction and pressure. *)
Definition current_payload (temp humidity speed deg pressure : Q) : RawCurrent :=
  OWM_current
    {| owm_temp := temp; owm_feels_like := temp; owm_humidity := humidity;
       owm_pressure := pressure;
       owm_weather := [ {| description := py "晴朗"; icon := py "01d" |} ];
       owm_wind_speed := Some speed; owm_wind_deg := Some deg;
       owm_visibility := Some 10000%Q |}.

(** A world for examples: the state is the clock, every location resolves
    to itself, the user prefers metric units, the cache is empty and stays so,
    and the provider answers every request after one second with the same
    payloads. *)
Definition sample_world (current : RawCurrent) (forecast : RawForecast)
  : Collaborators Z := {|
  collab_clock := clock_world;
  parse_location := fun location w => (Ok {| name := location |}, w);
  suggest_corrections := fun _ w => (Ok [], w);
  get_user_preferences := fun _ w => (Ok {| units := py "metric" |}, w);
  get_cached_weather := fun _ w => (Ok None, w);
  cache_weather_data := fun _ _ _ w => (Ok tt, w);
  get_cached_forecast := fun _ w => (Ok None, w);
  cache_forecast_data := fun _ _ _ w => (Ok tt, w);
  fetch_current_weather := fun _ w => (Ok current, w + 1000000);
  fetch_forecast := fun _ _ w => (Ok forecast, w + 1000000);
  _get_stale_cache_data := fun _ _ w => (None, w);
  _get_similar_location_cache := fun _ _ _ _ w => (None, w)
|}.

(** ** Vocabulary for the further properties *)

(** A pattern every match of which passes through group 1. *)
Fixpoint always_captures (r : Re.re) : bool :=
  match r with
  | Re.Group _ => true
  | Re.Seq r1 r2 => if always_captures r1 then true else always_captures r2
  | Re.Alt r1 r2 => if always_captures r1 then always_captures r2 else false
  | _ => false
  end.

(** The breaker between two calls: CLOSED with fewer failures than the
    threshold, or OPEN with at least as many and the time of the last one;
    never HALF_OPEN. *)
Definition breaker_consistent (self : CircuitBreaker.t) : Prop :=
  1 <= CircuitBreaker.failure_threshold self /\
  0 <= CircuitBreaker.failure_count self /\
  match CircuitBreaker.state self with
  | CircuitBreaker.CLOSED =>
      CircuitBreaker.failure_count self < CircuitBreaker.failure_threshold self
  | CircuitBreaker.OPEN =>
      CircuitBreaker.failure_threshold self <= CircuitBreaker.failure_count self /\
      is_Some (CircuitBreaker.last_failure_time self)
  | CircuitBreaker.HALF_OPEN => False
  end.

(** The bounds the validator checks and the sanitizer restores. *)
Definition weather_within_bounds (w : WeatherData.t) : Prop :=
  (-100 <= WeatherData.temperature w <= 60)%Q /\
  0 <= WeatherData.humidity w <= 100 /\
  (0 <= WeatherData.wind_speed w <= 500)%Q /\
  (800 <= WeatherData.pressure w <= 1100)%Q.

(** ** The provider client (api_client.py)

    Naive datetimes are counted in microseconds from a midnight, as the
    clock of the service does. *)

Module WeatherAPIClient.

(** The fields of [WeatherConfig] and of the provider's configuration the
    client reads. *)
Record ClientConfig : Type := {
  client_api_provider : str;
  api_key : str;
  default_units : str;
  default_language : str;
  rate_limit_per_minute : Z;
  rate_limit_per_day : Z;
  api_key_required : bool;
  base_url : str
}.

(** [self._rate_limit_tracker] *)
Record Tracker : Type := mkTracker {
  requests : list Z;
  daily_count : Z;
  daily_reset : Z
}.

Definition one_minute : Z := 60000000.
Definition one_day : Z := 86400000000.

(** [now.replace(hour=0, minute=0, second=0, microsecond=0) + timedelta(days=1)] *)
Definition next_midnight (now : Z) : Z := now / one_day * one_day + one_day.

(** The tracker [__init__] builds. *)
Definition new_tracker (now : Z) : Tracker := mkTracker [] 0 (next_midnight now).

Definition check_rate_limit (config : ClientConfig) (now : Z) (tracker : Tracker)
  : bool * Tracker :=
  let tracker :=
    if daily_reset tracker <=? now
    then mkTracker (requests tracker) 0 (next_midnight now)
    else tracker in
  let minute_ago := now - one_minute in
  let tracker :=
    mkTracker (List.filter (fun req_time => minute_ago <? req_time) (requests tracker))
              (daily_count tracker) (daily_reset tracker) in
  if rate_limit_per_minute config <=? Z.of_nat (length (requests tracker)) then
    (false, tracker)
  else if rate_limit_per_day config <=? daily_count tracker then (false, tracker)
  else (true, tracker).

Definition _record_request (now : Z) (tracker : Tracker) : Tracker :=
  mkTracker (requests tracker ++ [now]) (daily_count tracker + 1) (daily_reset tracker).

(** What [aiohttp] raises inside [_make_request]: the two classes it
    catches, and anything else. *)
Inductive HttpExn : Type :=
| ClientError (description : str)
| TimeoutError
| OtherExn (e : exn).

(** A response: its status, and what awaiting [response.json()] and
    [response.text()] gives. *)
Record Response (A : Type) : Type := mkResponse {
  status : Z;
  json : A + HttpExn;
  text : str + HttpExn
}.
Arguments mkResponse {A} status json text.
Arguments status {A} r.
Arguments json {A} r.
Arguments text {A} r.

(** The HTTP session: [A] is the type of the JSON documents it delivers. *)
Class HttpSession (W A : Type) := {
  http_clock :: Clock W;
  _ensure_session : W -> W;
  session_get : str -> list (str * ParamValue) -> W -> (Response A + HttpExn) * W
}.

(** [params[key] = value] *)
Fixpoint dict_set (key : str) (value : ParamValue) (params : list (str * ParamValue))
  : list (str * ParamValue) :=
  match params with
  | [] => [(key, value)]
  | (k, v) :: rest =>
      if str_eqb k key then (k, value) :: rest else (k, v) :: dict_set key value rest
  end.

(** [except aiohttp.ClientError as e: ... except asyncio.TimeoutError: ...] *)
Definition http_error (e : HttpExn) : exn :=
  match e with
  | ClientError description => APIError (py "网络请求失败: " ++ description)
  | TimeoutError => APIError (py "API 请求超时")
  | OtherExn e => e
  end.

Section Client.
Context {W A : Type} `{HttpSession W A}.
Variable config : ClientConfig.

(** The branch on [response.status] *)
Definition response_result (response : Response A) : Res A :=
  if status response =? 200 then
    match json response with
    | inl document => Ok document
    | inr e => Raise (http_error e)
    end
  else if status response =? 401 then Raise (APIError (py "API 密钥无效或已过期"))
  else if status response =? 404 then Raise (APIError (py "请求的位置未找到"))
  else if status response =? 429 then Raise (APIError (py "API 请求频率过高，请稍后再试"))
  else if 500 <=? status response then
    Raise (APIError (py "API 服务器错误: " ++ str_of_Z (status response)))
  else
    match text response with
    | inl error_text =>
        Raise (APIError (py "API 请求失败: " ++ str_of_Z (status response)
                           ++ py " - " ++ error_text))
    | inr e => Raise (http_error e)
    end.

Definition _make_request (endpoint : str) (params : list (str * ParamValue))
  : M (Tracker * W) A :=
  fun '(tracker, w) =>
    let '(allowed, tracker) := check_rate_limit config (datetime_now w) tracker in
    if negb allowed then
      (Raise (APIError (py "API 速率限制已达到，请稍后再试")), (tracker, w))
    else
      let w := _ensure_session w in
      let params :=
        if api_key_required config then
          if str_eqb (client_api_provider config) (py "openweathermap") then
            dict_set (py "appid") (PStr (api_key config)) params
          else if str_eqb (client_api_provider config) (py "weatherapi") then
            dict_set (py "key") (PStr (api_key config)) params
          else params
        else params in
      let url := base_url config ++ py "/" ++ endpoint in
      let tracker := _record_request (datetime_now w) tracker in
      match session_get url params w with
      | (inl response, w') => (response_result response, (tracker, w'))
      | (inr e, w') => (Raise (http_error e), (tracker, w'))
      end.

Definition lang (config : ClientConfig) : str :=
  if str_eqb (default_language config) (py "zh") then py "zh_cn" else py "en".

Definition _fetch_openweathermap_current (location : str) : M (Tracker * W) A :=
  _make_request (py "weather")
    [(py "q", PStr location); (py "units", PStr (default_units config));
     (py "lang", PStr (lang config))].

Definition _fetch_weatherapi_current (location : str) : M (Tracker * W) A :=
  _make_request (py "current.json") [(py "q", PStr location); (py "aqi", PStr (py "yes"))].

Definition fetch_current_weather (location : str) : M (Tracker * W) A :=
  if str_eqb (client_api_provider config) (py "openweathermap") then
    _fetch_openweathermap_current location
  else if str_eqb (client_api_provider config) (py "weatherapi") then
    _fetch_weatherapi_current location
  else raise (APIError (py "不支持的 API 提供商: " ++ client_api_provider config)).

Definition _fetch_openweathermap_forecast (location : str) (days : Z) : M (Tracker * W) A :=
  _make_request (py "forecast")
    [(py "q", PStr location); (py "cnt", PInt (days * 8));
     (py "units", PStr (default_units config)); (py "lang", PStr (lang config))].

Definition _fetch_weatherapi_forecast (location : str) (days : Z) : M (Tracker * W) A :=
  _make_request (py "forecast.json")
    [(py "q", PStr location); (py "days", PInt (Z.min days 10));
     (py "aqi", PStr (py "yes")); (py "alerts", PStr (py "yes"))].

Definition fetch_forecast (location : str) (days : Z) : M (Tracker * W) A :=
  if (days <=? 0) || (16 <? days) then raise (APIError (py "预报天数必须在 1-16 之间"))
  else if str_eqb (client_api_provider config) (py "openweathermap") then
    _fetch_openweathermap_forecast location days
  else if str_eqb (client_api_provider config) (py "weatherapi") then
    _fetch_weatherapi_forecast location days
  else raise (APIError (py "不支持的 API 提供商: " ++ client_api_provider config)).

Definition _fetch_openweathermap_hourly (location : str) (hours : Z) : M (Tracker * W) A :=
  _make_request (py "forecast")
    [(py "q", PStr location); (py "cnt", PInt (Z.min hours 40));
     (py "units", PStr (default_units config)); (py "lang", PStr (lang config))].

Definition _fetch_weatherapi_hourly (location : str) (hours : Z) : M (Tracker * W) A :=
  let days := Z.min ((hours + 23) / 24) 3 in
  _make_request (py "forecast.json")
    [(py "q", PStr location); (py "days", PInt days);
     (py "aqi", PStr (py "yes")); (py "alerts", PStr (py "yes"))].

Definition fetch_hourly_forecast (location : str) (hours : Z) : M (Tracker * W) A :=
  if (hours <=? 0) || (48 <? hours) then
    raise (APIError (py "小时预报时长必须在 1-48 小时之间"))
  else if str_eqb (client_api_provider config) (py "openweathermap") then
    _fetch_openweathermap_hourly location hours
  else if str_eqb (client_api_provider config) (py "weatherapi") then
    _fetch_weatherapi_hourly location hours
  else raise (APIError (py "不支持的 API 提供商: " ++ client_api_provider config)).
End Client.

End WeatherAPIClient.

(** One request after the other through the limiter, as [_make_request]
    makes them: the limiter is asked at [t_check] and, when it allows the
    request, the request is recorded at [t_record] and sent.  The result is
    the requests that were sent, oldest first, and the tracker. *)
Fixpoint limited_requests (config : WeatherAPIClient.ClientConfig)
  (attempts : list (Z * Z)) (tracker : WeatherAPIClient.Tracker)
  : list (Z * Z) * WeatherAPIClient.Tracker :=
  match attempts with
  | [] => ([], tracker)
  | (t_check, t_record) :: rest =>
      let '(allowed, tracker) := WeatherAPIClient.check_rate_limit config t_check tracker in
      if allowed then
        let '(sent, tracker) :=
          limited_requests config rest (WeatherAPIClient._record_request t_record tracker) in
        ((t_check, t_record) :: sent, tracker)
      else limited_requests config rest tracker
  end.

(** Attempts in the order of time: each is checked no earlier than the one
    before was recorded, and recorded no earlier than it is checked. *)
Fixpoint in_time_order (start : Z) (attempts : list (Z * Z)) : Prop :=
  match attempts with
  | [] => True
  | (t_check, t_record) :: rest =>
      start <= t_check /\ t_check <= t_record /\ in_time_order t_record rest
  end.

(** The number of the requests recorded in the minute that ends at [t]. *)
Definition sent_in_minute_to (t : Z) (sent : list (Z * Z)) : Z :=
  Z.of_nat (length (List.filter (fun a => (t - WeatherAPIClient.one_minute <? snd a)
                                           && (snd a <=? t)) sent)).

(** The number of the requests checked on the calendar day [day]. *)
Definition sent_on_day (day : Z) (sent : list (Z * Z)) : Z :=
  Z.of_nat (length (List.filter (fun a => fst a / WeatherAPIClient.one_day =? day) sent)).

(** Text whose only cased characters are ASCII letters: ASCII, the CJK
    symbols and punctuation, the unified Han ideographs and the full-width
    comma.  [str.lower] changes nothing of it but the ASCII capitals. *)
Definition plain_char (c : char) : bool :=
  ((c <? 128) || ((12288 <=? c) && (c <=? 12351)) || ((19968 <=? c) && (c <=? 40959))
   || (c =? 65292))%N.

Definition plain_text (s : str) : bool := forallb plain_char s.

(** The message of the error [_make_request] raises when its limiter
    refuses the request. *)
Definition limiter_refusal : exn := APIError (py "API 速率限制已达到，请稍后再试").

(** An exception that is none of those [_make_request] turns into an
    [APIError]: raised by the session, or while the body is read. *)
Definition foreign_failure {A} (answer : WeatherAPIClient.Response A + WeatherAPIClient.HttpExn)
  (e : exn) : Prop :=
  answer = inr (WeatherAPIClient.OtherExn e) \/
  exists response, answer = inl response /\
    (WeatherAPIClient.json response = inr (WeatherAPIClient.OtherExn e) \/
     WeatherAPIClient.text response = inr (WeatherAPIClient.OtherExn e)).

(** An error the service knows nothing about: the retry wrapper tries again
    after the plain delay, and the user is told that the service is not
    available. *)
Definition treated_as_unknown `{PyRuntime} (e : exn) : Prop :=
  retryable e /\
  (forall retry_delay, WeatherService.actual_delay (str_lower (exn_str e)) retry_delay
                       = retry_delay) /\
  forall location,
    WeatherService.friendly_error e location
    = APIError (WeatherService._get_friendly_error_message (py "api_unavailable") location).

(** The message of the error [_make_request] raises for a status from 500
    on, and the test that the retry wrapper tries again after it. *)
Definition server_error_message (status : Z) : str :=
  py "API 服务器错误: " ++ str_of_Z status.

Definition retried_server_status (status : Z) : bool :=
  plain_text (server_error_message status)
  && negb (WeatherService.is_non_retryable (ascii_lower (server_error_message status))).

(** ** Hourly forecast (weather_service.py, models.py) *)

Module HourlyForecastData.

(** One element of [hours]: the dictionary the conversions build. *)
Record entry : Type := mk_entry {
  datetime : str;
  temperature : Q;
  feels_like : Q;
  humidity : Z;
  wind_speed : Q;
  wind_direction : Z;
  pressure : Q;
  condition : str;
  condition_code : str;
  precipitation_chance : Z
}.

Record t : Type := mk {
  location : str;
  hours : list entry;
  units : str;
  generated_at : Z
}.

End HourlyForecastData.

(** The payloads of the hourly request, with the fields the conversions
    read. *)
Record OWMHourlyItem : Type := {
  hourly_dt : Z;
  hourly_temp : Q;
  hourly_feels_like : Q;
  hourly_humidity : Q;
  hourly_pressure : Q;
  hourly_weather : list WeatherItem;
  hourly_wind_speed : option Q;
  hourly_wind_deg : option Q;
  hourly_pop : option Q
}.

Record WAPIHour : Type := {
  hour_time : str;
  hour_temp_c : Q; hour_temp_f : Q;
  hour_feelslike_c : Q; hour_feelslike_f : Q;
  hour_humidity : Q;
  hour_wind_kph : Q; hour_wind_mph : Q;
  hour_wind_degree : Q;
  hour_pressure_mb : Q;
  hour_condition_text : str;
  hour_condition_icon : str;
  hour_chance_of_rain : option Q
}.

Record WAPIHourlyDay : Type := { hour : list WAPIHour }.

Inductive RawHourly : Type :=
| OWM_hourly (list_ : list OWMHourlyItem)
| WAPI_hourly (forecastday : list WAPIHourlyDay).

(** What the hourly conversions use of [datetime]; a naive datetime is
    counted in microseconds, as the clock does. *)
Class HourlyRuntime := {
  (** [datetime.fromtimestamp(t)]; [None] when the platform rejects the
      timestamp *)
  fromtimestamp : Z -> option Z;
  (** [datetime.strptime(s, '%Y-%m-%d %H:%M')]; [None] when the text does
      not have that format *)
  strptime_minute : str -> option Z;
  (** [dt.isoformat()] *)
  isoformat : Z -> str
}.

(** The hourly request of the provider client, and the values the
    successive calls of [datetime.now()] return while a conversion runs. *)
Class HourlyCollaborators (W : Type) `{Collaborators W} := {
  fetch_hourly_forecast : str -> Z -> M W RawHourly;
  later_now : W -> nat -> Z
}.

Module WeatherServiceHourly.

Import WeatherService.

Section Convert.
Context `{PyRuntime} `{HourlyRuntime}.
Variable config : WeatherConfig.
(** [clock k] is what the call number [k] of [datetime.now()] returns. *)
Variable clock : nat -> Z.

(** The body of the loop of [_convert_openweathermap_hourly]. *)
Definition convert_openweathermap_hour (item : OWMHourlyItem)
  : Res HourlyForecastData.entry :=
  match fromtimestamp (hourly_dt item) with
  | None => Raise (OverflowError (py "timestamp out of range for platform time_t"))
  | Some dt =>
      let? weather := first_weather (hourly_weather item) in
      Ok (HourlyForecastData.mk_entry
            (isoformat dt)
            (hourly_temp item)
            (hourly_feels_like item)
            (int_of_float (hourly_humidity item))
            (default 0%Q (hourly_wind_speed item))
            (int_of_float (default 0%Q (hourly_wind_deg item)))
            (hourly_pressure item)
            (description weather)
            (icon weather)
            (int_of_float (default 0%Q (hourly_pop item) * 100)%Q))
  end.

Definition _convert_openweathermap_hourly
  (raw_data : RawHourly) (location : str) (hours : Z) (units : str)
  : Res HourlyForecastData.t :=
  match raw_data with
  | WAPI_hourly _ => Raise (KeyError (py "'list'"))
  | OWM_hourly hourly_list =>
      let? hourly_data :=
        res_mapM convert_openweathermap_hour (slice_to hourly_list hours) in
      Ok (HourlyForecastData.mk location hourly_data units (clock 0))
  end.

Definition weatherapi_hour_info (units : str) (dt : Z) (hour_data : WAPIHour)
  : HourlyForecastData.entry :=
  let metric := str_eqb units (py "metric") in
  HourlyForecastData.mk_entry
    (isoformat dt)
    (if metric then hour_temp_c hour_data else hour_temp_f hour_data)
    (if metric then hour_feelslike_c hour_data else hour_feelslike_f hour_data)
    (int_of_float (hour_humidity hour_data))
    (if metric then hour_wind_kph hour_data else hour_wind_mph hour_data)
    (int_of_float (hour_wind_degree hour_data))
    (hour_pressure_mb hour_data)
    (hour_condition_text hour_data)
    (hour_condition_icon hour_data)
    (int_of_float (default 0%Q (hour_chance_of_rain hour_data))).

(** The state of the two loops of [_convert_weatherapi_hourly]:
    [hourly_data], [hour_count] and the number of readings of the clock
    made so far. *)
Definition LoopState : Type := (list HourlyForecastData.entry * Z * nat)%type.

(** [for hour_data in day_data['hour']: ...] *)
Fixpoint weatherapi_hours (units : str) (hours : Z) (day_hours : list WAPIHour)
  (st : LoopState) : Res LoopState :=
  match day_hours with
  | [] => Ok st
  | hour_data :: rest =>
      let '(hourly_data, hour_count, readings) := st in
      if hours <=? hour_count then Ok st
      else
        match strptime_minute (hour_time hour_data) with
        | None =>
            Raise (ValueError (py "time data does not match format '%Y-%m-%d %H:%M'"))
        | Some dt =>
            if clock readings <? dt then
              weatherapi_hours units hours rest
                (hourly_data ++ [weatherapi_hour_info units dt hour_data],
                 hour_count + 1, S readings)
            else
              weatherapi_hours units hours rest (hourly_data, hour_count, S readings)
        end
  end.

(** [for day_data in raw_data['forecast']['forecastday']: ...] *)
Fixpoint weatherapi_days (units : str) (hours : Z) (days : list WAPIHourlyDay)
  (st : LoopState) : Res LoopState :=
  match days with
  | [] => Ok st
  | day_data :: rest =>
      let '(_, hour_count, _) := st in
      if hours <=? hour_count then Ok st
      else
        let? st := weatherapi_hours units hours (hour day_data) st in
        weatherapi_days units hours rest st
  end.

Definition _convert_weatherapi_hourly
  (raw_data : RawHourly) (location : str) (hours : Z) (units : str)
  : Res HourlyForecastData.t :=
  match raw_data with
  | OWM_hourly _ => Raise (KeyError (py "'forecast'"))
  | WAPI_hourly forecastday =>
      let? st := weatherapi_days units hours forecastday ([], 0, O) in
      let '(hourly_data, _, readings) := st in
      Ok (HourlyForecastData.mk location hourly_data units (clock readings))
  end.

Definition _convert_hourly_forecast_data
  (raw_data : RawHourly) (location : str) (hours : Z) (units : str)
  : Res HourlyForecastData.t :=
  res_try
    (if str_eqb (api_provider config) (py "openweathermap") then
       _convert_openweathermap_hourly raw_data location hours units
     else if str_eqb (api_provider config) (py "weatherapi") then
       _convert_weatherapi_hourly raw_data location hours units
     else Raise (WeatherError (py "不支持的API提供商: " ++ api_provider config)))
    (fun e =>
       match e with
       | KeyError _ =>
           Raise (WeatherError (py "小时预报数据格式错误，缺少字段: " ++ exn_str e))
       | _ => Raise (WeatherError (py "小时预报数据转换失败: " ++ exn_str e))
       end).
End Convert.

Section Orchestrator.
Context `{PyRuntime} `{HourlyRuntime} {W : Type} `{HourlyCollaborators W}.
Variable config : WeatherConfig.

Definition get_hourly_forecast_body (location : str) (hours : Z) (user_id : str)
  : M (ServiceState (W := W)) HourlyForecastData.t :=
  if (hours <=? 0) || (48 <? hours) then
    raise (ValueError (py "小时预报时长必须在 1-48 小时之间"))
  else
    location_info <- liftW (parse_location location);
    let normalized_location := name location_info in
    user_prefs <- liftW (get_user_preferences user_id);
    let units := units user_prefs in
    cache_key <- lift_res (CacheManager.generate_cache_key
                             normalized_location (py "hourly")
                             [(py "hours", str_of_Z hours); (py "units", units)]);
    raw_data <- _handle_api_error_with_retry sleep
                  (CircuitBreaker.call (fetch_hourly_forecast normalized_location hours))
                  2 1;
    (fun s : ServiceState =>
       (_convert_hourly_forecast_data config (later_now (snd s))
          raw_data normalized_location hours units, s)).

Definition get_hourly_forecast (location : str) (hours : Z) (user_id : str)
  : M (ServiceState (W := W)) HourlyForecastData.t :=
  try_except (get_hourly_forecast_body location hours user_id)
    (fun e =>
       match e with
       | LocationError _ => location_error_handler location
       | APIError _ => raise (friendly_error e location)
       | _ => raise (WeatherError (py "获取小时预报数据时发生错误: " ++ exn_str e))
       end).
End Orchestrator.

End WeatherServiceHourly.

(** ** User preferences (models.py) *)

Inductive AlertType : Type :=
| SEVERE_WEATHER | TEMPERATURE_CHANGE | PRECIPITATION | WIND | UV_INDEX.

#[global] Instance AlertType_eq_dec : EqDecision AlertType.
Proof. solve_decision. Defined.

(** The whole record of [UserPrefs], with its methods; the times are
    readings of [datetime.now()]. *)
Module UserPrefsModel.

Record t : Type := mk {
  user_id : str;
  default_location : option str;
  units : str;
  alert_subscriptions : list AlertType;
  language : str;
  created_at : Z;
  updated_at : Z
}.

Definition units_error (units : str) : exn :=
  ValueError (py "单位必须是 'metric' 或 'imperial'，得到: " ++ units).

(** [units not in ["metric", "imperial"]] *)
Definition bad_units (units : str) : bool :=
  negb (str_eqb units (py "metric") || str_eqb units (py "imperial")).

(** The constructor: the generated [__init__] followed by
    [__post_init__].  An argument left out is [None]; [now_created] and
    [now_updated] are the readings of the clock the defaults use. *)
Definition new (user_id : str) (default_location : option str) (units : str)
  (alert_subscriptions : option (list AlertType)) (language : str)
  (created_at updated_at : option Z) (now_created now_updated : Z) : Res t :=
  let self :=
    mk user_id default_location units (default [] alert_subscriptions) language
       (default now_created created_at) (default now_updated updated_at) in
  if bad_units units then Raise (units_error units) else Ok self.

Definition update_location (location : str) (now : Z) (self : t) : t :=
  mk (user_id self) (Some location) (units self) (alert_subscriptions self)
     (language self) (created_at self) now.

Definition update_units (new_units : str) (now : Z) (self : t) : Res t :=
  if bad_units new_units then Raise (units_error new_units)
  else Ok (mk (user_id self) (default_location self) new_units
              (alert_subscriptions self) (language self) (created_at self) now).

(** [l.remove(x)] for an [x] that is in [l]: the first occurrence goes. *)
Fixpoint list_remove (x : AlertType) (l : list AlertType) : list AlertType :=
  match l with
  | [] => []
  | y :: l' => if bool_decide (y = x) then l' else y :: list_remove x l'
  end.

Definition add_alert_subscription (alert_type : AlertType) (now : Z) (self : t) : t :=
  if bool_decide (alert_type ∈ alert_subscriptions self) then self
  else mk (user_id self) (default_location self) (units self)
          (alert_subscriptions self ++ [alert_type]) (language self)
          (created_at self) now.

Definition remove_alert_subscription (alert_type : AlertType) (now : Z) (self : t) : t :=
  if bool_decide (alert_type ∈ alert_subscriptions self) then
    mk (user_id self) (default_location self) (units self)
       (list_remove alert_type (alert_subscriptions self)) (language self)
       (created_at self) now
  else self.

End UserPrefsModel.

(** The preferences the methods keep: one of the two unit systems, and no
    alert subscribed twice. *)
Definition prefs_consistent (self : UserPrefsModel.t) : Prop :=
  (UserPrefsModel.units self = py "metric" \/ UserPrefsModel.units self = py "imperial") /\
  NoDup (UserPrefsModel.alert_subscriptions self).

(** ** Further examples *)

(** A breaker that opened at time 0 after five failures. *)
Definition open_breaker : CircuitBreaker.t :=
  CircuitBreaker.mk 5 60 5 (Some 0) CircuitBreaker.OPEN.

(** A weather record and a forecast as a cache would hold them. *)
Definition cached_weather : WeatherData.t :=
  WeatherData.mk (py "北京") 25 27 60 3 180 1013 10 0 (py "晴朗") (py "01d") 0 (py "metric").

Definition cached_forecast : ForecastData.t :=
  ForecastData.mk (py "北京") [] (py "metric") 0.

(** The world of [sample_world] with a cache that holds these two under
    every key. *)
Definition cached_world : Collaborators Z := {|
  collab_clock := clock_world;
  parse_location := fun location w => (Ok {| name := location |}, w);
  suggest_corrections := fun _ w => (Ok [], w);
  get_user_preferences := fun _ w => (Ok {| units := py "metric" |}, w);
  get_cached_weather := fun _ w => (Ok (Some cached_weather), w);
  cache_weather_data := fun _ _ _ w => (Ok tt, w);
  get_cached_forecast := fun _ w => (Ok (Some cached_forecast), w);
  cache_forecast_data := fun _ _ _ w => (Ok tt, w);
  fetch_current_weather :=
    fun _ w => (Raise (APIError (py "HTTP 500")), w + 1000000);
  fetch_forecast := fun _ _ w => (Raise (APIError (py "HTTP 500")), w + 1000000);
  _get_stale_cache_data := fun _ _ w => (None, w);
  _get_similar_location_cache := fun _ _ _ _ w => (None, w)
|}.

(** A client allowed two requests a minute and three a day. *)
Definition limited_config : WeatherAPIClient.ClientConfig := {|
  WeatherAPIClient.client_api_provider := py "openweathermap";
  WeatherAPIClient.api_key := py "0123456789abcdef0123456789abcdef";
  WeatherAPIClient.default_units := py "metric";
  WeatherAPIClient.default_language := py "zh";
  WeatherAPIClient.rate_limit_per_minute := 2;
  WeatherAPIClient.rate_limit_per_day := 3;
  WeatherAPIClient.api_key_required := true;
  WeatherAPIClient.base_url := py "https://api.openweathermap.org/data/2.5"
|}.

(** Five attempts: three in the first second, one after a minute and one
    after two minutes; times in microseconds. *)
Definition sample_attempts : list (Z * Z) :=
  [(0, 10); (500000, 500010); (900000, 900010); (61000000, 61000010);
   (121000000, 121000010)].

(** Preferences with one subscription. *)
Definition sample_prefs : UserPrefsModel.t :=
  UserPrefsModel.mk (py "user") None (py "metric") [WIND] (py "zh") 0 0.

(** * Properties *)

(** ** Strings *)

Lemma lstrip_idem s : lstrip (lstrip s) = lstrip s.
Proof.
  induction s as [|c s IH]; simpl; [reflexivity|].
  destruct (isspace c) eqn:E; [exact IH|]. simpl. now rewrite E.
Qed.

Lemma rstrip_idem s : rstrip (rstrip s) = rstrip s.
Proof.
  induction s as [|c s IH]; simpl; [reflexivity|].
  destruct (rstrip s) as [|d r] eqn:E.
  - destruct (isspace c) eqn:Ec; simpl; [reflexivity|]. now rewrite Ec.
  - simpl in *. now rewrite IH.
Qed.

Lemma rstrip_head c s :
  isspace c = false -> exists r, rstrip (c :: s) = c :: r.
Proof.
  intros Hc. simpl. destruct (rstrip s); [rewrite Hc|]; eauto.
Qed.

Lemma lstrip_head s : lstrip s = [] \/ exists c r, lstrip s = c :: r /\ isspace c = false.
Proof.
  induction s as [|c s IH]; simpl; [now left|].
  destruct (isspace c) eqn:E; [exact IH|]. right. eauto.
Qed.

Lemma strip_idem s : strip (strip s) = strip s.
Proof.
  unfold strip. destruct (lstrip_head s) as [->|(c & r & -> & Hc)]; [reflexivity|].
  destruct (rstrip_head c r Hc) as [r' Hr]. rewrite Hr. simpl lstrip. rewrite Hc.
  rewrite <- Hr. apply rstrip_idem.
Qed.

(** ** Numbers *)

Lemma Qlt_bool_iff a b : Qlt_bool a b = true <-> (a < b)%Q.
Proof.
  unfold Qlt_bool. rewrite negb_true_iff. split.
  - intros E. apply Qnot_le_lt. intros Hle. apply Qle_bool_iff in Hle. congruence.
  - intros Hlt. destruct (Qle_bool b a) eqn:E; [|reflexivity].
    apply Qle_bool_iff in E. exfalso. exact (Qlt_not_le _ _ Hlt E).
Qed.

Lemma Qlt_bool_false a b : Qlt_bool a b = false <-> (b <= a)%Q.
Proof.
  unfold Qlt_bool. rewrite negb_false_iff. apply Qle_bool_iff.
Qed.

Import WeatherService.

Lemma clampQ_spec lo hi x : (lo <= hi)%Q -> clampedQ lo hi x (clampQ lo hi x).
Proof.
  intros Hb. unfold clampedQ, clampQ.
  destruct (Qlt_bool x lo) eqn:E1; [|destruct (Qlt_bool hi x) eqn:E2].
  - apply Qlt_bool_iff in E1. repeat split; try (apply Qle_refl || assumption || reflexivity).
    + intros Hx. exfalso. apply (Qlt_irrefl x). eapply Qlt_trans; [exact E1|].
      eapply Qle_lt_trans; eassumption.
    + intros [Hx _]. exfalso. exact (Qlt_not_le _ _ E1 Hx).
  - apply Qlt_bool_iff in E2. apply Qlt_bool_false in E1.
    repeat split; try (apply Qle_refl || assumption || reflexivity).
    + intros Hx. exfalso. exact (Qlt_not_le _ _ Hx E1).
    + intros [_ Hx]. exfalso. exact (Qlt_not_le _ _ E2 Hx).
  - apply Qlt_bool_false in E1, E2. repeat split; try assumption.
    + intros Hx. exfalso. exact (Qlt_not_le _ _ Hx E1).
    + intros Hx. exfalso. exact (Qlt_not_le _ _ Hx E2).
Qed.

Lemma clampQ_idem lo hi x : (lo <= hi)%Q -> clampQ lo hi (clampQ lo hi x) = clampQ lo hi x.
Proof.
  intros Hb. destruct (clampQ_spec lo hi x Hb) as (Hr & _).
  destruct (clampQ_spec lo hi (clampQ lo hi x) Hb) as (_ & _ & _ & Hid). now apply Hid.
Qed.

Lemma clampZ_spec lo hi x : lo <= hi -> clampedZ lo hi x (clampZ lo hi x).
Proof.
  intros Hb. unfold clampedZ, clampZ.
  destruct (x <? lo) eqn:E1; [|destruct (hi <? x) eqn:E2]; lia.
Qed.

Lemma clampZ_idem lo hi x : lo <= hi -> clampZ lo hi (clampZ lo hi x) = clampZ lo hi x.
Proof.
  intros Hb. unfold clampZ.
  destruct (x <? lo) eqn:E1; [|destruct (hi <? x) eqn:E2].
  - replace (lo <? lo) with false by lia. replace (hi <? lo) with false by lia. reflexivity.
  - replace (hi <? lo) with false by lia. replace (hi <? hi) with false by lia. reflexivity.
  - now rewrite E1, E2.
Qed.

(** ** The sanitizer *)


(** ** Constructors of the records *)

Section Constructors.
Context `{PyRuntime}.

Lemma WeatherData_new_accepts fields :
  weather_in_range fields -> WeatherData.new fields = Ok fields.
Proof.
  intros (Hh & Hw & Hd). unfold WeatherData.new, WeatherData.__post_init__.
  replace ((0 <=? WeatherData.humidity fields) && (WeatherData.humidity fields <=? 100))
    with true by lia.
  replace (Qlt_bool (WeatherData.wind_speed fields) 0) with false
    by (symmetry; now apply Qlt_bool_false).
  replace ((0 <=? WeatherData.wind_direction fields)
           && (WeatherData.wind_direction fields <=? 360)) with true by lia.
  reflexivity.
Qed.

Lemma WeatherData_new_rejects fields :
  ~ weather_in_range fields ->
  exists msg, WeatherData.new fields = Raise (ValueError msg).
Proof.
  intros Hn. unfold WeatherData.new, WeatherData.__post_init__.
  destruct ((0 <=? WeatherData.humidity fields) && (WeatherData.humidity fields <=? 100))
    eqn:Eh; simpl; [|eauto].
  destruct (Qlt_bool (WeatherData.wind_speed fields) 0) eqn:Ew; simpl; [eauto|].
  destruct ((0 <=? WeatherData.wind_direction fields)
            && (WeatherData.wind_direction fields <=? 360)) eqn:Ed; simpl; [|eauto].
  exfalso. apply Hn. apply Qlt_bool_false in Ew. unfold weather_in_range. repeat split; try lia.
  exact Ew.
Qed.

Lemma WeatherData_new_inv fields w :
  WeatherData.new fields = Ok w -> w = fields /\ weather_in_range w.
Proof.
  intros Hnew. unfold WeatherData.new, WeatherData.__post_init__ in Hnew.
  destruct ((0 <=? WeatherData.humidity fields) && (WeatherData.humidity fields <=? 100))
    eqn:Eh; simpl in Hnew; [|discriminate].
  destruct (Qlt_bool (WeatherData.wind_speed fields) 0) eqn:Ew; simpl in Hnew; [discriminate|].
  destruct ((0 <=? WeatherData.wind_direction fields)
            && (WeatherData.wind_direction fields <=? 360)) eqn:Ed; simpl in Hnew;
    [|discriminate].
  injection Hnew as <-. split; [reflexivity|]. apply Qlt_bool_false in Ew.
  unfold weather_in_range. repeat split; try lia. exact Ew.
Qed.

Lemma ForecastDay_new_accepts fields :
  day_in_range fields -> ForecastDay.new fields = Ok fields.
Proof.
  intros (Ht & Hp). unfold ForecastDay.new, ForecastDay.__post_init__.
  replace (Qlt_bool (ForecastDay.high_temp fields) (ForecastDay.low_temp fields)) with false
    by (symmetry; now apply Qlt_bool_false).
  replace ((0 <=? ForecastDay.precipitation_chance fields)
           && (ForecastDay.precipitation_chance fields <=? 100)) with true by lia.
  reflexivity.
Qed.

Lemma ForecastDay_new_rejects fields :
  ~ day_in_range fields ->
  exists msg, ForecastDay.new fields = Raise (ValueError msg).
Proof.
  intros Hn. unfold ForecastDay.new, ForecastDay.__post_init__.
  destruct (Qlt_bool (ForecastDay.high_temp fields) (ForecastDay.low_temp fields)) eqn:Et;
    simpl; [eauto|].
  destruct ((0 <=? ForecastDay.precipitation_chance fields)
            && (ForecastDay.precipitation_chance fields <=? 100)) eqn:Ep; simpl; [|eauto].
  exfalso. apply Hn. apply Qlt_bool_false in Et. split; [exact Et|lia].
Qed.

Lemma ForecastDay_new_inv fields d :
  ForecastDay.new fields = Ok d -> d = fields /\ day_in_range d.
Proof.
  intros Hnew. unfold ForecastDay.new, ForecastDay.__post_init__ in Hnew.
  destruct (Qlt_bool (ForecastDay.high_temp fields) (ForecastDay.low_temp fields)) eqn:Et;
    simpl in Hnew; [discriminate|].
  destruct ((0 <=? ForecastDay.precipitation_chance fields)
            && (ForecastDay.precipitation_chance fields <=? 100)) eqn:Ep; simpl in Hnew;
    [|discriminate].
  injection Hnew as <-. split; [reflexivity|]. apply Qlt_bool_false in Et.
  split; [exact Et|lia].
Qed.

Lemma sanitize_in_range w : weather_in_range (_sanitize_weather_data w).
Proof.
  unfold weather_in_range, _sanitize_weather_data. simpl.
  destruct (clampZ_spec 0 100 (WeatherData.humidity w)) as (Hh & _); [lia|].
  destruct (clampQ_spec 0 500 (WeatherData.wind_speed w)) as ((Hw & _) & _); [discriminate|].
  pose proof (Z.mod_pos_bound (WeatherData.wind_direction w) 360).
  repeat split; try lia. exact Hw.
Qed.

End Constructors.

(** ** The circuit breaker *)

Section Breaker.
Import CircuitBreaker.
Context {W A : Type} `{Clock W}.

Lemma call_rejected (self : t) (w : W) (last : Z) (func : M W A) :
  state self = OPEN ->
  last_failure_time self = Some last ->
  datetime_now w - last <= recovery_timeout self * 1000000 ->
  call func (self, w) = (Raise breaker_open_error, (self, w)).
Proof.
  intros Hs Hl Ht. unfold call, call_gate, _should_attempt_reset. rewrite Hs, Hl.
  replace (recovery_timeout self * 1000000 <? datetime_now w - last) with false by lia.
  reflexivity.
Qed.

Lemma call_gate_half_open (self : t) (now last : Z) :
  state self = OPEN ->
  last_failure_time self = Some last ->
  recovery_timeout self * 1000000 < now - last ->
  call_gate self now = Ok (set_state HALF_OPEN self).
Proof.
  intros Hs Hl Ht. unfold call_gate, _should_attempt_reset. rewrite Hs, Hl.
  replace (recovery_timeout self * 1000000 <? now - last) with true by lia.
  reflexivity.
Qed.

Lemma call_admitted (self self1 : t) (w : W) (func : M W A) :
  call_gate self (datetime_now w) = Ok self1 ->
  call func (self, w) =
    match func w with
    | (Ok result, w') => (Ok result, (_on_success self1, w'))
    | (Raise e, w') => (Raise e, (_on_failure self1 (datetime_now w'), w'))
    end.
Proof. intros Hg. unfold call. now rewrite Hg. Qed.

Lemma call_gate_fields (self self1 : t) (now : Z) :
  call_gate self now = Ok self1 ->
  failure_count self1 = failure_count self /\
  failure_threshold self1 = failure_threshold self /\
  recovery_timeout self1 = recovery_timeout self.
Proof.
  unfold call_gate. destruct (state self); [| destruct (_should_attempt_reset self now) |];
    intros Hg; try discriminate; injection Hg as <-; auto.
Qed.

Lemma call_success (self self' : t) (w w' : W) (func : M W A) (result : A) :
  call func (self, w) = (Ok result, (self', w')) ->
  func w = (Ok result, w') /\ failure_count self' = 0 /\ state self' = CLOSED.
Proof.
  unfold call. destruct (call_gate self (datetime_now w)); [|discriminate].
  destruct (func w) as [[r|e] w1]; intros Hc; [|discriminate].
  injection Hc as <- <- <-. auto.
Qed.

Lemma call_failure (self self1 : t) (w w' : W) (func : M W A) (e : exn) :
  call_gate self (datetime_now w) = Ok self1 ->
  func w = (Raise e, w') ->
  exists self2,
    call func (self, w) = (Raise e, (self2, w')) /\
    failure_count self2 = failure_count self + 1 /\
    last_failure_time self2 = Some (datetime_now w') /\
    (failure_threshold self <= failure_count self + 1 -> state self2 = OPEN).
Proof.
  intros Hg Hf. rewrite (call_admitted _ _ _ _ Hg), Hf.
  destruct (call_gate_fields _ _ _ Hg) as (Hc & Ht & _).
  eexists. split; [reflexivity|]. simpl. rewrite Hc, Ht. split_and!; try reflexivity.
  intros Hle. replace (failure_threshold self <=? failure_count self + 1) with true by lia.
  reflexivity.
Qed.

(** Failures counted from a closed breaker: the breaker stays closed below
    the threshold and opens when the count reaches it. *)
Lemma calls_failing (funcs : list (M W A)) :
  forall (self : t) (w : W),
    state self = CLOSED ->
    failure_count self + Z.of_nat (length funcs) <= failure_threshold self ->
    Forall always_fails funcs ->
    let self' := fst (calls funcs (self, w)) in
    failure_count self' = failure_count self + Z.of_nat (length funcs) /\
    failure_threshold self' = failure_threshold self /\
    recovery_timeout self' = recovery_timeout self /\
    state self' = (if failure_threshold self <=? failure_count self'
                   then (match funcs with [] => CLOSED | _ => OPEN end) else CLOSED) /\
    (funcs <> [] -> is_Some (last_failure_time self')).
Proof.
  induction funcs as [|func rest IH]; intros self w Hs Hle Hall.
  - simpl. rewrite Hs. split_and!; try lia; try reflexivity.
    + now destruct (failure_threshold self <=? failure_count self).
    + congruence.
  - inversion Hall as [|? ? Hf Hrest]; subst. destruct (Hf w) as (e & w' & Hfw).
    assert (Hg : call_gate self (datetime_now w) = Ok self)
      by (unfold call_gate; now rewrite Hs).
    cbn [calls]. rewrite (call_admitted _ _ _ _ Hg), Hfw. cbn [snd].
    simpl length in Hle. rewrite Nat2Z.inj_succ in Hle.
    destruct rest as [|func2 rest2].
    + simpl. rewrite Hs. split_and!; try lia; try reflexivity. eauto.
    + assert (Hlen : (1 <= Z.of_nat (length (func2 :: rest2)))) by (simpl length; lia).
      remember (func2 :: rest2) as rest eqn:Er.
      set (self1 := _on_failure self (datetime_now w')).
      assert (Hs1 : state self1 = CLOSED).
      { unfold self1. simpl. rewrite Hs.
        replace (failure_threshold self <=? failure_count self + 1) with false by lia.
        reflexivity. }
      assert (Hc1 : failure_count self1 = failure_count self + 1) by reflexivity.
      assert (Ht1 : failure_threshold self1 = failure_threshold self) by reflexivity.
      assert (Hr1 : recovery_timeout self1 = recovery_timeout self) by reflexivity.
      destruct (IH self1 w' Hs1) as (Hc & Ht & Hr & Hst & Hl); [lia|assumption|].
      cbv zeta. simpl length. rewrite Nat2Z.inj_succ.
      split_and!; try lia.
      * rewrite Hst, Ht1. subst rest. reflexivity.
      * intros _. apply Hl. subst rest. discriminate.
Qed.

End Breaker.


(** ** The retry wrapper *)

Lemma grown_step d k : grown d (S k) = grown (d * (3 # 2))%Q k.
Proof. reflexivity. Qed.

Lemma grown_power d k : (grown d k == d * (3 # 2) ^ Z.of_nat k)%Q.
Proof.
  revert d. induction k as [|k IH]; intros d.
  - simpl. ring.
  - rewrite grown_step, IH, Nat2Z.inj_succ, <- Z.add_1_r.
    rewrite Qpower_plus by discriminate. simpl Qpower. ring.
Qed.

Section Retry.
Context `{PyRuntime} {St A : Type}.
Variable sleep : Q -> St -> St.
Variable api_call : M St A.

Local Abbreviation run_loop :=
  (retry_loop (recorded_sleep sleep) (recorded_call api_call)).

Lemma backoff_lookup errs : forall d k e,
  errs !! k = Some e ->
  backoff d errs !! k = Some (actual_delay (str_lower (exn_str e)) (grown d k)).
Proof.
  induction errs as [|e0 errs IH]; intros d k e Hk; [discriminate|].
  destruct k as [|k]; simpl in *.
  - now injection Hk as ->.
  - now apply IH.
Qed.

Lemma backoff_length errs d : length (backoff d errs) = length errs.
Proof. revert d. induction errs; intros d; simpl; auto. Qed.

Lemma retry_loop_recorded (todo : nat) : forall delay last r,
  loop_outcome todo delay last r
    (fst (run_loop todo delay last r)) (snd (run_loop todo delay last r)).
Proof.
  induction todo as [|todo IH]; intros delay last r.
  - exists []. cbn [retry_loop]. unfold raise. cbn [fst snd length].
    rewrite app_nil_r. split; [reflexivity|].
    split; [lia|]. split; [lia|]. left. auto.
  - cbn [retry_loop].
    destruct (api_call (rec_inner r)) as [[result|e] s'] eqn:Ecall.
    + assert (Hrc : recorded_call api_call r
                    = (Ok result, mkRecorded s' (S (rec_attempts r)) (rec_errors r)
                                             (rec_sleeps r)))
        by (unfold recorded_call; now rewrite Ecall).
      rewrite Hrc. exists []. simpl. rewrite !app_nil_r.
      split_and!; auto; lia.
    + set (r1 := mkRecorded s' (S (rec_attempts r)) (rec_errors r ++ [e]) (rec_sleeps r)).
      assert (Hrc : recorded_call api_call r = (Raise e, r1))
        by (unfold recorded_call; now rewrite Ecall).
      rewrite Hrc.
      assert (Hlast : forall d l,
                 retry_loop (recorded_sleep sleep) (recorded_call api_call) 0 d (Some e) l
                 = (Raise e, l)) by reflexivity.
      destruct (is_APIError e) eqn:Eapi;
        [destruct (is_non_retryable (str_lower (exn_str e))) eqn:Enr|].
      * exists [e]. simpl. split_and!; auto; try lia. right. exists [].
        split_and!; auto; [now rewrite app_nil_r|].
        intros [_ Hr]. congruence.
      * destruct todo as [|todo].
        -- rewrite Hlast. exists [e]. simpl. split_and!; auto; try lia. right. exists [].
           split_and!; auto. now rewrite app_nil_r.
        -- set (r2 := recorded_sleep sleep (actual_delay (str_lower (exn_str e)) delay) r1).
           specialize (IH (delay * (3 # 2))%Q (Some e) r2).
           destruct (run_loop (S todo) (delay * (3 # 2))%Q (Some e) r2) as [res r'].
           destruct IH as (errs & Herr & Hres). cbn [fst snd] in *.
           exists (e :: errs). split.
           { rewrite Herr. simpl. now rewrite <- app_assoc. }
           assert (Hre : retryable e) by (split; assumption).
           destruct res as [v|e'].
           ++ destruct Hres as (Ha & Hlen & Hall & Hsl). simpl in *.
              split_and!; try lia; [now constructor|].
              rewrite Hsl. now rewrite <- app_assoc.
           ++ destruct Hres as (Ha & Hlen & Hcase). simpl in *.
              split_and!; try lia. right.
              destruct Hcase as [(_ & Hz & _)|(es & -> & Hall & Hsl & Hex)]; [discriminate|].
              exists (e :: es). split_and!.
              ** reflexivity.
              ** now constructor.
              ** rewrite Hsl. simpl. now rewrite <- app_assoc.
              ** intros He'. rewrite <- (Hex He'). reflexivity.
      * exists [e]. simpl. split_and!; auto; try lia. right. exists [].
        split_and!; auto; [now rewrite app_nil_r|].
        intros [Hr _]. congruence.
Qed.

Lemma actual_delay_classes error_msg d :
  (rate_limit_msg error_msg = true -> actual_delay error_msg d = (d * 3)%Q) /\
  (rate_limit_msg error_msg = false -> network_msg error_msg = true ->
   actual_delay error_msg d = d) /\
  (rate_limit_msg error_msg = false -> network_msg error_msg = false ->
   server_msg error_msg = true -> actual_delay error_msg d = (d * 2)%Q) /\
  (rate_limit_msg error_msg = false -> network_msg error_msg = false ->
   server_msg error_msg = false -> actual_delay error_msg d = d).
Proof.
  unfold actual_delay, rate_limit_msg, network_msg, server_msg.
  split_and!; intros; repeat match goal with Hx : _ = _ |- _ => rewrite Hx; clear Hx end;
    reflexivity.
Qed.

End Retry.

(** ** Forecast conversion *)

Lemma max_from_spec l : forall best,
  (max_from best l = best \/ In (max_from best l) l) /\
  (best <= max_from best l)%Q /\
  (forall x, In x l -> (x <= max_from best l)%Q).
Proof.
  induction l as [|y l IH]; intros best; simpl.
  - split_and!; [now left|apply Qle_refl|tauto].
  - destruct (Qlt_bool best y) eqn:E.
    + apply Qlt_bool_iff in E. destruct (IH y) as (Hin & Hle & Hall).
      split_and!.
      * destruct Hin as [->|Hin]; auto.
      * eapply Qle_trans; [apply Qlt_le_weak; exact E|exact Hle].
      * intros x [<-|Hx]; auto.
    + apply Qlt_bool_false in E. destruct (IH best) as (Hin & Hle & Hall).
      split_and!.
      * destruct Hin as [->|Hin]; auto.
      * exact Hle.
      * intros x [<-|Hx]; auto. eapply Qle_trans; eassumption.
Qed.

Lemma min_from_spec l : forall best,
  (min_from best l = best \/ In (min_from best l) l) /\
  (min_from best l <= best)%Q /\
  (forall x, In x l -> (min_from best l <= x)%Q).
Proof.
  induction l as [|y l IH]; intros best; simpl.
  - split_and!; [now left|apply Qle_refl|tauto].
  - destruct (Qlt_bool y best) eqn:E.
    + apply Qlt_bool_iff in E. destruct (IH y) as (Hin & Hle & Hall).
      split_and!.
      * destruct Hin as [->|Hin]; auto.
      * eapply Qle_trans; [exact Hle|apply Qlt_le_weak; exact E].
      * intros x [<-|Hx]; auto.
    + apply Qlt_bool_false in E. destruct (IH best) as (Hin & Hle & Hall).
      split_and!.
      * destruct Hin as [->|Hin]; auto.
      * exact Hle.
      * intros x [<-|Hx]; auto. eapply Qle_trans; eassumption.
Qed.

Lemma py_max_spec l m : py_max l = Ok m -> is_max_of l m.
Proof.
  destruct l as [|x l]; [discriminate|]. simpl. intros [= <-].
  destruct (max_from_spec l x) as (Hin & Hle & Hall). split.
  - destruct Hin as [->|Hin]; [now left|now right].
  - intros y [<-|Hy]; auto.
Qed.

Lemma py_min_spec l m : py_min l = Ok m -> is_min_of l m.
Proof.
  destruct l as [|x l]; [discriminate|]. simpl. intros [= <-].
  destruct (min_from_spec l x) as (Hin & Hle & Hall). split.
  - destruct Hin as [->|Hin]; [now left|now right].
  - intros y [<-|Hy]; auto.
Qed.

Lemma fold_Qplus_bounds lo hi l : forall acc,
  Forall (fun x => (lo <= x <= hi)%Q) l ->
  (acc + lo * inject_Z (Z.of_nat (length l)) <= fold_left Qplus l acc
   <= acc + hi * inject_Z (Z.of_nat (length l)))%Q.
Proof.
  induction l as [|x l IH]; intros acc Hall.
  - simpl. split; ring_simplify; apply Qle_refl.
  - inversion Hall as [|? ? [Hlo Hhi] Hrest]; subst.
    destruct (IH (acc + x)%Q Hrest) as [IHl IHh].
    cbn [fold_left length]. rewrite Nat2Z.inj_succ, <- Z.add_1_r, inject_Z_plus.
    split.
    + eapply Qle_trans; [|exact IHl].
      assert (E : (acc + lo * (inject_Z (Z.of_nat (length l)) + inject_Z 1)
                   == (acc + lo) + lo * inject_Z (Z.of_nat (length l)))%Q) by ring.
      rewrite E.
      apply Qplus_le_compat; [|apply Qle_refl].
      apply Qplus_le_compat; [apply Qle_refl|exact Hlo].
    + eapply Qle_trans; [exact IHh|].
      assert (E : (acc + hi * (inject_Z (Z.of_nat (length l)) + inject_Z 1)
                   == (acc + hi) + hi * inject_Z (Z.of_nat (length l)))%Q) by ring.
      rewrite E.
      apply Qplus_le_compat; [|apply Qle_refl].
      apply Qplus_le_compat; [apply Qle_refl|exact Hhi].
Qed.

Lemma mean_bounds lo hi l :
  l <> [] -> Forall (fun x => (lo <= x <= hi)%Q) l -> (lo <= mean l <= hi)%Q.
Proof.
  intros Hne Hall. unfold mean, Qsum.
  destruct (fold_Qplus_bounds lo hi l 0%Q Hall) as [Hl Hh].
  assert (Hpos : (0 < inject_Z (Z.of_nat (length l)))%Q).
  { destruct l; [congruence|]. unfold Qlt. simpl. lia. }
  split.
  - apply Qle_shift_div_l; [exact Hpos|]. eapply Qle_trans; [|exact Hl].
    ring_simplify. apply Qle_refl.
  - apply Qle_shift_div_r; [exact Hpos|]. eapply Qle_trans; [exact Hh|].
    ring_simplify. apply Qle_refl.
Qed.

Lemma int_of_float_bounds (q : Q) (hi : Z) :
  (0 <= q <= inject_Z hi)%Q -> 0 <= int_of_float q <= hi.
Proof.
  destruct q as [n d]. unfold Qle, int_of_float. simpl. intros [Hn Hh].
  rewrite Z.mul_1_r in Hn. rewrite Z.mul_1_r in Hh.
  rewrite Z.quot_div_nonneg by lia. split.
  - apply Z.div_pos; lia.
  - apply Z.div_le_upper_bound; lia.
Qed.

Lemma max_by_from_spec {X} (key : X -> Z) l : forall best,
  (max_by_from key best l = best \/ In (max_by_from key best l) l) /\
  key best <= key (max_by_from key best l) /\
  (forall x, In x l -> key x <= key (max_by_from key best l)).
Proof.
  induction l as [|y l IH]; intros best; simpl.
  - split_and!; [now left|lia|tauto].
  - destruct (key best <? key y) eqn:E.
    + destruct (IH y) as (Hin & Hle & Hall). split_and!.
      * destruct Hin as [->|Hin]; auto.
      * lia.
      * intros x [<-|Hx]; auto.
    + destruct (IH best) as (Hin & Hle & Hall). split_and!.
      * destruct Hin as [->|Hin]; auto.
      * exact Hle.
      * intros x [<-|Hx]; auto. lia.
Qed.

Lemma count_occ_str_nonneg l x : 0 <= count_occ_str l x.
Proof. unfold count_occ_str. lia. Qed.

Lemma count_occ_str_absent l x : x ∉ l -> count_occ_str l x = 0.
Proof.
  intros Hx. unfold count_occ_str.
  replace (filter (fun y => y = x) l) with (@nil str); [reflexivity|].
  symmetry. induction l as [|y l IH]; [reflexivity|].
  rewrite filter_cons. destruct (decide (y = x)) as [->|Hne].
  - exfalso. apply Hx. left.
  - apply IH. intros Hin. apply Hx. now right.
Qed.

Lemma res_mapM_Forall2 {X Y} (f : X -> Res Y) l : forall l',
  res_mapM f l = Ok l' -> Forall2 (fun x y => f x = Ok y) l l'.
Proof.
  induction l as [|x l IH]; intros l'; simpl.
  - intros [= <-]. constructor.
  - destruct (f x) as [y|e] eqn:Ex; simpl; [|discriminate].
    destruct (res_mapM f l) as [ys|e]; simpl; [|discriminate].
    intros [= <-]. constructor; auto.
Qed.

Lemma res_mapM_total {X Y} (f : X -> Res Y) l :
  Forall (fun x => exists y, f x = Ok y) l -> exists l', res_mapM f l = Ok l'.
Proof.
  induction 1 as [|x l [y Hy] _ [l' Hl']]; simpl; [eauto|].
  rewrite Hy, Hl'. simpl. eauto.
Qed.

Lemma StronglySorted_le_lt (l : list Z) :
  StronglySorted Z.le l -> NoDup l -> StronglySorted Z.lt l.
Proof.
  induction 1 as [|x l Hs IH Hall]; intros Hnd; constructor.
  - apply IH. now inversion Hnd.
  - inversion Hnd as [|? ? Hx _]; subst. rewrite Forall_forall in *.
    intros y Hy. specialize (Hall y Hy).
    assert (x <> y) by (intros ->; contradiction). lia.
Qed.

Lemma StronglySorted_take {X} (R : X -> X -> Prop) (l : list X) n :
  StronglySorted R l -> StronglySorted R (take n l).
Proof.
  intros Hs. revert n. induction Hs as [|x l Hs IH Hall]; intros [|n]; simpl;
    try constructor; auto.
  rewrite Forall_forall in *. intros y Hy. apply Hall.
  now apply (subseteq_take n l).
Qed.

Section Forecast.
Context `{PyRuntime}.

Lemma entries_on_cons_eq d item items :
  local_date (dt item) = Some d ->
  entries_on d (item :: items) = item :: entries_on d items.
Proof. intros E. unfold entries_on. simpl. now rewrite bool_decide_eq_true_2. Qed.

Lemma entries_on_cons_ne d item items :
  local_date (dt item) <> Some d ->
  entries_on d (item :: items) = entries_on d items.
Proof. intros E. unfold entries_on. simpl. now rewrite bool_decide_eq_false_2. Qed.

Lemma group_by_date_spec items : forall m0 m,
  group_by_date items m0 = Ok m ->
  forall d,
    default [] (m !! d) = default [] (m0 !! d) ++ entries_on d items /\
    (is_Some (m !! d) <-> is_Some (m0 !! d) \/ entries_on d items <> []).
Proof.
  induction items as [|item items IH]; intros m0 m Hg d.
  - simpl in Hg. injection Hg as <-. rewrite app_nil_r. split; [reflexivity|].
    unfold entries_on. simpl. tauto.
  - simpl in Hg. destruct (local_date (dt item)) as [k|] eqn:Ek; [|discriminate].
    destruct (IH _ _ Hg d) as [Hd Hs]. destruct (decide (k = d)) as [->|Hne].
    + rewrite lookup_insert_eq in Hd, Hs. simpl in Hd.
      rewrite (entries_on_cons_eq _ _ _ Ek). split.
      * rewrite Hd. now rewrite <- app_assoc.
      * rewrite Hs. split; [intros _; right; discriminate|intros _; left; eauto].
    + rewrite lookup_insert_ne in Hd, Hs by exact Hne.
      rewrite entries_on_cons_ne by congruence. split; assumption.
Qed.

Lemma group_by_date_total items : forall m0,
  Forall (fun item => is_Some (local_date (dt item))) items ->
  exists m, group_by_date items m0 = Ok m.
Proof.
  induction items as [|item items IH]; intros m0 Hall; simpl; [eauto|].
  inversion Hall as [|? ? [k Hk] Hrest]; subst. rewrite Hk. now apply IH.
Qed.

Lemma group_lookup items m d :
  group_by_date items ∅ = Ok m ->
  (is_Some (m !! d) <-> entries_on d items <> []) /\
  default [] (m !! d) = entries_on d items.
Proof.
  intros Hg. destruct (group_by_date_spec _ _ _ Hg d) as [Hd Hs].
  rewrite lookup_empty in Hd, Hs. simpl in Hd. split; [|exact Hd].
  rewrite Hs. split; [intros [[? [=]]|]; auto|auto].
Qed.

Lemma sorted_keys_elem (m : gmap Z (list OWMForecastItem)) d :
  d ∈ sorted_keys m <-> is_Some (m !! d).
Proof.
  unfold sorted_keys. rewrite merge_sort_Permutation, list_elem_of_fmap. split.
  - intros [[k v] [-> Hkv]]. apply elem_of_map_to_list in Hkv. simpl. eauto.
  - intros [v Hv]. exists (d, v). split; [reflexivity|]. now apply elem_of_map_to_list.
Qed.

Lemma sorted_keys_sorted (m : gmap Z (list OWMForecastItem)) :
  StronglySorted Z.lt (sorted_keys m).
Proof.
  unfold sorted_keys. apply StronglySorted_le_lt.
  - apply StronglySorted_merge_sort; apply _.
  - rewrite merge_sort_Permutation. apply NoDup_fst_map_to_list.
Qed.

Lemma slice_to_take {X} (l : list X) n : 0 <= n -> slice_to l n = take (Z.to_nat n) l.
Proof. intros Hn. unfold slice_to. now replace (0 <=? n) with true by lia. Qed.

Lemma conditions_spec group : forall conditions,
  res_mapM (fun item => let? w := first_weather (item_weather item) in
                        Ok (description w)) group = Ok conditions ->
  conditions = conditions_of group.
Proof.
  induction group as [|item group IH]; intros conditions; simpl.
  - now intros [= <-].
  - destruct (item_weather item) as [|w ws]; simpl; [discriminate|].
    destruct (res_mapM _ group) as [cs|e]; simpl; [|discriminate].
    intros [= <-]. now rewrite (IH cs).
Qed.

Lemma conditions_total group :
  Forall (fun item => item_weather item <> []) group ->
  res_mapM (fun item => let? w := first_weather (item_weather item) in
                        Ok (description w)) group = Ok (conditions_of group).
Proof.
  induction 1 as [|item group Hw _ IH]; simpl; [reflexivity|].
  destruct (item_weather item) as [|w ws]; [congruence|]. simpl. now rewrite IH.
Qed.

Lemma most_common_spec conditions c :
  set_order_ok -> most_common conditions = Ok c -> most_frequent conditions c.
Proof.
  intros Hset. unfold most_common.
  destruct (set_order conditions) as [|c0 rest] eqn:E; [discriminate|]. intros [= <-].
  destruct (max_by_from_spec (count_occ_str conditions) rest c0) as (Hin & Hle & Hall).
  assert (Hmem : forall x, x ∈ conditions <-> x ∈ c0 :: rest).
  { intros x. rewrite <- E, (Hset conditions). symmetry. apply elem_of_remove_dups. }
  split.
  - apply Hmem. destruct Hin as [->|Hin]; [left|right; now apply list_elem_of_In].
  - intros c'. destruct (decide (c' ∈ conditions)) as [Hc|Hc].
    + apply Hmem in Hc. apply elem_of_cons in Hc as [->|Hc]; [exact Hle|].
      apply Hall. now apply list_elem_of_In.
    + rewrite (count_occ_str_absent _ _ Hc). apply count_occ_str_nonneg.
Qed.

Lemma most_common_total conditions :
  set_order_ok -> conditions <> [] -> exists c, most_common conditions = Ok c.
Proof.
  intros Hset Hne. unfold most_common.
  destruct (set_order conditions) as [|c0 rest] eqn:E; [|eauto].
  exfalso. destruct conditions as [|c cs]; [congruence|].
  assert (Hc : c ∈ set_order (c :: cs)).
  { rewrite (Hset (c :: cs)). apply elem_of_remove_dups. left. }
  rewrite E in Hc. inversion Hc.
Qed.

Lemma convert_day_spec d group day :
  set_order_ok ->
  convert_day d group = Ok day ->
  ForecastDay.date day = d /\
  is_max_of (map item_temp group) (ForecastDay.high_temp day) /\
  is_min_of (map item_temp group) (ForecastDay.low_temp day) /\
  (ForecastDay.low_temp day <= ForecastDay.high_temp day)%Q /\
  ForecastDay.humidity day = int_of_float (mean (map item_humidity group)) /\
  ForecastDay.precipitation_chance day
  = int_of_float (mean (map (fun item => (default 0%Q (item_pop item) * 100)%Q) group)) /\
  0 <= ForecastDay.precipitation_chance day <= 100 /\
  ForecastDay.wind_speed day
  = mean (map (fun item => default 0%Q (item_wind_speed item)) group) /\
  most_frequent (conditions_of group) (ForecastDay.condition day).
Proof.
  intros Hset. unfold convert_day.
  destruct (res_mapM _ group) as [conditions|e] eqn:Ec; simpl; [|discriminate].
  apply conditions_spec in Ec. subst conditions.
  destruct (most_common (conditions_of group)) as [c|e] eqn:Em; simpl; [|discriminate].
  destruct (py_max (map item_temp group)) as [high|e] eqn:Eh; simpl; [|discriminate].
  destruct (py_min (map item_temp group)) as [low|e] eqn:El; simpl; [|discriminate].
  intros Hnew. apply ForecastDay_new_inv in Hnew as [-> [Ht Hp]]. simpl in *.
  assert (Hpops : match map (fun item => (default 0%Q (item_pop item) * 100)%Q) group with
                  | [] => 0%Q
                  | _ => mean (map (fun item => (default 0%Q (item_pop item) * 100)%Q) group)
                  end
                  = mean (map (fun item => (default 0%Q (item_pop item) * 100)%Q) group)).
  { destruct group; [discriminate Eh|reflexivity]. }
  rewrite Hpops in *.
  split_and!; try reflexivity; try assumption; try lia.
  - now apply py_max_spec.
  - now apply py_min_spec.
  - now apply most_common_spec.
Qed.

Lemma convert_day_total d group :
  set_order_ok -> group <> [] ->
  Forall (fun item => item_weather item <> [] /\
                      (0 <= default 0%Q (item_pop item) <= 1)%Q) group ->
  exists day, convert_day d group = Ok day.
Proof.
  intros Hset Hne Hall. unfold convert_day.
  rewrite conditions_total by (eapply Forall_impl; [exact Hall|]; simpl; tauto).
  simpl.
  destruct (most_common_total (conditions_of group) Hset) as [c ->].
  { destruct group as [|item group]; [congruence|]. inversion Hall as [|? ? [Hw _] _]; subst.
    simpl. destruct (item_weather item); [congruence|discriminate]. }
  simpl. destruct group as [|item group]; [congruence|].
  cbn [map py_max py_min]. cbn [res_bind].
  eexists. apply ForecastDay_new_accepts.
  split; simpl.
  - destruct (max_from_spec (map item_temp group) (item_temp item)) as (_ & Hle & _).
    destruct (min_from_spec (map item_temp group) (item_temp item)) as (_ & Hge & _).
    eapply Qle_trans; eassumption.
  - apply int_of_float_bounds.
    apply (mean_bounds 0 100 (map (fun it => (default 0%Q (item_pop it) * 100)%Q)
                                  (item :: group))); [discriminate|].
    apply Forall_fmap. eapply Forall_impl; [exact Hall|]. simpl. intros it [_ [Hl Hh]].
    split.
    + apply Qmult_le_0_compat; [exact Hl|discriminate].
    + setoid_replace 100%Q with (1 * 100)%Q using relation Qeq by reflexivity.
      apply Qmult_le_compat_r; [exact Hh|discriminate].
Qed.

Lemma Forall2_dates (f : Z -> Res ForecastDay.t) keys days :
  (forall d day, f d = Ok day -> ForecastDay.date day = d) ->
  Forall2 (fun d day => f d = Ok day) keys days ->
  map ForecastDay.date days = keys.
Proof.
  intros Hf. induction 1 as [|d day keys days Hd _ IH]; simpl; [reflexivity|].
  now rewrite (Hf _ _ Hd), IH.
Qed.

Lemma convert_day_date d group day :
  convert_day d group = Ok day -> ForecastDay.date day = d.
Proof.
  unfold convert_day.
  destruct (res_mapM _ group) as [conditions|e]; simpl; [|discriminate].
  destruct (most_common conditions) as [c|e]; simpl; [|discriminate].
  destruct (py_max (map item_temp group)) as [high|e]; simpl; [|discriminate].
  destruct (py_min (map item_temp group)) as [low|e]; simpl; [|discriminate].
  intros Hnew. apply ForecastDay_new_inv in Hnew as [-> _]. reflexivity.
Qed.

(** The days of a converted payload of the first provider: ascending dates,
    at most [days] of them. *)
Lemma owm_forecast_shape items location days units now fd :
  0 <= days ->
  _convert_openweathermap_forecast (OWM_forecast items) location days units now = Ok fd ->
  StronglySorted Z.lt (map ForecastDay.date (ForecastData.days fd)) /\
  (length (ForecastData.days fd) <= Z.to_nat days)%nat.
Proof.
  intros Hdays. unfold _convert_openweathermap_forecast.
  destruct (group_by_date items ∅) as [m|e] eqn:Hm; simpl; [|discriminate].
  destruct (res_mapM _ (slice_to (sorted_keys m) days)) as [l|e] eqn:Hl; simpl;
    [|discriminate].
  intros [= <-]. simpl. apply res_mapM_Forall2 in Hl.
  rewrite slice_to_take in Hl by exact Hdays.
  assert (Hdates : map ForecastDay.date l = take (Z.to_nat days) (sorted_keys m)).
  { eapply Forall2_dates; [|exact Hl]. intros d day Hc. simpl in Hc.
    now apply convert_day_date in Hc. }
  split.
  - rewrite Hdates. apply StronglySorted_take, sorted_keys_sorted.
  - rewrite <- (length_map ForecastDay.date), Hdates, length_take. lia.
Qed.

(** A well-formed payload of the first provider is converted. *)
Lemma owm_forecast_total items location days units now :
  set_order_ok -> 0 <= days -> well_formed_forecast items ->
  exists fd, _convert_openweathermap_forecast (OWM_forecast items) location days units now
             = Ok fd.
Proof.
  intros Hset Hdays Hwf. unfold _convert_openweathermap_forecast.
  destruct (group_by_date_total items ∅) as [m Hm].
  { eapply Forall_impl; [exact Hwf|]. simpl. tauto. }
  rewrite Hm. simpl.
  destruct (res_mapM_total
              (fun date_key => convert_day date_key (default [] (m !! date_key)))
              (slice_to (sorted_keys m) days)) as [l Hl]; [|rewrite Hl; simpl; eauto].
  rewrite slice_to_take by exact Hdays. apply Forall_forall. intros d Hd.
  apply (subseteq_take _ _) in Hd. apply sorted_keys_elem in Hd.
  destruct (group_lookup items m d Hm) as [Hs Hdef]. rewrite Hdef.
  apply convert_day_total; [exact Hset|now apply Hs|].
  unfold entries_on. apply Forall_forall. intros item Hitem.
  apply list_elem_of_In, filter_In in Hitem as [Hitem _].
  unfold well_formed_forecast in Hwf.
  rewrite Forall_forall in Hwf. apply list_elem_of_In in Hitem.
  destruct (Hwf _ Hitem) as (_ & Hw & Hp). auto.
Qed.

(** The days of a converted payload of the second provider: the dates of
    the first [days] entries, in payload order. *)
Lemma wapi_forecast_shape forecastday location days units now fd :
  0 <= days ->
  _convert_weatherapi_forecast (WAPI_forecast forecastday) location days units now = Ok fd ->
  payload_ascending (WAPI_forecast forecastday) ->
  StronglySorted Z.lt (map ForecastDay.date (ForecastData.days fd)) /\
  (length (ForecastData.days fd) <= Z.to_nat days)%nat.
Proof.
  intros Hdays. unfold _convert_weatherapi_forecast.
  destruct (res_mapM _ (slice_to forecastday days)) as [l|e] eqn:Hl; simpl; [|discriminate].
  intros [= <-] (dates & Hdates & Hsorted). simpl.
  apply res_mapM_Forall2 in Hl. rewrite slice_to_take in Hl by exact Hdays.
  assert (Heq : map ForecastDay.date l = take (Z.to_nat days) dates).
  { apply (Forall2_take _ _ _ (Z.to_nat days)) in Hdates.
    revert Hl Hdates. generalize (take (Z.to_nat days) forecastday).
    generalize (take (Z.to_nat days) dates). clear.
    intros ds days0 Hl. revert ds.
    induction Hl as [|day fday days0 l Hc _ IH]; intros ds Hd; inversion Hd; subst;
      [reflexivity|].
    simpl. f_equal; [|now apply IH].
    unfold convert_weatherapi_day in Hc.
    destruct (strptime_date (day_date day)) as [d|]; [|discriminate].
    apply ForecastDay_new_inv in Hc as [-> _]. simpl. congruence. }
  split.
  - rewrite Heq. now apply StronglySorted_take.
  - rewrite <- (length_map ForecastDay.date), Heq, length_take. lia.
Qed.

End Forecast.

(** ** The cache key *)

Section CacheKey.
Import CacheManager.

Lemma str_leb_total a : forall b, str_leb a b = true \/ str_leb b a = true.
Proof.
  induction a as [|x a IH]; intros [|y b]; simpl; auto.
  destruct (x <? y)%N eqn:E1; auto. destruct (y <? x)%N eqn:E2; auto.
Qed.

Lemma str_leb_trans a : forall b c,
  str_leb a b = true -> str_leb b c = true -> str_leb a c = true.
Proof.
  induction a as [|x a IH]; intros [|y b] [|z c]; simpl; auto; try discriminate.
  destruct (N.ltb_spec x y), (N.ltb_spec y x), (N.ltb_spec y z), (N.ltb_spec z y),
    (N.ltb_spec x z), (N.ltb_spec z x); intros Hab Hbc;
    try discriminate; try lia; auto; eauto.
Qed.

Lemma str_leb_antisym a : forall b,
  str_leb a b = true -> str_leb b a = true -> a = b.
Proof.
  induction a as [|x a IH]; intros [|y b]; simpl; auto; try discriminate.
  destruct (N.ltb_spec x y), (N.ltb_spec y x); try discriminate; try lia.
  intros Hab Hba. assert (x = y) by lia. subst. f_equal. now apply IH.
Qed.

#[local] Instance str_le_total : Total str_le.
Proof. intros a b. apply str_leb_total. Qed.
#[local] Instance str_le_trans : Transitive str_le.
Proof. intros a b c. apply str_leb_trans. Qed.
#[local] Instance str_le_antisym : AntiSymm (=) str_le.
Proof. intros a b. apply str_leb_antisym. Qed.

Lemma sorted_keys_perm (k1 k2 : list str) :
  k1 ≡ₚ k2 -> merge_sort str_le k1 = merge_sort str_le k2.
Proof.
  intros Hp. apply (Sorted_unique str_le); try apply Sorted_merge_sort; try apply _.
  now rewrite !merge_sort_Permutation.
Qed.

Lemma kwargs_get_elem key v (kwargs : list (str * str)) :
  NoDup (map fst kwargs) ->
  kwargs_get key kwargs = Some v <-> (key, v) ∈ kwargs.
Proof.
  induction kwargs as [|[k w] kwargs IH]; simpl; intros Hnd.
  - split; [discriminate|intros Hin; inversion Hin].
  - inversion Hnd as [|? ? Hk Hrest]; subst. unfold str_eqb.
    destruct (decide (k = key)) as [->|Hne].
    + rewrite bool_decide_eq_true_2 by reflexivity. split.
      * intros [= ->]. left.
      * intros Hin. apply elem_of_cons in Hin as [[= ->]|Hin]; [reflexivity|].
        exfalso. apply Hk. apply list_elem_of_fmap. exists (key, v). auto.
    + rewrite bool_decide_eq_false_2 by exact Hne. rewrite (IH Hrest). split.
      * intros Hin. now right.
      * intros Hin. apply elem_of_cons in Hin as [[= -> ->]|Hin]; [congruence|exact Hin].
Qed.

Lemma kwargs_get_perm key (k1 k2 : list (str * str)) :
  NoDup (map fst k1) -> k1 ≡ₚ k2 -> kwargs_get key k1 = kwargs_get key k2.
Proof.
  intros Hnd Hp.
  assert (Hnd2 : NoDup (map fst k2)) by (now rewrite <- Hp).
  destruct (kwargs_get key k1) as [v1|] eqn:E1, (kwargs_get key k2) as [v2|] eqn:E2;
    try reflexivity.
  - apply kwargs_get_elem in E1, E2; try assumption. rewrite Hp in E1.
    apply (kwargs_get_elem _ _ _ Hnd2) in E1, E2. congruence.
  - apply kwargs_get_elem in E1; try assumption. rewrite Hp in E1.
    apply kwargs_get_elem in E1; try assumption. congruence.
  - apply kwargs_get_elem in E2; try assumption. rewrite <- Hp in E2.
    apply kwargs_get_elem in E2; try assumption. congruence.
Qed.

Lemma split_at_sep (p1 p2 r1 r2 : str) :
  sep_free p1 -> sep_free p2 ->
  p1 ++ 124%N :: r1 = p2 ++ 124%N :: r2 -> p1 = p2 /\ r1 = r2.
Proof.
  revert p2. induction p1 as [|c p1 IH]; intros [|d p2] H1 H2 E; simpl in E.
  - now injection E.
  - injection E as <- _. exfalso. apply H2. left.
  - injection E as -> _. exfalso. apply H1. left.
  - injection E as -> E. destruct (IH p2) as [-> ->]; auto.
    + intros Hin. apply H1. now right.
    + intros Hin. apply H2. now right.
Qed.

Lemma join_sep_injective (l1 : list str) : forall l2,
  Forall sep_free l1 -> Forall sep_free l2 ->
  l1 <> [] -> l2 <> [] ->
  join (py "|") l1 = join (py "|") l2 -> l1 = l2.
Proof.
  change (py "|") with [124%N].
  induction l1 as [|p1 l1 IH]; intros [|p2 l2] H1 H2 N1 N2 E; try congruence.
  inversion H1 as [|? ? Hp1 Hl1]; inversion H2 as [|? ? Hp2 Hl2]; subst.
  destruct l1 as [|q1 l1], l2 as [|q2 l2].
  - simpl in E. now subst.
  - exfalso. cbn [join] in E. apply Hp1. rewrite E. apply elem_of_app. right. left.
  - exfalso. cbn [join] in E. apply Hp2. rewrite <- E. apply elem_of_app. right. left.
  - change (join [124%N] (p1 :: q1 :: l1)) with (p1 ++ 124%N :: join [124%N] (q1 :: l1)) in E.
    change (join [124%N] (p2 :: q2 :: l2)) with (p2 ++ 124%N :: join [124%N] (q2 :: l2)) in E.
    apply split_at_sep in E as [-> E]; auto. f_equal. apply IH; auto; discriminate.
Qed.

Context `{PyRuntime}.

End CacheKey.

(** ** The orchestrator *)

Lemma bind_Ok {S X Y} (m : M S X) (k : X -> M S Y) s a s' :
  m s = (Ok a, s') -> bind m k s = k a s'.
Proof. intros E. unfold bind. now rewrite E. Qed.

Lemma bind_Raise {S X Y} (m : M S X) (k : X -> M S Y) s e s' :
  m s = (Raise e, s') -> bind m k s = (Raise e, s').
Proof. intros E. unfold bind. now rewrite E. Qed.

Section Orchestrator.
Context `{PyRuntime} {W : Type} `{Collaborators W}.
Variable config : WeatherConfig.

Lemma liftW_run {X} (m : M W X) breaker w r w' :
  m w = (r, w') -> liftW m (breaker, w) = (r, (breaker, w')).
Proof. intros E. unfold liftW. now rewrite E. Qed.

Lemma convert_current_raises raw location units timestamp e :
  _convert_current_weather_data config raw location units timestamp = Raise e ->
  exists msg, e = WeatherError msg.
Proof.
  unfold _convert_current_weather_data, res_try.
  destruct (if str_eqb (api_provider config) (py "openweathermap") then _ else _) as [d|e0];
    [discriminate|].
  destruct e0; intros [= <-]; eauto.
Qed.

Lemma convert_forecast_raises raw location days units timestamp e :
  _convert_forecast_data config raw location days units timestamp = Raise e ->
  exists msg, e = WeatherError msg.
Proof.
  unfold _convert_forecast_data, res_try.
  destruct (if str_eqb (api_provider config) (py "openweathermap") then _ else _) as [d|e0];
    [discriminate|].
  destruct e0; intros [= <-]; eauto.
Qed.

(** The first provider's conversion of a payload whose humidity, wind speed
    or wind direction is out of range. *)
Lemma convert_out_of_range r location units timestamp :
  api_provider config = py "openweathermap" ->
  owm_weather r <> [] ->
  ~ (0 <= int_of_float (owm_humidity r) <= 100 /\
     (0 <= default 0 (owm_wind_speed r))%Q /\
     0 <= int_of_float (default 0%Q (owm_wind_deg r)) <= 360) ->
  exists msg,
    _convert_current_weather_data config (OWM_current r) location units timestamp
    = Raise (WeatherError (py "数据转换失败: " ++ msg)).
Proof.
  intros Hp Hw Hr. unfold _convert_current_weather_data. rewrite Hp.
  change (str_eqb (py "openweathermap") (py "openweathermap")) with true. cbv iota.
  unfold _convert_openweathermap_current.
  destruct (owm_weather r) as [|w ws]; [congruence|]. simpl first_weather. cbn [res_bind].
  match goal with |- context [WeatherData.new ?f] =>
    destruct (WeatherData_new_rejects f) as [msg Hmsg] end.
  { intros (Hh & Hs & Hd). apply Hr. simpl in *. auto. }
  rewrite Hmsg. simpl. eauto.
Qed.

Section CurrentWeather.
Variables (location user_id : str) (breaker breaker' : CircuitBreaker.t).
Variables (w0 w1 w2 w3 w4 : W) (location_info : LocationInfo) (prefs : UserPrefs).
Variables (cache_key : str) (raw_data : RawCurrent).
Hypothesis Hlocation : parse_location location w0 = (Ok location_info, w1).
Hypothesis Hprefs : get_user_preferences user_id w1 = (Ok prefs, w2).
Hypothesis Hkey :
  CacheManager.generate_cache_key (name location_info) (py "weather")
    [(py "units", units prefs)] = Ok cache_key.
Hypothesis Hmiss : get_cached_weather cache_key w2 = (Ok None, w3).
Hypothesis Hfetch :
  _handle_api_error_with_retry sleep
    (CircuitBreaker.call (fetch_current_weather (name location_info))) 2 1
    (breaker, w3)
  = (Ok raw_data, (breaker', w4)).

Lemma current_weather_body_after_fetch :
  get_current_weather_body config location user_id (breaker, w0)
  = match _convert_current_weather_data config raw_data (name location_info)
            (units prefs) (datetime_now w4) with
    | Raise e => (Raise e, (breaker', w4))
    | Ok weather_data =>
        let weather_data :=
          if negb (_validate_weather_data weather_data)
          then _sanitize_weather_data weather_data else weather_data in
        match cache_weather_data cache_key weather_data (cache_ttl_current config) w4 with
        | (Ok _, w5) => (Ok weather_data, (breaker', w5))
        | (Raise e, w5) => (Raise e, (breaker', w5))
        end
    end.
Proof.
  unfold get_current_weather_body.
  rewrite (bind_Ok _ _ _ _ _ (liftW_run _ breaker _ _ _ Hlocation)).
  rewrite (bind_Ok _ _ _ _ _ (liftW_run _ breaker _ _ _ Hprefs)).
  rewrite Hkey. rewrite (bind_Ok _ _ (breaker, w2) cache_key (breaker, w2)) by reflexivity.
  rewrite (bind_Ok _ _ _ _ _ (liftW_run _ breaker _ _ _ Hmiss)).
  rewrite (bind_Ok _ _ _ _ _ Hfetch).
  rewrite (bind_Ok _ _ (breaker', w4) (datetime_now w4) (breaker', w4)) by reflexivity.
  destruct (_convert_current_weather_data config raw_data (name location_info)
              (units prefs) (datetime_now w4)) as [weather_data|e].
  - rewrite (bind_Ok _ _ (breaker', w4) weather_data (breaker', w4)) by reflexivity.
    cbv zeta. unfold bind, liftW.
    destruct (cache_weather_data _ _ _ w4) as [[[]|e] w5]; reflexivity.
  - now rewrite (bind_Raise _ _ (breaker', w4) e (breaker', w4)) by reflexivity.
Qed.

Lemma current_weather_conversion_error e :
  _convert_current_weather_data config raw_data (name location_info) (units prefs)
    (datetime_now w4) = Raise e ->
  get_current_weather config location user_id (breaker, w0)
  = (Raise (WeatherError (py "获取天气数据时发生错误: " ++ exn_str e)), (breaker', w4)).
Proof.
  intros Hc. unfold get_current_weather, try_except.
  rewrite current_weather_body_after_fetch, Hc.
  destruct (convert_current_raises _ _ _ _ _ Hc) as [msg ->]. reflexivity.
Qed.

Lemma current_weather_converted weather_data w5 :
  _convert_current_weather_data config raw_data (name location_info) (units prefs)
    (datetime_now w4) = Ok weather_data ->
  (let weather_data :=
     if negb (_validate_weather_data weather_data)
     then _sanitize_weather_data weather_data else weather_data in
   cache_weather_data cache_key weather_data (cache_ttl_current config) w4 = (Ok tt, w5)) ->
  get_current_weather config location user_id (breaker, w0)
  = (Ok (if negb (_validate_weather_data weather_data)
         then _sanitize_weather_data weather_data else weather_data), (breaker', w5)).
Proof.
  intros Hc Hw. unfold get_current_weather, try_except.
  rewrite current_weather_body_after_fetch, Hc. cbv zeta in *. now rewrite Hw.
Qed.

(** C1 at the failing inputs: after a successful fetch from the first
    provider, a payload whose humidity, wind speed or wind direction is out
    of range makes [get_current_weather] raise [WeatherError]; the sanitizer
    is never reached.  A record that could be constructed (out of range at
    most in temperature, pressure or a wind speed above 500) is validated,
    sanitized when invalid, and returned. *)
Theorem current_weather_out_of_range :
  (forall r,
      raw_data = OWM_current r ->
      api_provider config = py "openweathermap" ->
      owm_weather r <> [] ->
      ~ (0 <= int_of_float (owm_humidity r) <= 100 /\
         (0 <= default 0 (owm_wind_speed r))%Q /\
         0 <= int_of_float (default 0%Q (owm_wind_deg r)) <= 360) ->
      exists msg,
        get_current_weather config location user_id (breaker, w0)
        = (Raise (WeatherError msg), (breaker', w4))) /\
  (forall weather_data w5,
      _convert_current_weather_data config raw_data (name location_info) (units prefs)
        (datetime_now w4) = Ok weather_data ->
      cache_weather_data cache_key
        (if negb (_validate_weather_data weather_data)
         then _sanitize_weather_data weather_data else weather_data)
        (cache_ttl_current config) w4 = (Ok tt, w5) ->
      get_current_weather config location user_id (breaker, w0)
      = (Ok (if negb (_validate_weather_data weather_data)
             then _sanitize_weather_data weather_data else weather_data),
         (breaker', w5))).
Proof.
  split.
  - intros r Hraw Hp Hw Hr.
    destruct (convert_out_of_range r (name location_info) (units prefs) (datetime_now w4)
                Hp Hw Hr) as [msg Hmsg].
    rewrite <- Hraw in Hmsg.
    rewrite (current_weather_conversion_error _ Hmsg). eauto.
  - intros weather_data w5 Hc Hw. now apply current_weather_converted.
Qed.
End CurrentWeather.

(** The conversion of a fetched forecast: at most [days] entries, ascending. *)
Lemma convert_forecast_shape raw_data location days units timestamp fd :
  0 <= days ->
  _convert_forecast_data config raw_data location days units timestamp = Ok fd ->
  payload_ascending raw_data ->
  StronglySorted Z.lt (map ForecastDay.date (ForecastData.days fd)) /\
  (length (ForecastData.days fd) <= Z.to_nat days)%nat.
Proof.
  intros Hdays. unfold _convert_forecast_data, res_try.
  destruct (str_eqb (api_provider config) (py "openweathermap")).
  - destruct raw_data as [items|forecastday].
    + destruct (_convert_openweathermap_forecast _ _ _ _ _) as [fd'|e] eqn:Hc.
      * intros [= ->] _. eapply owm_forecast_shape; eassumption.
      * destruct e; discriminate.
    + simpl. discriminate.
  - destruct (str_eqb (api_provider config) (py "weatherapi")); [|discriminate].
    destruct raw_data as [items|forecastday].
    + simpl. discriminate.
    + destruct (_convert_weatherapi_forecast _ _ _ _ _) as [fd'|e] eqn:Hc.
      * intros [= ->] Hasc. eapply wapi_forecast_shape; eassumption.
      * destruct e; discriminate.
Qed.

Lemma forecast_days_rejected location days user_id st :
  days <= 0 \/ 16 < days ->
  get_forecast config location days user_id st
  = (Raise (WeatherError (py "获取预报数据时发生错误: " ++ py "预报天数必须在 1-16 之间")), st).
Proof.
  intros Hdays. unfold get_forecast, try_except, get_forecast_body.
  replace ((days <=? 0) || (16 <? days)) with true
    by (symmetry; apply orb_true_iff; lia).
  reflexivity.
Qed.

Section Forecast.
Variables (location user_id : str) (days : Z) (breaker breaker' : CircuitBreaker.t).
Variables (w0 w1 w2 w3 w4 w5 : W) (location_info : LocationInfo) (prefs : UserPrefs).
Variables (cache_key : str) (raw_data : RawForecast) (forecast_data : ForecastData.t).
Hypothesis Hdays : 1 <= days <= 16.
Hypothesis Hlocation : parse_location location w0 = (Ok location_info, w1).
Hypothesis Hprefs : get_user_preferences user_id w1 = (Ok prefs, w2).
Hypothesis Hkey :
  CacheManager.generate_cache_key (name location_info) (py "forecast")
    [(py "days", str_of_Z days); (py "units", units prefs)] = Ok cache_key.
Hypothesis Hmiss : get_cached_forecast cache_key w2 = (Ok None, w3).
Hypothesis Hfetch :
  _handle_api_error_with_retry sleep
    (CircuitBreaker.call (fetch_forecast (name location_info) days)) 2 1
    (breaker, w3)
  = (Ok raw_data, (breaker', w4)).
Hypothesis Hconvert :
  _convert_forecast_data config raw_data (name location_info) days (units prefs)
    (datetime_now w4) = Ok forecast_data.
Hypothesis Hwrite :
  cache_forecast_data cache_key forecast_data (cache_ttl_forecast config) w4 = (Ok tt, w5).

Lemma forecast_after_fetch :
  get_forecast config location days user_id (breaker, w0)
  = (Ok forecast_data, (breaker', w5)).
Proof.
  unfold get_forecast, try_except, get_forecast_body.
  replace ((days <=? 0) || (16 <? days)) with false
    by (symmetry; apply orb_false_iff; lia).
  rewrite (bind_Ok _ _ _ _ _ (liftW_run _ breaker _ _ _ Hlocation)).
  rewrite (bind_Ok _ _ _ _ _ (liftW_run _ breaker _ _ _ Hprefs)).
  rewrite Hkey. rewrite (bind_Ok _ _ (breaker, w2) cache_key (breaker, w2)) by reflexivity.
  rewrite (bind_Ok _ _ _ _ _ (liftW_run _ breaker _ _ _ Hmiss)).
  rewrite (bind_Ok _ _ _ _ _ Hfetch).
  rewrite (bind_Ok _ _ (breaker', w4) (datetime_now w4) (breaker', w4)) by reflexivity.
  rewrite Hconvert.
  rewrite (bind_Ok _ _ (breaker', w4) forecast_data (breaker', w4)) by reflexivity.
  rewrite (bind_Ok _ _ _ _ _ (liftW_run _ breaker' _ _ _ Hwrite)).
  reflexivity.
Qed.
End Forecast.

(** C8: a day count outside 1..16 makes [get_forecast] raise, with the state
    (breaker and world) as it was: no location was resolved, no cache read,
    no request sent, no retry made and no cached data served, whatever the
    collaborators are; the error is a [WeatherError] that is neither an
    [APIError] nor a [LocationError].  For a day count within 1..16, a
    resolved location, a cache miss, a fetch that succeeds, a payload that is
    converted (its days in ascending order when the second provider sent
    them) and a cache that stores it, [get_forecast] returns the converted
    forecast, which has at most [days] entries in strictly ascending date
    order. *)
Theorem forecast_day_count
  (location user_id : str) (days : Z) (breaker breaker' : CircuitBreaker.t)
  (w0 w1 w2 w3 w4 w5 : W) (location_info : LocationInfo) (prefs : UserPrefs)
  (cache_key : str) (raw_data : RawForecast) (forecast_data : ForecastData.t) :
  (days <= 0 \/ 16 < days ->
   exists e,
     get_forecast config location days user_id (breaker, w0) = (Raise e, (breaker, w0)) /\
     e = WeatherError (py "获取预报数据时发生错误: " ++ py "预报天数必须在 1-16 之间") /\
     is_APIError e = false /\ is_LocationError e = false) /\
  (1 <= days <= 16 ->
   parse_location location w0 = (Ok location_info, w1) ->
   get_user_preferences user_id w1 = (Ok prefs, w2) ->
   CacheManager.generate_cache_key (name location_info) (py "forecast")
     [(py "days", str_of_Z days); (py "units", units prefs)] = Ok cache_key ->
   get_cached_forecast cache_key w2 = (Ok None, w3) ->
   _handle_api_error_with_retry sleep
     (CircuitBreaker.call (fetch_forecast (name location_info) days)) 2 1 (breaker, w3)
   = (Ok raw_data, (breaker', w4)) ->
   _convert_forecast_data config raw_data (name location_info) days (units prefs)
     (datetime_now w4) = Ok forecast_data ->
   payload_ascending raw_data ->
   cache_forecast_data cache_key forecast_data (cache_ttl_forecast config) w4 = (Ok tt, w5) ->
   get_forecast config location days user_id (breaker, w0)
   = (Ok forecast_data, (breaker', w5)) /\
   (length (ForecastData.days forecast_data) <= Z.to_nat days)%nat /\
   StronglySorted Z.lt (map ForecastDay.date (ForecastData.days forecast_data))).
Proof.
  split.
  - intros Hdays. eexists. split; [now apply forecast_days_rejected|].
    split; [|split]; reflexivity.
  - intros Hdays Hlocation Hprefs Hkey Hmiss Hfetch Hconvert Hasc Hwrite.
    split; [now apply (forecast_after_fetch location user_id days breaker breaker'
                         w0 w1 w2 w3 w4 w5 location_info prefs cache_key raw_data)|].
    assert (Hnn : 0 <= days) by lia.
    destruct (convert_forecast_shape _ _ _ _ _ _ Hnn Hconvert Hasc). auto.
Qed.
End Orchestrator.

(** ** The command parser *)

Section Unmatchable.
Import Re.
Variables (ignorecase : bool) (alphabet : list char).

Local Abbreviation over s := (forallb (fun t => existsb (N.eqb t) alphabet) s = true).
Local Abbreviation none_of c :=
  (forallb (fun t => negb (cset_matches ignorecase c t)) alphabet = true).

Lemma cset_none c t :
  none_of c -> existsb (N.eqb t) alphabet = true -> cset_matches ignorecase c t = false.
Proof.
  intros Hnone Hin. apply existsb_exists in Hin as (x & Hx & Heq).
  apply N.eqb_eq in Heq. subst x.
  rewrite forallb_forall in Hnone. apply Hnone in Hx. now apply negb_true_iff in Hx.
Qed.

Lemma rep_greedy_none c s (k : str -> result) :
  over s -> (forall s', over s' -> k s' = None) -> rep_greedy ignorecase c s k = None.
Proof.
  intros Hs Hk. induction s as [|t s IH]; simpl; [now apply Hk|].
  pose proof Hs as Hs'. simpl in Hs'. apply andb_true_iff in Hs' as [_ Hs'].
  destruct (cset_matches ignorecase c t); [|now apply Hk].
  rewrite (IH Hs'). now apply Hk.
Qed.

Lemma rep_lazy_none c s (k : str -> result) :
  over s -> (forall s', over s' -> k s' = None) -> rep_lazy ignorecase c s k = None.
Proof.
  intros Hs Hk. induction s as [|t s IH]; simpl; rewrite (Hk _ Hs); [reflexivity|].
  simpl in Hs. apply andb_true_iff in Hs as [_ Hs'].
  destruct (cset_matches ignorecase c t); [now apply IH|reflexivity].
Qed.

Lemma exec_none r : forall s g (k : str -> capture -> result),
  over s ->
  unmatchable ignorecase alphabet r = true \/ (forall s' g', over s' -> k s' g' = None) ->
  exec ignorecase r s g k = None.
Proof.
  induction r as [|c|lazy at_least_one c|r1 IH1 r2 IH2|r1 IH1 r2 IH2|r1 IH1|r1 IH1|];
    intros s g k Hs Hor; simpl in *.
  - destruct Hor as [Hu|Hk]; [discriminate|now apply Hk].
  - destruct s as [|t s']; simpl; [reflexivity|].
    simpl in Hs. apply andb_true_iff in Hs as [Ht Hs'].
    destruct Hor as [Hu|Hk]; [now rewrite (cset_none c t Hu Ht)|].
    destruct (cset_matches ignorecase c t); [now apply Hk|reflexivity].
  - destruct at_least_one.
    + destruct s as [|t s']; simpl; [reflexivity|].
      simpl in Hs. apply andb_true_iff in Hs as [Ht Hs'].
      destruct Hor as [Hu|Hk]; [now rewrite (cset_none c t Hu Ht)|].
      destruct (cset_matches ignorecase c t); [|reflexivity].
      destruct lazy; [apply rep_lazy_none|apply rep_greedy_none]; auto.
    + destruct Hor as [Hu|Hk]; [discriminate|].
      destruct lazy; [apply rep_lazy_none|apply rep_greedy_none]; auto.
  - apply IH1; [exact Hs|].
    destruct (unmatchable ignorecase alphabet r1); [now left|].
    right. intros s' g' Hs'. now apply IH2.
  - destruct Hor as [Hu|Hk].
    + destruct (unmatchable ignorecase alphabet r1) eqn:Hu1; [|discriminate].
      rewrite (IH1 s g k Hs (or_introl eq_refl)). apply IH2; auto.
    + rewrite (IH1 s g k Hs (or_intror Hk)). apply IH2; auto.
  - destruct Hor as [Hu|Hk]; [discriminate|].
    rewrite (IH1 s g k Hs (or_intror Hk)). now apply Hk.
  - apply IH1; [exact Hs|]. destruct Hor as [Hu|Hk]; [now left|]. right. auto.
  - destruct Hor as [Hu|Hk]; [discriminate|].
    destruct s as [|t [|t' s']]; [now apply Hk| |reflexivity].
    destruct (t =? 10)%N; [now apply Hk|reflexivity].
Qed.

Lemma search_unmatchable r text :
  over text -> unmatchable ignorecase alphabet r = true -> search ignorecase r text = None.
Proof.
  intros Hs Hu. induction text as [|t text IH]; simpl.
  - now rewrite (exec_none r [] None _ Hs (or_introl Hu)).
  - rewrite (exec_none r (t :: text) None _ Hs (or_introl Hu)).
    simpl in Hs. apply andb_true_iff in Hs as [_ Hs]. now apply IH.
Qed.
End Unmatchable.

Section ParserFacts.
Import Re CommandParser.

Lemma any_matches_unmatchable alphabet patterns text :
  forallb (fun t => existsb (N.eqb t) alphabet) text = true ->
  forallb (unmatchable true alphabet) patterns = true ->
  any_matches patterns text = false.
Proof.
  intros Hs Hall. induction patterns as [|p ps IH]; simpl; [reflexivity|].
  simpl in Hall. apply andb_true_iff in Hall as [Hp Hps].
  unfold matches at 1. rewrite (search_unmatchable true alphabet p text Hs Hp).
  simpl. now apply IH.
Qed.

Lemma any_matches_first p patterns text :
  matches p text = true -> any_matches (p :: patterns) text = true.
Proof. intros Hp. simpl. now rewrite Hp. Qed.

Context `{PyRuntime}.

Lemma int_of_digits_short run :
  (length run <= int_max_str_digits)%nat -> exists v, int_of_digits run = Ok v.
Proof.
  intros Hlen. unfold int_of_digits.
  destruct (Nat.ltb_spec int_max_str_digits (length run)); [lia|eauto].
Qed.

Lemma int_of_digits_long run :
  (int_max_str_digits < length run)%nat -> exists msg, int_of_digits run = Raise (ValueError msg).
Proof.
  intros Hlen. unfold int_of_digits.
  destruct (Nat.ltb_spec int_max_str_digits (length run)); [eauto|lia].
Qed.

Lemma first_in_range_find lo hi numbers values :
  Forall2 (fun run v => int_of_digits run = Ok v) numbers values ->
  first_in_range lo hi numbers
  = Ok (List.find (fun v => (lo <=? v) && (v <=? hi)) values).
Proof.
  induction 1 as [|run v numbers values Hv _ IH]; simpl; [reflexivity|].
  rewrite Hv. simpl. destruct ((lo <=? v) && (v <=? hi)); [reflexivity|exact IH].
Qed.

Lemma first_in_range_bounds lo hi numbers v :
  first_in_range lo hi numbers = Ok (Some v) -> lo <= v <= hi.
Proof.
  induction numbers as [|run numbers IH]; simpl; [discriminate|].
  destruct (int_of_digits run) as [n|e]; simpl; [|discriminate].
  destruct ((lo <=? n) && (n <=? hi)) eqn:Hr; [|exact IH].
  intros [= <-]. lia.
Qed.

Lemma short_runs_values numbers :
  Forall (fun run => (length run <= int_max_str_digits)%nat) numbers ->
  exists values, Forall2 (fun run v => int_of_digits run = Ok v) numbers values.
Proof.
  induction 1 as [|run numbers Hrun _ [values IH]]; [exists []; constructor|].
  destruct (int_of_digits_short run Hrun) as [v Hv].
  exists (v :: values). now constructor.
Qed.

Lemma extract_forecast_hours_range text h :
  _extract_forecast_hours text = Ok h -> 1 <= h <= 48.
Proof.
  unfold _extract_forecast_hours.
  destruct (str_in (py "小时") text || str_in (py "hour") (str_lower text));
    [|intros [= <-]; lia].
  destruct (first_in_range 1 48 (digit_runs text [])) as [[v|]|e] eqn:Hf; simpl;
    [|intros [= <-]; lia|discriminate].
  intros [= <-]. now apply first_in_range_bounds in Hf.
Qed.


Lemma parse_command_blank message :
  parse_command message = Ok None <-> strip message = [].
Proof.
  unfold parse_command.
  destruct (bool_decide (message = []) || bool_decide (strip message = [])) eqn:Hb.
  - split; [|reflexivity]. intros _.
    apply orb_true_iff in Hb as [Hb|Hb]; apply bool_decide_eq_true in Hb;
      [now subst|exact Hb].
  - apply orb_false_iff in Hb as [_ Hb]. apply bool_decide_eq_false in Hb.
    split; [|tauto]. intros Hp. exfalso.
    destruct (detect_command_type (strip message)); try discriminate;
      destruct (extract_location (strip message)); cbn [res_bind] in Hp; try discriminate;
      destruct (_extract_additional_params (strip message) _); cbn [res_bind] in Hp;
      discriminate.
Qed.

Lemma parse_command_result message :
  strip message <> [] ->
  (exists e, parse_command message = Raise e) \/
  (exists cmd, parse_command message = Ok (Some cmd) /\
               command_type cmd = detect_command_type (strip message)).
Proof.
  intros Hne. unfold parse_command.
  replace (bool_decide (message = []) || bool_decide (strip message = [])) with false.
  2:{ symmetry. apply orb_false_iff. split; apply bool_decide_eq_false; [|exact Hne].
      intros ->. now apply Hne. }
  destruct (detect_command_type (strip message)) eqn:Ht;
    try (right; eexists; split; [reflexivity|reflexivity]);
    (destruct (extract_location (strip message)) as [location|e]; cbn [res_bind];
     [|left; eauto]);
    (destruct (_extract_additional_params (strip message) _) as [params|e]; cbn [res_bind];
     [|left; eauto]);
    right; eexists; split; reflexivity.
Qed.

Lemma parse_command_raises message command_type location e :
  strip message <> [] ->
  detect_command_type (strip message) = command_type ->
  command_type <> HELP ->
  extract_location (strip message) = Ok location ->
  _extract_additional_params (strip message) command_type = Raise e ->
  parse_command message = Raise e.
Proof.
  intros Hne Ht Hh Hl Hp. unfold parse_command.
  replace (bool_decide (message = []) || bool_decide (strip message = [])) with false.
  2:{ symmetry. apply orb_false_iff. split; apply bool_decide_eq_false; [|exact Hne].
      intros ->. now apply Hne. }
  cbv zeta. rewrite Ht, Hl. cbn [res_bind]. rewrite Hp.
  now destruct command_type.
Qed.

Lemma detect_default text :
  let text' := strip text in
  any_matches help_patterns text' = false ->
  any_matches set_location_patterns text' = false ->
  any_matches set_units_patterns text' = false ->
  any_matches alert_patterns text' = false ->
  any_matches activity_patterns text' = false ->
  any_matches hourly_patterns text' = false ->
  any_matches forecast_patterns text' = false ->
  detect_command_type text = CURRENT_WEATHER.
Proof.
  cbv zeta. intros H1 H2 H3 H4 H5 H6 H7. unfold detect_command_type.
  destruct text; [reflexivity|]. rewrite H1, H2, H3, H4, H5, H6, H7.
  now destruct (any_matches weather_patterns _).
Qed.
End ParserFacts.

Section LongRequest.
Import Re CommandParser.
Local Existing Instance ascii_runtime.

Lemma long_request_stripped : strip long_hourly_request = long_hourly_request.
Proof. vm_compute. reflexivity. Qed.

Lemma long_request_nonempty : long_hourly_request <> [].
Proof. intros E. apply (f_equal length) in E. vm_compute in E. discriminate. Qed.

Lemma long_request_alphabet :
  forallb (fun t => existsb (N.eqb t) (py "北京小时预报 1")) long_hourly_request = true.
Proof. vm_compute. reflexivity. Qed.

Lemma long_request_type : detect_command_type long_hourly_request = HOURLY_FORECAST.
Proof.
  unfold detect_command_type.
  change long_hourly_request with (py "北京小时预报 " ++ repeat 49%N 4301) at 1.
  change (py "北京小时预报 ") with [21271; 20140; 23567; 26102; 39044; 25253; 32]%N at 1.
  cbn [app]. rewrite long_request_stripped.
  rewrite (any_matches_unmatchable _ help_patterns _ long_request_alphabet)
    by (vm_compute; reflexivity).
  rewrite (any_matches_unmatchable _ set_location_patterns _ long_request_alphabet)
    by (vm_compute; reflexivity).
  rewrite (any_matches_unmatchable _ set_units_patterns _ long_request_alphabet)
    by (vm_compute; reflexivity).
  rewrite (any_matches_unmatchable _ alert_patterns _ long_request_alphabet)
    by (vm_compute; reflexivity).
  rewrite (any_matches_unmatchable _ activity_patterns _ long_request_alphabet)
    by (vm_compute; reflexivity).
  unfold hourly_patterns. rewrite any_matches_first; [reflexivity|]. vm_compute. reflexivity.
Qed.

Lemma long_request_location :
  extract_location long_hourly_request = Ok (Some (py "北京")).
Proof. vm_compute. reflexivity. Qed.

Lemma long_request_params :
  exists msg,
    _extract_additional_params long_hourly_request HOURLY_FORECAST = Raise (ValueError msg).
Proof. eexists. vm_compute. reflexivity. Qed.
End LongRequest.

(** C4 at the failing input.  [parse_command] returns [None] exactly on blank
    text, and on any other text it either raises or returns a command of the
    detected type, which is [CURRENT_WEATHER] when no pattern of another type
    matches; but it does raise: the request for an hourly forecast of 北京
    followed by a number of 4301 digits is classified as [HOURLY_FORECAST],
    and the conversion of the number by [int] raises [ValueError], which
    nothing catches. *)
Theorem parse_command_raises_on_long_number :
  (forall (R : PyRuntime) message,
      @CommandParser.parse_command R message = Ok None <-> strip message = []) /\
  (forall (R : PyRuntime) message,
      strip message <> [] ->
      (exists e, @CommandParser.parse_command R message = Raise e) \/
      (exists cmd, @CommandParser.parse_command R message = Ok (Some cmd) /\
                   command_type cmd = CommandParser.detect_command_type (strip message))) /\
  strip long_hourly_request <> [] /\
  CommandParser.detect_command_type long_hourly_request = HOURLY_FORECAST /\
  exists msg,
    @CommandParser.parse_command ascii_runtime long_hourly_request = Raise (ValueError msg).
Proof.
  split; [intros R message; apply parse_command_blank|].
  split; [intros R message; apply parse_command_result|].
  split; [rewrite long_request_stripped; exact long_request_nonempty|].
  split; [exact long_request_type|].
  destruct long_request_params as [msg Hmsg]. exists msg.
  apply (parse_command_raises long_hourly_request HOURLY_FORECAST (Some (py "北京")));
    rewrite ?long_request_stripped.
  - exact long_request_nonempty.
  - exact long_request_type.
  - discriminate.
  - exact long_request_location.
  - exact Hmsg.
Qed.


(** ** The theorems at concrete inputs *)

Section Examples.
Local Existing Instance ascii_runtime.


Lemma ascii_set_order_ok : @set_order_ok ascii_runtime.
Proof. intros l. reflexivity. Defined.

Lemma sample_entries_well_formed : @well_formed_forecast ascii_runtime sample_entries.
Proof.
  repeat constructor; simpl; try (eexists; reflexivity); try discriminate.
Defined.





End Examples.

Section OrchestratorExamples.
Local Existing Instance ascii_runtime.

(** A payload with humidity 150 from the first provider: the request ends
    in [WeatherError], one second after it began, with the breaker closed. *)
Lemma current_weather_out_of_range_witness :
  exists msg,
    @get_current_weather ascii_runtime Z
      (sample_world (current_payload 25 150 3 180 1013) sample_forecast) owm_config
      (py "北京") (py "user") (CircuitBreaker.__init__ 5 60, 0)
    = (Raise (WeatherError msg), (CircuitBreaker.__init__ 5 60, 1000000)).
Proof.
  set (world := sample_world (current_payload 25 150 3 180 1013) sample_forecast).
  set (breaker := CircuitBreaker.__init__ 5 60).
  set (key := match CacheManager.generate_cache_key (py "北京") (py "weather")
                      [(py "units", py "metric")] with
              | Ok k => k
              | Raise _ => []
              end).
  destruct (@current_weather_out_of_range ascii_runtime Z world owm_config
              (py "北京") (py "user") breaker breaker 0 0 0 0 1000000
              {| name := py "北京" |} {| units := py "metric" |} key
              (current_payload 25 150 3 180 1013)) as [Hreject _];
    try (vm_compute; reflexivity).
  eapply Hreject; [reflexivity|reflexivity|discriminate|].
  intros [[_ Hh] _]. vm_compute in Hh. exact (Hh eq_refl).
Defined.

(** Day counts 0 and 17 are refused with nothing touched; a request for two
    days returns two days in ascending order. *)
Lemma forecast_day_count_witness :
  let world := sample_world (current_payload 25 50 3 180 1013) sample_forecast in
  let breaker := CircuitBreaker.__init__ 5 60 in
  (exists msg,
      @get_forecast ascii_runtime Z world owm_config (py "北京") 0 (py "user") (breaker, 0)
      = (Raise (WeatherError msg), (breaker, 0))) /\
  (exists msg,
      @get_forecast ascii_runtime Z world owm_config (py "北京") 17 (py "user") (breaker, 0)
      = (Raise (WeatherError msg), (breaker, 0))) /\
  (exists fd,
      @get_forecast ascii_runtime Z world owm_config (py "北京") 2 (py "user") (breaker, 0)
      = (Ok fd, (breaker, 1000000)) /\
      (length (ForecastData.days fd) <= 2)%nat /\
      StronglySorted Z.lt (map ForecastDay.date (ForecastData.days fd))).
Proof.
  intros world breaker.
  set (fd := match _convert_forecast_data owm_config sample_forecast (py "北京") 2
                     (py "metric") 1000000 with
             | Ok fd => fd
             | Raise _ => ForecastData.mk [] [] [] 0
             end).
  set (key := match CacheManager.generate_cache_key (py "北京") (py "forecast")
                      [(py "days", str_of_Z 2); (py "units", py "metric")] with
              | Ok k => k
              | Raise _ => []
              end).
  pose proof (fun days =>
                @forecast_day_count ascii_runtime Z world owm_config (py "北京") (py "user")
                  days breaker breaker 0 0 0 0 1000000 1000000
                  {| name := py "北京" |} {| units := py "metric" |} key sample_forecast fd)
    as Hdays.
  split; [|split].
  - destruct (proj1 (Hdays 0) (or_introl (Z.le_refl 0))) as (e & Hrun & -> & _).
    eexists. exact Hrun.
  - destruct (proj1 (Hdays 17) (or_intror eq_refl)) as (e & Hrun & -> & _).
    eexists. exact Hrun.
  - exists fd. apply (proj2 (Hdays 2)); try (vm_compute; reflexivity); try exact I. lia.
Defined.

End OrchestratorExamples.

(** * Further properties *)

(** ** The command parser: locations *)

Section Captures.
Import Re.
Variable ignorecase : bool.

Lemma rep_greedy_result c s (k : str -> result) m :
  rep_greedy ignorecase c s k = Some m -> exists s', k s' = Some m.
Proof.
  induction s as [|t s IH]; simpl; [eauto|].
  destruct (cset_matches ignorecase c t); [|eauto].
  destruct (rep_greedy ignorecase c s k) as [m'|] eqn:E; [|eauto].
  intros [= <-]. now apply IH.
Qed.

Lemma rep_lazy_result c s (k : str -> result) m :
  rep_lazy ignorecase c s k = Some m -> exists s', k s' = Some m.
Proof.
  induction s as [|t s IH]; simpl.
  - destruct (k []) eqn:E; [intros [= <-]; eauto|discriminate].
  - destruct (k (t :: s)) eqn:E; [intros [= <-]; eauto|].
    destruct (cset_matches ignorecase c t); [exact IH|discriminate].
Qed.

Lemma one_result c s (k : str -> result) m :
  one ignorecase c s k = Some m -> exists s', k s' = Some m.
Proof.
  destruct s as [|t s]; simpl; [discriminate|].
  destruct (cset_matches ignorecase c t); [eauto|discriminate].
Qed.

(** A match is the result of a call of the continuation, and group 1 is
    set at that call when the pattern always captures or it was set
    before. *)
Lemma exec_result r : forall s g (k : str -> capture -> result) m,
  exec ignorecase r s g k = Some m ->
  exists s' g', k s' g' = Some m /\
                (always_captures r = true \/ g <> None -> g' <> None).
Proof.
  induction r as [|c|lazy at_least_one c|r1 IH1 r2 IH2|r1 IH1 r2 IH2|r1 IH1|r1 IH1|];
    intros s g k m Hm; simpl in *.
  - exists s, g. split; [exact Hm|]. intros [?|?]; [discriminate|assumption].
  - apply one_result in Hm as [s' Hs']. exists s', g. split; [exact Hs'|].
    intros [?|?]; [discriminate|assumption].
  - assert (Hk : exists s', k s' g = Some m).
    { destruct at_least_one.
      - apply one_result in Hm as [s1 Hs1].
        destruct lazy; [apply rep_lazy_result in Hs1|apply rep_greedy_result in Hs1];
          exact Hs1.
      - destruct lazy; [apply rep_lazy_result in Hm|apply rep_greedy_result in Hm];
          exact Hm. }
    destruct Hk as [s' Hs']. exists s', g. split; [exact Hs'|].
    intros [?|?]; [discriminate|assumption].
  - apply IH1 in Hm as (s1 & g1 & Hm & Hg1).
    apply IH2 in Hm as (s2 & g2 & Hm & Hg2).
    exists s2, g2. split; [exact Hm|]. intros Hor. apply Hg2.
    destruct Hor as [Hc|Hg].
    + destruct (always_captures r1); [right; apply Hg1; now left|now left].
    + right. apply Hg1. now right.
  - destruct (exec ignorecase r1 s g k) as [m1|] eqn:E1.
    + injection Hm as <-. apply IH1 in E1 as (s1 & g1 & Hk & Hg1).
      exists s1, g1. split; [exact Hk|]. intros [Hc|Hg]; apply Hg1; [left|now right].
      now destruct (always_captures r1).
    + apply IH2 in Hm as (s2 & g2 & Hk & Hg2).
      exists s2, g2. split; [exact Hk|]. intros [Hc|Hg]; apply Hg2; [left|now right].
      now destruct (always_captures r1).
  - destruct (exec ignorecase r1 s g k) as [m1|] eqn:E1.
    + injection Hm as <-. apply IH1 in E1 as (s1 & g1 & Hk & Hg1).
      exists s1, g1. split; [exact Hk|]. intros [Hc|Hg]; [discriminate|].
      apply Hg1. now right.
    + exists s, g. split; [exact Hm|]. intros [?|?]; [discriminate|assumption].
  - apply IH1 in Hm as (s1 & g1 & Hk & _).
    exists s1, (Some (s, s1)). split; [exact Hk|]. discriminate.
  - assert (Hk : k s g = Some m).
    { destruct s as [|t [|t' s']]; [exact Hm| |discriminate].
      destruct (t =? 10)%N; [exact Hm|discriminate]. }
    exists s, g. split; [exact Hk|]. intros [?|?]; [discriminate|assumption].
Qed.

Lemma search_captures r text m :
  always_captures r = true -> search ignorecase r text = Some m ->
  exists g, group1 m = Some g.
Proof.
  intros Hc. induction text as [|t text IH]; simpl.
  - destruct (exec ignorecase r [] None _) as [m'|] eqn:E; [|discriminate].
    intros [= <-]. apply exec_result in E as (s' & g' & [= <-] & Hg).
    destruct g' as [[opened closed]|]; [simpl; eauto|]. now destruct Hg; [left|].
  - destruct (exec ignorecase r (t :: text) None _) as [m'|] eqn:E; [|exact IH].
    intros [= <-]. apply exec_result in E as (s' & g' & [= <-] & Hg).
    destruct g' as [[opened closed]|]; [simpl; eauto|]. now destruct Hg; [left|].
Qed.
End Captures.

Section Locations.
Import Re CommandParser.
Context `{PyRuntime}.

Lemma extract_location_loop_ok patterns text :
  forallb always_captures patterns = true ->
  exists r, extract_location_loop patterns text = Ok r /\
            forall location, r = Some location ->
                             location <> [] /\ _is_valid_location location = true.
Proof.
  intros Hall. induction patterns as [|p ps IH]; simpl.
  - eexists. split; [reflexivity|]. unfold _extract_location_fallback.
    intros location Hfind. apply find_some in Hfind as [_ Hp].
    apply andb_true_iff in Hp as [Hp _]. apply andb_true_iff in Hp as [Hlen Hvalid].
    split; [|exact Hvalid]. intros ->. discriminate.
  - simpl in Hall. apply andb_true_iff in Hall as [Hp Hps].
    destruct (search true p text) as [m|] eqn:Hs; [|now apply IH].
    destruct (search_captures true p text m Hp Hs) as [g ->].
    destruct (negb (bool_decide (_clean_location_string (strip g) = []))
              && _is_valid_location (_clean_location_string (strip g))) eqn:Hok;
      [|now apply IH].
    eexists. split; [reflexivity|]. intros location [= <-].
    apply andb_true_iff in Hok as [Hne Hvalid]. split; [|exact Hvalid].
    apply negb_true_iff, bool_decide_eq_false in Hne. exact Hne.
Qed.

Lemma location_patterns_capture :
  forallb always_captures location_extraction_patterns = true.
Proof. vm_compute. reflexivity. Qed.

Lemma is_valid_location_length location :
  _is_valid_location location = true -> (2 <= length (strip location))%nat.
Proof.
  unfold _is_valid_location.
  destruct (bool_decide (location = []) || (length (strip location) <? 2)%nat) eqn:E;
    [discriminate|].
  intros _. apply orb_false_iff in E as [_ E]. apply Nat.ltb_ge in E. exact E.
Qed.

(** X1: [extract_location] returns for every text (group 1 takes part in
    every match of the location patterns, so [match.group(1).strip()] is
    always defined), and a location it returns is one [_is_valid_location]
    accepts: not empty, at least two characters long once stripped. *)
Theorem extract_location_total (text : str) :
  exists r, extract_location text = Ok r /\
            forall location,
              r = Some location ->
              location <> [] /\ _is_valid_location location = true /\
              (2 <= length (strip location))%nat.
Proof.
  unfold extract_location. destruct text as [|c text].
  - eexists. split; [reflexivity|]. discriminate.
  - destruct (extract_location_loop_ok location_extraction_patterns (c :: text)
                location_patterns_capture) as (r & Hr & Hvalid).
    exists r. split; [exact Hr|]. intros location Hl.
    destruct (Hvalid location Hl) as [Hne Hv].
    split; [exact Hne|]. split; [exact Hv|]. now apply is_valid_location_length.
Qed.
End Locations.

(** ** The command parser: parameters and results *)

Section ParsedCommands.
Import Re CommandParser.
Context `{PyRuntime}.

Lemma first_in_range_raises lo hi numbers e :
  first_in_range lo hi numbers = Raise e ->
  exists msg, e = ValueError msg /\
              Exists (fun run => (int_max_str_digits < length run)%nat) numbers.
Proof.
  induction numbers as [|run numbers IH]; simpl; [discriminate|].
  unfold int_of_digits at 1.
  destruct (Nat.ltb_spec int_max_str_digits (length run)) as [Hlong|Hshort]; simpl.
  - intros [= <-]. eexists. split; [reflexivity|]. now constructor.
  - destruct ((lo <=? _) && (_ <=? hi)); [discriminate|].
    intros He. destruct (IH He) as (msg & -> & Hex). eauto.
Qed.

Lemma extract_forecast_days_range text d :
  _extract_forecast_days text = Ok (Some d) -> 1 <= d <= 14.
Proof.
  unfold _extract_forecast_days.
  repeat match goal with
         | |- context [if ?b then Ok (Some ?n) else _] =>
             destruct b; [intros [= <-]; lia|]
         end.
  apply first_in_range_bounds.
Qed.

Lemma additional_params_raises text command_type e :
  _extract_additional_params text command_type = Raise e ->
  (command_type = FORECAST \/ command_type = HOURLY_FORECAST) /\
  exists msg, e = ValueError msg /\
              Exists (fun run => (int_max_str_digits < length run)%nat)
                     (digit_runs text []).
Proof.
  destruct command_type; simpl; try discriminate.
  - unfold _extract_forecast_days.
    repeat match goal with
           | |- context [if ?b then Ok (Some ?n) else _] =>
               destruct b; [simpl; discriminate|]
           end.
    destruct (first_in_range 1 14 (digit_runs text [])) as [[d|]|e'] eqn:Hf; simpl;
      [destruct (d =? 0); discriminate|discriminate|].
    intros [= <-]. split; [now left|]. now apply first_in_range_raises in Hf.
  - unfold _extract_forecast_hours.
    destruct (str_in (py "小时") text || str_in (py "hour") (str_lower text));
      [|simpl; discriminate].
    destruct (first_in_range 1 48 (digit_runs text [])) as [[h|]|e'] eqn:Hf; simpl;
      [destruct (h =? 0); discriminate|discriminate|].
    intros [= <-]. split; [now right|]. now apply first_in_range_raises in Hf.
  - destruct (_extract_units text); discriminate.
Qed.

(** X2: the only way [parse_command] raises.  If it raises, the error is the
    [ValueError] of [int], the text was classified as a forecast or an hourly
    forecast, and it holds a run of more than 4300 digits; so on every text
    without such a run [parse_command] returns. *)
Theorem parse_command_raises_only_on_long_numbers (message : str) :
  (forall e,
      parse_command message = Raise e ->
      (detect_command_type (strip message) = FORECAST \/
       detect_command_type (strip message) = HOURLY_FORECAST) /\
      exists msg, e = ValueError msg /\
                  Exists (fun run => (int_max_str_digits < length run)%nat)
                         (digit_runs (strip message) [])) /\
  (Forall (fun run => (length run <= int_max_str_digits)%nat)
          (digit_runs (strip message) []) ->
   exists r, parse_command message = Ok r).
Proof.
  assert (Hraise : forall e,
             parse_command message = Raise e ->
             (detect_command_type (strip message) = FORECAST \/
              detect_command_type (strip message) = HOURLY_FORECAST) /\
             exists msg, e = ValueError msg /\
                         Exists (fun run => (int_max_str_digits < length run)%nat)
                                (digit_runs (strip message) [])).
  { intros e. unfold parse_command.
    destruct (bool_decide (message = []) || bool_decide (strip message = []));
      [discriminate|]. cbv zeta.
    destruct (extract_location_total (strip message)) as (loc & Hloc & _).
    rewrite Hloc. cbn [res_bind].
    destruct (_extract_additional_params (strip message)
                (detect_command_type (strip message))) as [params|e'] eqn:Hp.
    - cbn [res_bind]. destruct (detect_command_type (strip message)); discriminate.
    - cbn [res_bind]. apply additional_params_raises in Hp.
      destruct (detect_command_type (strip message)); try discriminate;
        intros [= <-]; exact Hp. }
  split; [exact Hraise|].
  intros Hshort. destruct (parse_command message) as [r|e] eqn:Hp; [eauto|].
  destruct (Hraise e eq_refl) as (_ & msg & _ & Hlong). exfalso.
  apply Exists_exists in Hlong as (run & Hin & Hlen).
  rewrite Forall_forall in Hshort. apply Hshort in Hin. lia.
Qed.

Lemma extract_time_period_keys text key :
  _extract_time_period text = Some key ->
  key ∈ map py ["today"; "tomorrow"; "day_after_tomorrow"; "this_week"; "next_week"]%string.
Proof.
  unfold _extract_time_period.
  destruct (List.find _ time_patterns) as [[k ps]|] eqn:Hf; [|discriminate].
  intros [= <-]. apply find_some in Hf as [Hin _].
  apply (in_map fst) in Hin. apply list_elem_of_In. exact Hin.
Qed.

(** X3: the commands [parse_command] returns.  A help command carries
    nothing else.  The parameters are empty but for one entry that depends
    on the type: "days" with an integer in 1..14 for a forecast (or none),
    "hours" with an integer in 1..48 for an hourly forecast (always),
    "units" with "metric" or "imperial" for a change of units (or none).  The
    time period, when there is one, is one of the five keys of the table, and
    the location, when there is one, is a valid location. *)
Theorem parsed_command_well_formed (message : str) (command : WeatherCommand) :
  parse_command message = Ok (Some command) ->
  let params := additional_params command in
  match command_type command with
  | HELP => location command = None /\ time_period command = None /\ params = ∅
  | FORECAST =>
      params = ∅ \/ exists days, 1 <= days <= 14 /\ params = {[ py "days" := PInt days ]}
  | HOURLY_FORECAST =>
      exists hours, 1 <= hours <= 48 /\ params = {[ py "hours" := PInt hours ]}
  | SET_UNITS =>
      params = ∅ \/ params = {[ py "units" := PStr (py "metric") ]} \/
      params = {[ py "units" := PStr (py "imperial") ]}
  | _ => params = ∅
  end /\
  (forall key, time_period command = Some key ->
               key ∈ map py ["today"; "tomorrow"; "day_after_tomorrow"; "this_week";
                             "next_week"]%string) /\
  (forall place, location command = Some place ->
                 place <> [] /\ _is_valid_location place = true).
Proof.
  unfold parse_command.
  destruct (bool_decide (message = []) || bool_decide (strip message = []));
    [discriminate|]. cbv zeta.
  destruct (extract_location_total (strip message)) as (loc & Hloc & Hvalid).
  assert (Hplace : forall place, loc = Some place ->
                                 place <> [] /\ _is_valid_location place = true).
  { intros place Hp. destruct (Hvalid place Hp) as (? & ? & _). auto. }
  pose proof (extract_time_period_keys (strip message)) as Htime.
  destruct (detect_command_type (strip message)) eqn:Ht; rewrite ?Hloc;
    cbn [res_bind _extract_additional_params].
  all: try (intros [= <-]; simpl; split; [reflexivity|split; [exact Htime|exact Hplace]]).
  - (* FORECAST *)
    destruct (_extract_forecast_days (strip message)) as [[d|]|e] eqn:Hd; simpl;
      [|intros [= <-]; simpl; split; [now left|split; [exact Htime|exact Hplace]]
       |discriminate].
    pose proof (extract_forecast_days_range _ _ Hd) as Hr.
    destruct (Z.eqb_spec d 0); [lia|]. intros [= <-]. simpl.
    split; [right; exists d; split; [exact Hr|reflexivity]|].
    split; [exact Htime|exact Hplace].
  - (* HOURLY_FORECAST *)
    destruct (_extract_forecast_hours (strip message)) as [h|e] eqn:Hh; simpl;
      [|discriminate].
    pose proof (extract_forecast_hours_range _ _ Hh) as Hr.
    destruct (Z.eqb_spec h 0); [lia|]. intros [= <-]. simpl.
    split; [exists h; split; [exact Hr|reflexivity]|].
    split; [exact Htime|exact Hplace].
  - (* SET_UNITS *)
    unfold _extract_units.
    destruct (existsb _ _); [|destruct (existsb _ _)]; intros [= <-]; simpl;
      (split; [|split; [exact Htime|exact Hplace]]); auto.
  - (* HELP *)
    intros [= <-]. simpl. split; [auto|]. split; discriminate.
Qed.
End ParsedCommands.

(** A request for twelve hours of Beijing. *)
Lemma parsed_command_well_formed_witness :
  exists command,
    @CommandParser.parse_command ascii_runtime (py "北京小时预报 12小时") = Ok (Some command) /\
    command_type command = HOURLY_FORECAST /\
    (exists hours, 1 <= hours <= 48 /\
                   additional_params command = {[py "hours" := PInt hours]}) /\
    forall place, location command = Some place ->
                  place <> [] /\ @CommandParser._is_valid_location ascii_runtime place = true.
Proof.
  eexists. split; [vm_compute; reflexivity|].
  split; [reflexivity|].
  match goal with
  | |- context [additional_params ?c] =>
      pose proof (@parsed_command_well_formed ascii_runtime (py "北京小时预报 12小时") c
                    ltac:(vm_compute; reflexivity)) as (Hparams & _ & Hplace)
  end.
  split; [exact Hparams|exact Hplace].
Defined.

(** ** The circuit breaker between calls *)

Section BreakerInvariant.
Import CircuitBreaker.
Context {W A : Type} `{Clock W}.

(** X4: the breaker's invariant.  A new breaker with a threshold of at least
    one is consistent, and every call through a consistent breaker leaves it
    consistent, whatever the wrapped function does: after a call the breaker
    is CLOSED with fewer failures than the threshold or OPEN with at least as
    many and a recorded failure time, never HALF_OPEN; the threshold and the
    timeout are never changed. *)
Theorem breaker_stays_consistent :
  (forall failure_threshold recovery_timeout,
      1 <= failure_threshold ->
      breaker_consistent (__init__ failure_threshold recovery_timeout)) /\
  (forall (func : M W A) (self : t) (w : W),
      breaker_consistent self ->
      let self' := fst (snd (call func (self, w))) in
      breaker_consistent self' /\
      failure_threshold self' = failure_threshold self /\
      recovery_timeout self' = recovery_timeout self).
Proof.
  split.
  - intros failure_threshold recovery_timeout Ht. unfold breaker_consistent. simpl. lia.
  - intros func self w (Ht & Hc & Hs). unfold call, call_gate.
    destruct (state self) eqn:Hst.
    + (* CLOSED *)
      destruct (func w) as [[r|e] w']; simpl.
      * unfold breaker_consistent. simpl. split; [|auto]. lia.
      * unfold breaker_consistent. simpl. split; [|auto].
        split; [exact Ht|]. split; [lia|].
        destruct (Z.leb_spec (failure_threshold self) (failure_count self + 1)).
        -- split; [lia|eauto].
        -- rewrite Hst. lia.
    + (* OPEN *)
      destruct Hs as [Hge Hlast].
      destruct (_should_attempt_reset self (datetime_now w)); simpl.
      * destruct (func w) as [[r|e] w']; simpl.
        -- unfold breaker_consistent. simpl. split; [|auto]. lia.
        -- unfold breaker_consistent. simpl. split; [|auto].
           split; [exact Ht|]. split; [lia|].
           destruct (Z.leb_spec (failure_threshold self) (failure_count self + 1));
             [|lia]. split; [lia|eauto].
      * unfold breaker_consistent. rewrite Hst. auto.
    + contradiction.
Qed.
End BreakerInvariant.

Section BreakerAndRetry.
Import CircuitBreaker.
Context `{PyRuntime} {W A : Type} `{Collaborators W}.

Lemma breaker_message_retryable :
  is_non_retryable (exn_str breaker_open_error) = false.
Proof. vm_compute. reflexivity. Qed.

Lemma breaker_message_delay d : actual_delay (exn_str breaker_open_error) d = d.
Proof.
  unfold actual_delay.
  replace (str_in (py "rate limit") (exn_str breaker_open_error)
           || str_in (py "429") (exn_str breaker_open_error)) with false
    by (vm_compute; reflexivity).
  replace (str_in (py "timeout") (exn_str breaker_open_error)
           || str_in (py "network") (exn_str breaker_open_error)) with false
    by (vm_compute; reflexivity).
  replace (str_in (py "500") (exn_str breaker_open_error)
           || str_in (py "502") (exn_str breaker_open_error)
           || str_in (py "503") (exn_str breaker_open_error)) with false
    by (vm_compute; reflexivity).
  reflexivity.
Qed.

(** X5: an open breaker under the retry wrapper, as the service calls it
    (two retries, base delay one second).  While the breaker stays within its
    recovery window, the rejection is treated as a retryable error: the
    wrapper goes through the breaker three times, sleeps 1 and then 1.5
    seconds in between, never runs the wrapped function, leaves the breaker
    as it was and raises the breaker's own error. *)
Theorem open_breaker_is_retried (func : M W A) (self : t) (w : W) (last : Z) :
  state self = OPEN ->
  last_failure_time self = Some last ->
  str_lower (exn_str breaker_open_error) = exn_str breaker_open_error ->
  let w1 := asyncio_sleep 1 w in
  let w2 := asyncio_sleep (1 * (3 # 2)) w1 in
  datetime_now w - last <= recovery_timeout self * 1000000 ->
  datetime_now w1 - last <= recovery_timeout self * 1000000 ->
  datetime_now w2 - last <= recovery_timeout self * 1000000 ->
  _handle_api_error_with_retry sleep (call func) 2 1 (self, w)
  = (Raise breaker_open_error, (self, w2)).
Proof.
  intros Hs Hl Hlower w1 w2 Hw0 Hw1 Hw2.
  unfold _handle_api_error_with_retry. change (Z.to_nat (2 + 1)) with 3%nat.
  cbn [retry_loop].
  rewrite (call_rejected self w last func Hs Hl Hw0). cbn [is_APIError breaker_open_error].
  change (exn_str (APIError (py "服务暂时不可用（断路器开启）")))
    with (exn_str breaker_open_error).
  rewrite Hlower, breaker_message_retryable, breaker_message_delay.
  unfold sleep at 1. cbn [fst snd]. fold w1.
  rewrite (call_rejected self w1 last func Hs Hl Hw1). cbn [is_APIError breaker_open_error].
  change (exn_str (APIError (py "服务暂时不可用（断路器开启）")))
    with (exn_str breaker_open_error).
  rewrite Hlower, breaker_message_retryable, breaker_message_delay.
  unfold sleep at 1. cbn [fst snd]. fold w2.
  rewrite (call_rejected self w2 last func Hs Hl Hw2). cbn [is_APIError breaker_open_error].
  change (exn_str (APIError (py "服务暂时不可用（断路器开启）")))
    with (exn_str breaker_open_error).
  rewrite Hlower, breaker_message_retryable. reflexivity.
Qed.
End BreakerAndRetry.

(** The open breaker, asked within its minute: three rejections, 2.5
    seconds of sleep, and the wrapped call never runs. *)
Lemma open_breaker_is_retried_witness :
  @WeatherService._handle_api_error_with_retry ascii_runtime _ unit
    (@WeatherService.sleep Z (sample_world (current_payload 25 50 3 180 1013) sample_forecast))
    (CircuitBreaker.call (H := clock_world) failing_call) 2 1 (open_breaker, 1000000)
  = (Raise CircuitBreaker.breaker_open_error, (open_breaker, 3500000)).
Proof.
  apply (@open_breaker_is_retried ascii_runtime Z unit
           (sample_world (current_payload 25 50 3 180 1013) sample_forecast)
           failing_call open_breaker 1000000 0);
    try reflexivity; vm_compute; discriminate.
Defined.

(** ** The orchestrator: cache hits, errors and degradation *)

Section KeyOrder.
Import CacheManager.
Context `{PyRuntime}.

Lemma generate_cache_key_swap location data_type (p q : str * str) :
  fst p <> fst q ->
  generate_cache_key location data_type [p; q]
  = generate_cache_key location data_type [q; p].
Proof.
  intros Hne.
  assert (Hnd : NoDup (map fst [p; q])).
  { simpl. apply NoDup_cons. split; [|apply NoDup_singleton].
    intros Hin. apply list_elem_of_singleton in Hin. contradiction. }
  assert (Hp : [p; q] ≡ₚ [q; p]) by apply perm_swap.
  unfold generate_cache_key, key_string,
    key_components.
  rewrite (sorted_keys_perm (map fst [p; q]) (map fst [q; p])) by (now rewrite Hp).
  replace (map (fun key => key ++ py ":" ++ default [] (kwargs_get key [p; q]))
               (merge_sort str_le (map fst [q; p])))
    with (map (fun key => key ++ py ":" ++ default [] (kwargs_get key [q; p]))
              (merge_sort str_le (map fst [q; p]))); [reflexivity|].
  apply map_ext. intros key. now rewrite (kwargs_get_perm key [p; q] [q; p]).
Qed.
End KeyOrder.

Section OrchestratorPaths.
Context `{PyRuntime} {W : Type} `{Collaborators W}.
Variable config : WeatherConfig.

(** X6: a cache hit ends the request.  When the location resolves and the
    cache holds a record under the key of the request, [get_current_weather]
    and [get_forecast] return that record as it is; the breaker is untouched
    and the world is the one the cache read left: nothing is fetched,
    converted or written. *)
Theorem cache_hit_ends_request
  (location user_id : str) (breaker : CircuitBreaker.t) (w0 w1 w2 w3 : W)
  (location_info : LocationInfo) (prefs : UserPrefs) (cache_key : str) :
  parse_location location w0 = (Ok location_info, w1) ->
  get_user_preferences user_id w1 = (Ok prefs, w2) ->
  (forall data,
      CacheManager.generate_cache_key (name location_info) (py "weather")
        [(py "units", units prefs)] = Ok cache_key ->
      get_cached_weather cache_key w2 = (Ok (Some data), w3) ->
      get_current_weather config location user_id (breaker, w0)
      = (Ok data, (breaker, w3))) /\
  (forall days data,
      1 <= days <= 16 ->
      CacheManager.generate_cache_key (name location_info) (py "forecast")
        [(py "days", str_of_Z days); (py "units", units prefs)] = Ok cache_key ->
      get_cached_forecast cache_key w2 = (Ok (Some data), w3) ->
      get_forecast config location days user_id (breaker, w0)
      = (Ok data, (breaker, w3))).
Proof.
  intros Hlocation Hprefs. split.
  - intros data Hkey Hhit.
    unfold get_current_weather, try_except, get_current_weather_body.
    rewrite (bind_Ok _ _ _ _ _ (liftW_run _ breaker _ _ _ Hlocation)).
    rewrite (bind_Ok _ _ _ _ _ (liftW_run _ breaker _ _ _ Hprefs)).
    rewrite Hkey. rewrite (bind_Ok _ _ (breaker, w2) cache_key (breaker, w2)) by reflexivity.
    rewrite (bind_Ok _ _ _ _ _ (liftW_run _ breaker _ _ _ Hhit)). reflexivity.
  - intros days data Hdays Hkey Hhit.
    unfold get_forecast, try_except, get_forecast_body.
    replace ((days <=? 0) || (16 <? days)) with false
      by (symmetry; apply orb_false_iff; lia).
    rewrite (bind_Ok _ _ _ _ _ (liftW_run _ breaker _ _ _ Hlocation)).
    rewrite (bind_Ok _ _ _ _ _ (liftW_run _ breaker _ _ _ Hprefs)).
    rewrite Hkey. rewrite (bind_Ok _ _ (breaker, w2) cache_key (breaker, w2)) by reflexivity.
    rewrite (bind_Ok _ _ _ _ _ (liftW_run _ breaker _ _ _ Hhit)). reflexivity.
Qed.

Local Ltac in_list :=
  lazymatch goal with
  | |- ?x ∈ ?x :: _ => apply list_elem_of_here
  | |- _ ∈ _ :: _ => apply list_elem_of_further; in_list
  end.

Lemma friendly_message_in_table key location :
  key ∈ map py ["api_unavailable"; "location_not_found"; "rate_limit"; "network_error";
                "auth_error"; "invalid_api_key"; "quota_exceeded"; "maintenance";
                "server_error"]%string ->
  _get_friendly_error_message key location ∈ map snd (error_messages location) /\
  (key ∈ map py ["rate_limit"; "network_error"; "auth_error"; "invalid_api_key";
                 "quota_exceeded"; "maintenance"]%string ->
   _get_friendly_error_message key [] = _get_friendly_error_message key location).
Proof.
  intros Hkey.
  repeat (apply elem_of_cons in Hkey as [->|Hkey];
          [unfold _get_friendly_error_message, error_messages;
           cbn [CacheManager.kwargs_get];
           repeat match goal with
                  | |- context [str_eqb ?a ?b] =>
                      let v := eval vm_compute in (str_eqb a b) in
                      replace (str_eqb a b) with v by (vm_compute; reflexivity)
                  end;
           cbv iota; cbn [default from_option id map snd];
           split;
           [in_list
           |intros Hfixed;
            first [reflexivity
                  |exfalso;
                   repeat (apply elem_of_cons in Hfixed as [Hfixed|Hfixed];
                           [vm_compute in Hfixed; discriminate|]);
                   now apply elem_of_nil in Hfixed]]
          |]).
  now apply elem_of_nil in Hkey.
Qed.

Lemma friendly_error_kind e location :
  exists msg, (friendly_error e location = APIError msg \/
               friendly_error e location = LocationError msg) /\
              msg ∈ map snd (error_messages location).
Proof.
  unfold friendly_error.
  repeat match goal with
         | |- context [if ?b then _ else _] => destruct b
         end;
    eexists; (split; [first [left; reflexivity|right; reflexivity]|]);
    match goal with
    | |- _get_friendly_error_message ?key [] ∈ _ =>
        rewrite (proj2 (friendly_message_in_table key location
                          ltac:(cbn [map]; in_list)) ltac:(cbn [map]; in_list))
    | _ => idtac
    end;
    match goal with
    | |- _get_friendly_error_message ?key _ ∈ _ =>
        apply (proj1 (friendly_message_in_table key location ltac:(cbn [map]; in_list)))
    end.
Qed.
Lemma fallback_never_raises d location user_id kwargs st :
  exists r st', _fallback_to_stale_cache d location user_id kwargs st = (Ok r, st').
Proof.
  unfold _fallback_to_stale_cache, try_except.
  match goal with |- context [match ?m st with _ => _ end] => destruct (m st) as [[r|e] st'] end;
    eauto.
Qed.

(** The outcome of the handlers of the two entry points. *)
Lemma handled_error d (prefix : str) kwargs location user_id e0 st0 e st' :
  (forall l w, exists r w', suggest_corrections l w = (Ok r, w')) ->
  match e0 with
  | LocationError _ => location_error_handler location
  | APIError _ => api_error_handler d e0 location user_id kwargs
  | _ => raise (WeatherError (prefix ++ exn_str e0))
  end st0 = (Raise e, st') ->
  exists msg,
    (e = APIError msg /\ msg ∈ map snd (error_messages location)) \/
    e = LocationError msg \/ e = WeatherError msg.
Proof.
  intros Hsuggest.
  assert (Hloc : location_error_handler (A := payload d) location st0 = (Raise e, st') ->
                 exists msg, e = LocationError msg).
  { unfold location_error_handler, bind, liftW. destruct st0 as [breaker w].
    destruct (Hsuggest location w) as (r & w' & ->).
    destruct r; unfold raise; intros [= <- <-]; eauto. }
  assert (Hapi : api_error_handler d e0 location user_id kwargs st0 = (Raise e, st') ->
                 exists msg,
                   (e = APIError msg /\ msg ∈ map snd (error_messages location)) \/
                   e = LocationError msg).
  { unfold api_error_handler, bind, try_except.
    destruct (fallback_never_raises d location user_id kwargs st0) as (r & st1 & ->).
    destruct r as [data|]; [discriminate|]. unfold raise. intros [= <- <-].
    destruct (friendly_error_kind e0 location) as (msg & [->| ->] & Hin); eauto. }
  destruct e0; try (unfold raise; intros [= <- <-]; eauto).
  - intros He. destruct (Hapi He) as (m & [Hm|Hm]); eauto.
  - intros He. destruct (Hloc He) as (m & Hm); eauto.
Qed.

(** X7: the errors of the entry points.  Provided the location service's
    [suggest_corrections] returns, whatever [get_current_weather] or
    [get_forecast] raises is a [LocationError], an [APIError] or a
    [WeatherError]; and the message of an [APIError] is one of the fixed
    messages of [_get_friendly_error_message] for the requested location,
    never the provider's own text. *)
Theorem entry_points_raise_service_errors
  (location user_id : str) (days : Z) (st st' : ServiceState) (e : exn) :
  (forall l w, exists r w', suggest_corrections l w = (Ok r, w')) ->
  get_current_weather config location user_id st = (Raise e, st') \/
  get_forecast config location days user_id st = (Raise e, st') ->
  exists msg,
    (e = APIError msg /\ msg ∈ map snd (error_messages location)) \/
    e = LocationError msg \/ e = WeatherError msg.
Proof.
  intros Hsuggest [Hrun|Hrun].
  - unfold get_current_weather, try_except in Hrun.
    destruct (get_current_weather_body config location user_id st) as [[r|e0] st0];
      [discriminate|].
    exact (handled_error Weather (py "获取天气数据时发生错误: ") [] location user_id
             e0 st0 e st' Hsuggest Hrun).
  - unfold get_forecast, try_except in Hrun.
    destruct (get_forecast_body config location days user_id st) as [[r|e0] st0];
      [discriminate|].
    exact (handled_error Forecast (py "获取预报数据时发生错误: ")
             [(py "days", str_of_Z days)] location user_id e0 st0 e st' Hsuggest Hrun).
Qed.

(** X8: the degraded path.  [_fallback_to_stale_cache] never raises: any
    failure of a collaborator gives [None].  When the preferences and the
    location resolve, the expired entry under the key of the request is
    preferred to an entry of a similar location; a weather record comes back
    with "[缓存数据]" or "[相似位置]" put before its condition, a forecast
    comes back unmarked; and for a forecast the key that is read is the key
    [get_forecast] writes. *)
Theorem fallback_to_stale_cache_outcomes
  (d : DataType) (location user_id : str) (kwargs : list (str * str))
  (breaker : CircuitBreaker.t) (w0 w1 w2 : W) (prefs : UserPrefs)
  (location_info : LocationInfo) (cache_key : str) :
  (forall st, exists r st',
      _fallback_to_stale_cache d location user_id kwargs st = (Ok r, st')) /\
  (get_user_preferences user_id w0 = (Ok prefs, w1) ->
   parse_location location w1 = (Ok location_info, w2) ->
   CacheManager.generate_cache_key (name location_info) (data_type_str d)
     ((py "units", units prefs) :: kwargs) = Ok cache_key ->
   (forall data w3,
       _get_stale_cache_data d cache_key w2 = (Some data, w3) ->
       _fallback_to_stale_cache d location user_id kwargs (breaker, w0)
       = (Ok (Some (tag_condition d (py "[缓存数据]") data)), (breaker, w3))) /\
   (forall data w3 w4,
       _get_stale_cache_data d cache_key w2 = (None, w3) ->
       _get_similar_location_cache d (name location_info) (units prefs) kwargs w3
       = (Some data, w4) ->
       _fallback_to_stale_cache d location user_id kwargs (breaker, w0)
       = (Ok (Some (tag_condition d (py "[相似位置]") data)), (breaker, w4))) /\
   (forall w3 w4,
       _get_stale_cache_data d cache_key w2 = (None, w3) ->
       _get_similar_location_cache d (name location_info) (units prefs) kwargs w3
       = (None, w4) ->
       _fallback_to_stale_cache d location user_id kwargs (breaker, w0)
       = (Ok None, (breaker, w4)))) /\
  (forall tag data,
      WeatherData.condition (tag_condition Weather tag data)
      = tag ++ py " " ++ WeatherData.condition data) /\
  (forall tag data, tag_condition Forecast tag data = data) /\
  (forall days,
      CacheManager.generate_cache_key (name location_info) (data_type_str Forecast)
        [(py "units", units prefs); (py "days", str_of_Z days)]
      = CacheManager.generate_cache_key (name location_info) (py "forecast")
          [(py "days", str_of_Z days); (py "units", units prefs)]).
Proof.
  split; [intros st; apply fallback_never_raises|].
  split; [|split; [reflexivity|split; [reflexivity|]]].
  - intros Hprefs Hlocation Hkey.
    assert (Hbody : forall k : UserPrefs -> LocationInfo -> str
                               -> M ServiceState (option (payload d)),
               try_except
                 (bind (liftW (get_user_preferences user_id))
                    (fun user_prefs =>
                       bind (liftW (parse_location location))
                         (fun location_info0 =>
                            bind (lift_res (CacheManager.generate_cache_key
                                              (name location_info0) (data_type_str d)
                                              ((py "units", units user_prefs) :: kwargs)))
                                 (k user_prefs location_info0))))
                 (fun _ => ret None) (breaker, w0)
               = try_except (k prefs location_info cache_key) (fun _ => ret None)
                   (breaker, w2)).
    { intros k. unfold try_except.
      rewrite (bind_Ok _ _ _ _ _ (liftW_run _ breaker _ _ _ Hprefs)).
      rewrite (bind_Ok _ _ _ _ _ (liftW_run _ breaker _ _ _ Hlocation)).
      rewrite Hkey.
      now rewrite (bind_Ok _ _ (breaker, w2) cache_key (breaker, w2)) by reflexivity. }
    unfold _fallback_to_stale_cache.
    split; [|split].
    + intros data w3 Hstale. rewrite Hbody. unfold try_except, bind, liftW.
      rewrite Hstale. reflexivity.
    + intros data w3 w4 Hstale Hsimilar. rewrite Hbody. unfold try_except, bind, liftW.
      rewrite Hstale. cbn [fst snd]. rewrite Hsimilar. reflexivity.
    + intros w3 w4 Hstale Hsimilar. rewrite Hbody. unfold try_except, bind, liftW.
      rewrite Hstale. cbn [fst snd]. rewrite Hsimilar. reflexivity.
  - intros days. apply generate_cache_key_swap. simpl. vm_compute. discriminate.
Qed.

End OrchestratorPaths.

(** With the cache of [cached_world] both requests are answered from it:
    the clock does not move and the breaker is not touched. *)
Lemma cache_hit_ends_request_witness :
  let breaker := CircuitBreaker.__init__ 5 60 in
  @WeatherService.get_current_weather ascii_runtime Z cached_world owm_config
    (py "北京") (py "user") (breaker, 0)
  = (Ok cached_weather, (breaker, 0)) /\
  @WeatherService.get_forecast ascii_runtime Z cached_world owm_config
    (py "北京") 3 (py "user") (breaker, 0)
  = (Ok cached_forecast, (breaker, 0)).
Proof.
  intros breaker.
  destruct (@cache_hit_ends_request ascii_runtime Z cached_world owm_config
              (py "北京") (py "user") breaker 0 0 0 0
              {| name := py "北京" |} {| units := py "metric" |}
              (match @CacheManager.generate_cache_key ascii_runtime (py "北京") (py "weather")
                       [(py "units", py "metric")] with
               | Ok k => k
               | Raise _ => []
               end) eq_refl eq_refl) as [Hweather _].
  destruct (@cache_hit_ends_request ascii_runtime Z cached_world owm_config
              (py "北京") (py "user") breaker 0 0 0 0
              {| name := py "北京" |} {| units := py "metric" |}
              (match @CacheManager.generate_cache_key ascii_runtime (py "北京") (py "forecast")
                       [(py "days", str_of_Z 3); (py "units", py "metric")] with
               | Ok k => k
               | Raise _ => []
               end) eq_refl eq_refl) as [_ Hforecast].
  split.
  - apply Hweather; [vm_compute; reflexivity|reflexivity].
  - apply Hforecast; [lia|vm_compute; reflexivity|reflexivity].
Defined.

(** A forecast for no days at all: the error is a [WeatherError]. *)
Lemma entry_points_raise_service_errors_witness :
  exists msg,
    (WeatherError (py "获取预报数据时发生错误: " ++ py "预报天数必须在 1-16 之间")
     = APIError msg /\
     msg ∈ map snd (WeatherService.error_messages (py "北京"))) \/
    WeatherError (py "获取预报数据时发生错误: " ++ py "预报天数必须在 1-16 之间")
    = LocationError msg \/
    WeatherError (py "获取预报数据时发生错误: " ++ py "预报天数必须在 1-16 之间")
    = WeatherError msg.
Proof.
  apply (@entry_points_raise_service_errors ascii_runtime Z
           (sample_world (current_payload 25 50 3 180 1013) sample_forecast) owm_config
           (py "北京") (py "user") 0
           (CircuitBreaker.__init__ 5 60, 0) (CircuitBreaker.__init__ 5 60, 0)).
  - intros l w. exists [], w. reflexivity.
  - right. reflexivity.
Defined.

(** ** Validator and sanitizer together *)

Lemma validate_spec (w : WeatherData.t) :
  _validate_weather_data w = true <->
  weather_within_bounds w /\ WeatherData.location w <> [] /\ WeatherData.condition w <> [].
Proof.
  unfold _validate_weather_data, weather_within_bounds.
  destruct (Qle_bool (-100) (WeatherData.temperature w)) eqn:T1;
    [apply Qle_bool_iff in T1|].
  2:{ simpl. split; [discriminate|]. intros [[[Ht _] _] _].
      apply Qle_bool_iff in Ht. congruence. }
  destruct (Qle_bool (WeatherData.temperature w) 60) eqn:T2; [apply Qle_bool_iff in T2|].
  2:{ simpl. split; [discriminate|]. intros [[[_ Ht] _] _].
      apply Qle_bool_iff in Ht. congruence. }
  cbn [andb negb].
  destruct ((0 <=? WeatherData.humidity w) && (WeatherData.humidity w <=? 100)) eqn:Eh;
    cbn [negb]; [|split; [discriminate|intros [(_ & Hh & _) _]; lia]].
  destruct (Qlt_bool (WeatherData.wind_speed w) 0) eqn:W1.
  { simpl. split; [discriminate|]. intros [(_ & _ & [Hw _] & _) _].
    apply Qlt_bool_iff in W1. exfalso. eapply Qlt_not_le; eassumption. }
  destruct (Qlt_bool 500 (WeatherData.wind_speed w)) eqn:W2.
  { simpl. split; [discriminate|]. intros [(_ & _ & [_ Hw] & _) _].
    apply Qlt_bool_iff in W2. exfalso. eapply Qlt_not_le; eassumption. }
  apply Qlt_bool_false in W1, W2. cbn [orb].
  destruct (Qle_bool 800 (WeatherData.pressure w)) eqn:P1; [apply Qle_bool_iff in P1|].
  2:{ simpl. split; [discriminate|]. intros [(_ & _ & _ & [Hp _]) _].
      apply Qle_bool_iff in Hp. congruence. }
  destruct (Qle_bool (WeatherData.pressure w) 1100) eqn:P2; [apply Qle_bool_iff in P2|].
  2:{ simpl. split; [discriminate|]. intros [(_ & _ & _ & [_ Hp]) _].
      apply Qle_bool_iff in Hp. congruence. }
  cbn [andb negb].
  destruct (bool_decide (WeatherData.location w = [])) eqn:L;
    [apply bool_decide_eq_true in L|apply bool_decide_eq_false in L].
  { simpl. split; [discriminate|]. intros (_ & Hl & _). contradiction. }
  destruct (bool_decide (WeatherData.condition w = [])) eqn:C;
    [apply bool_decide_eq_true in C|apply bool_decide_eq_false in C].
  { simpl. split; [discriminate|]. intros (_ & _ & Hc). contradiction. }
  simpl. split; [intros _|reflexivity].
  repeat split; try assumption; lia.
Qed.

Lemma sanitize_within_bounds (w : WeatherData.t) :
  weather_within_bounds (_sanitize_weather_data w).
Proof.
  unfold weather_within_bounds, _sanitize_weather_data. simpl.
  split; [apply (clampQ_spec (-100) 60); discriminate|].
  split; [apply (clampZ_spec 0 100); lia|].
  split; [apply (clampQ_spec 0 500); discriminate|].
  apply (clampQ_spec 800 1100); discriminate.
Qed.


Section FetchedRecords.
Context `{PyRuntime} {W : Type} `{Collaborators W}.
Variable config : WeatherConfig.

Lemma convert_current_in_range raw_data location units timestamp weather_data :
  _convert_current_weather_data config raw_data location units timestamp = Ok weather_data ->
  weather_in_range weather_data.
Proof.
  unfold _convert_current_weather_data, res_try.
  destruct (if str_eqb (api_provider config) (py "openweathermap") then _ else _)
    as [wd|e] eqn:Hc; [|destruct e; discriminate].
  intros [= ->].
  destruct (str_eqb (api_provider config) (py "openweathermap")).
  - unfold _convert_openweathermap_current in Hc.
    destruct raw_data as [r|r]; [|discriminate].
    destruct (first_weather (owm_weather r)); simpl in Hc; [|discriminate].
    now apply WeatherData_new_inv in Hc.
  - destruct (str_eqb (api_provider config) (py "weatherapi")); [|discriminate].
    unfold _convert_weatherapi_current in Hc.
    destruct raw_data as [r|r]; [discriminate|].
    now apply WeatherData_new_inv in Hc.
Qed.

End FetchedRecords.


(** ** Conversion: errors and the days that are kept *)

Section ConversionErrors.
Context `{PyRuntime}.
Variable config : WeatherConfig.


Lemma take_sorted_split (l : list Z) (n : nat) (x : Z) :
  StronglySorted Z.lt l -> x ∈ l ->
  x ∈ take n l \/ (length (take n l) = n /\ forall y, y ∈ take n l -> y < x).
Proof.
  intros Hs. revert n. induction Hs as [|a l Hs IH Hall]; intros n Hx.
  - now apply elem_of_nil in Hx.
  - destruct n as [|n]; simpl.
    + right. split; [reflexivity|]. intros y Hy. now apply elem_of_nil in Hy.
    + apply elem_of_cons in Hx as [->|Hx]; [left; left|].
      destruct (IH n Hx) as [Hin|[Hlen Hlt]]; [left; now right|].
      right. split; [now rewrite Hlen|]. intros y Hy.
      apply elem_of_cons in Hy as [->|Hy]; [|now apply Hlt].
      rewrite Forall_forall in Hall. now apply Hall.
Qed.

Lemma owm_forecast_dates items location days units now fd :
  0 <= days ->
  _convert_openweathermap_forecast (OWM_forecast items) location days units now = Ok fd ->
  exists m, group_by_date items ∅ = Ok m /\
            map ForecastDay.date (ForecastData.days fd)
            = take (Z.to_nat days) (sorted_keys m).
Proof.
  intros Hdays. unfold _convert_openweathermap_forecast.
  destruct (group_by_date items ∅) as [m|e] eqn:Hm; simpl; [|discriminate].
  destruct (res_mapM _ (slice_to (sorted_keys m) days)) as [l|e] eqn:Hl; simpl;
    [|discriminate].
  intros [= <-]. simpl. apply res_mapM_Forall2 in Hl.
  rewrite slice_to_take in Hl by exact Hdays.
  exists m. split; [reflexivity|].
  eapply Forall2_dates; [|exact Hl]. intros d day Hc. simpl in Hc.
  now apply convert_day_date in Hc.
Qed.

(** X12: which days a forecast keeps.  The converted forecast of the first
    provider holds the earliest dates of the payload: every entry of the
    payload falls on a date of the result, or the result is full ([days]
    days) and all its dates are earlier than the entry's. *)
Theorem forecast_keeps_earliest_dates
  (items : list OWMForecastItem) (location : str) (days : Z) (units : str) (now : Z)
  (fd : ForecastData.t) :
  0 <= days ->
  _convert_openweathermap_forecast (OWM_forecast items) location days units now = Ok fd ->
  let dates := map ForecastDay.date (ForecastData.days fd) in
  forall item d,
    item ∈ items -> local_date (dt item) = Some d ->
    d ∈ dates \/
    (length dates = Z.to_nat days /\ forall d', d' ∈ dates -> d' < d).
Proof.
  intros Hdays Hfd dates item d Hitem Hd.
  destruct (owm_forecast_dates _ _ _ _ _ _ Hdays Hfd) as (m & Hm & Hdates).
  subst dates. rewrite Hdates.
  apply take_sorted_split; [apply sorted_keys_sorted|].
  apply sorted_keys_elem. apply (group_lookup items m d Hm).
  intros Hnil. assert (Hin : item ∈ entries_on d items).
  { unfold entries_on. apply list_elem_of_In, filter_In. split.
    - now apply list_elem_of_In.
    - now apply bool_decide_eq_true. }
  rewrite Hnil in Hin. now apply elem_of_nil in Hin.
Qed.
End ConversionErrors.

(** The sample payload for two days: the third date is later than both
    dates that are kept. *)
Lemma forecast_keeps_earliest_dates_witness :
  exists fd,
    @WeatherService._convert_openweathermap_forecast ascii_runtime sample_forecast
      (py "北京") 2 (py "metric") 0 = Ok fd /\
    let dates := map ForecastDay.date (ForecastData.days fd) in
    2 ∈ dates \/ length dates = 2%nat /\ forall d', d' ∈ dates -> d' < 2.
Proof.
  eexists. split; [vm_compute; reflexivity|].
  match goal with
  | |- context [ForecastData.days ?fd] =>
      apply (@forecast_keeps_earliest_dates ascii_runtime sample_entries (py "北京") 2
               (py "metric") 0 fd ltac:(lia) ltac:(vm_compute; reflexivity)
               (entry 172800 10 50 "rain" 0) 2)
  end.
  - unfold sample_entries. do 4 apply list_elem_of_further. apply list_elem_of_here.
  - reflexivity.
Defined.

(** ** The provider client: the rate limiter *)

Section Limiter.
Import WeatherAPIClient.
Variable config : ClientConfig.

Lemma filter_length_le {X} (P Q : X -> bool) (l : list X) :
  (forall x, P x = true -> Q x = true) ->
  (length (List.filter P l) <= length (List.filter Q l))%nat.
Proof.
  intros HPQ. induction l as [|x l IH]; simpl; [lia|].
  destruct (P x) eqn:EP.
  - rewrite (HPQ x EP). simpl. lia.
  - destruct (Q x); simpl; lia.
Qed.

Lemma filter_filter_weaker {X} (P Q : X -> bool) (l : list X) :
  (forall x, P x = true -> Q x = true) ->
  List.filter P (List.filter Q l) = List.filter P l.
Proof.
  intros HPQ. induction l as [|x l IH]; simpl; [reflexivity|].
  destruct (Q x) eqn:EQ; simpl.
  - now rewrite IH.
  - destruct (P x) eqn:EP; [|exact IH]. rewrite (HPQ x EP) in EQ. discriminate.
Qed.

Lemma check_requests now tracker :
  requests (snd (check_rate_limit config now tracker))
  = List.filter (fun req_time => now - one_minute <? req_time) (requests tracker).
Proof.
  unfold check_rate_limit. destruct (daily_reset tracker <=? now); simpl;
    repeat match goal with |- context [if ?b then _ else _] => destruct b end;
    reflexivity.
Qed.

Lemma check_daily now tracker :
  let tracker' := snd (check_rate_limit config now tracker) in
  (daily_reset tracker <= now ->
   daily_count tracker' = 0 /\ daily_reset tracker' = next_midnight now) /\
  (now < daily_reset tracker ->
   daily_count tracker' = daily_count tracker /\
   daily_reset tracker' = daily_reset tracker).
Proof.
  unfold check_rate_limit. destruct (Z.leb_spec (daily_reset tracker) now); simpl;
    repeat match goal with |- context [if ?b then _ else _] => destruct b end;
    simpl; split; intros; try lia; auto.
Qed.

Lemma check_allowed now tracker :
  fst (check_rate_limit config now tracker) = true ->
  let tracker' := snd (check_rate_limit config now tracker) in
  Z.of_nat (length (requests tracker')) < rate_limit_per_minute config /\
  daily_count tracker' < rate_limit_per_day config.
Proof.
  unfold check_rate_limit. destruct (daily_reset tracker <=? now); simpl;
    repeat match goal with
           | |- context [if ?a <=? ?b then _ else _] => destruct (Z.leb_spec a b)
           end; simpl; intros; try discriminate; lia.
Qed.

(** *** The minute *)

Lemma minute_step (past : list (Z * Z)) (t_check t_record : Z) :
  t_check <= t_record ->
  Forall (fun a => snd a <= t_check) past ->
  Z.of_nat (length (List.filter (fun r => t_check - one_minute <? r) (map snd past)))
  < rate_limit_per_minute config ->
  (forall t, sent_in_minute_to t past <= rate_limit_per_minute config) ->
  forall t, sent_in_minute_to t (past ++ [(t_check, t_record)])
            <= rate_limit_per_minute config.
Proof.
  intros Hcr Hpast Hroom Hwin t. unfold sent_in_minute_to in *.
  rewrite List.filter_app, List.length_app. simpl.
  destruct ((t - one_minute <? t_record) && (t_record <=? t)) eqn:Ein; simpl;
    [|specialize (Hwin t); lia].
  apply andb_true_iff in Ein as [E1 E2].
  assert (Hle : Z.of_nat (length (List.filter
                                    (fun a => (t - one_minute <? snd a) && (snd a <=? t))
                                    past))
                <= Z.of_nat (length (List.filter (fun r => t_check - one_minute <? r)
                                                 (map snd past)))).
  { clear -Hcr E2. induction past as [|a past IH]; simpl; [lia|].
    destruct ((t - one_minute <? snd a) && (snd a <=? t)) eqn:Ea; simpl.
    - apply andb_true_iff in Ea as [Ea _].
      replace (t_check - one_minute <? snd a) with true by lia. simpl. lia.
    - destruct (t_check - one_minute <? snd a); simpl; lia. }
  lia.
Qed.

Lemma minute_invariant attempts : forall past tracker start threshold,
  0 <= rate_limit_per_minute config ->
  in_time_order start attempts ->
  threshold + one_minute <= start ->
  requests tracker = List.filter (fun r => threshold <? r) (map snd past) ->
  Forall (fun a => snd a <= start) past ->
  (forall t, sent_in_minute_to t past <= rate_limit_per_minute config) ->
  forall t,
    sent_in_minute_to t (past ++ fst (limited_requests config attempts tracker))
    <= rate_limit_per_minute config.
Proof.
  induction attempts as [|[t_check t_record] rest IH];
    intros past tracker start threshold Hpm Horder Hth Hreq Hpast Hwin t.
  - simpl. rewrite app_nil_r. apply Hwin.
  - simpl in Horder. destruct Horder as (Hsc & Hcr & Hrest).
    cbn [limited_requests].
    pose proof (check_requests t_check tracker) as Hreq'.
    pose proof (check_allowed t_check tracker) as Hallowed.
    destruct (check_rate_limit config t_check tracker) as [allowed tracker'].
    cbn [fst snd] in *.
    assert (Hreq2 : requests tracker'
                    = List.filter (fun r => t_check - one_minute <? r) (map snd past)).
    { rewrite Hreq', Hreq. apply filter_filter_weaker. intros x Hx. lia. }
    assert (Hpast_c : Forall (fun a => snd a <= t_check) past).
    { eapply Forall_impl; [exact Hpast|]. simpl. intros. lia. }
    destruct allowed.
    + destruct (Hallowed eq_refl) as [Hroom _]. rewrite Hreq2 in Hroom.
      destruct (limited_requests config rest (_record_request t_record tracker'))
        as [sent tracker''] eqn:Hrun.
      cbn [fst].
      replace (past ++ (t_check, t_record) :: sent)
        with ((past ++ [(t_check, t_record)]) ++ sent) by (now rewrite <- app_assoc).
      replace sent
        with (fst (limited_requests config rest (_record_request t_record tracker')))
        by (now rewrite Hrun).
      apply (IH _ _ t_record (t_check - one_minute)); try assumption.
      * unfold one_minute in *. lia.
      * unfold _record_request. simpl. rewrite Hreq2, List.map_app, List.filter_app. simpl.
        replace (t_check - one_minute <? t_record) with true
          by (unfold one_minute; lia).
        reflexivity.
      * apply Forall_app. split.
        -- eapply Forall_impl; [exact Hpast_c|]. simpl. intros. lia.
        -- constructor; [simpl; lia|constructor].
      * now apply minute_step.
    + apply (IH _ _ t_record (t_check - one_minute)); try assumption.
      * unfold one_minute in *. lia.
      * eapply Forall_impl; [exact Hpast_c|]. simpl. intros. lia.
Qed.

(** *** The day *)

Lemma day_of_unique (d t : Z) :
  d <= t / one_day -> t < (d + 1) * one_day -> t / one_day = d.
Proof.
  unfold one_day. intros Hle Hlt.
  assert (t / 86400000000 < d + 1) by (apply Z.div_lt_upper_bound; lia).
  lia.
Qed.

Lemma day_of_mono (s t : Z) : s <= t -> s / one_day <= t / one_day.
Proof. unfold one_day. intros. apply Z.div_le_mono; lia. Qed.

Lemma next_midnight_day (t : Z) : next_midnight t = (t / one_day + 1) * one_day.
Proof. unfold next_midnight. lia. Qed.

Lemma sent_on_day_app day past a :
  sent_on_day day (past ++ [a])
  = sent_on_day day past + (if fst a / one_day =? day then 1 else 0).
Proof.
  unfold sent_on_day. rewrite List.filter_app, List.length_app. simpl.
  destruct (fst a / one_day =? day); simpl; lia.
Qed.

Lemma sent_on_later_day day past :
  Forall (fun a => fst a / one_day < day) past -> sent_on_day day past = 0.
Proof.
  unfold sent_on_day. induction 1 as [|a past Ha _ IH]; simpl; [reflexivity|].
  replace (fst a / one_day =? day) with false by lia. exact IH.
Qed.

Lemma day_invariant attempts : forall past tracker start day,
  0 <= rate_limit_per_day config ->
  in_time_order start attempts ->
  daily_reset tracker = (day + 1) * one_day ->
  day <= start / one_day ->
  daily_count tracker = sent_on_day day past ->
  Forall (fun a => fst a / one_day <= day) past ->
  (forall d, sent_on_day d past <= rate_limit_per_day config) ->
  forall d,
    sent_on_day d (past ++ fst (limited_requests config attempts tracker))
    <= rate_limit_per_day config.
Proof.
  induction attempts as [|[t_check t_record] rest IH];
    intros past tracker start day Hpd Horder Hreset Hday Hcount Hpast Hall d.
  - simpl. rewrite app_nil_r. apply Hall.
  - simpl in Horder. destruct Horder as (Hsc & Hcr & Hrest).
    cbn [limited_requests].
    pose proof (check_daily t_check tracker) as [Hnew Hsame].
    pose proof (check_allowed t_check tracker) as Hallowed.
    destruct (check_rate_limit config t_check tracker) as [allowed tracker'].
    cbn [fst snd] in *.
    pose proof (day_of_mono start t_check Hsc) as Hmono.
    pose proof (day_of_mono t_check t_record Hcr) as Hmono'.
    (* the day of the tracker after the check is the day of the check *)
    assert (Hstate : daily_reset tracker' = (t_check / one_day + 1) * one_day /\
                     daily_count tracker' = sent_on_day (t_check / one_day) past /\
                     Forall (fun a => fst a / one_day <= t_check / one_day) past).
    { destruct (Z.le_gt_cases (daily_reset tracker) t_check) as [Hle|Hgt].
      - destruct (Hnew Hle) as [Hc Hr]. rewrite Hc, Hr, next_midnight_day.
        assert (Hlater : day < t_check / one_day).
        { rewrite Hreset in Hle. unfold one_day in *.
          assert (day + 1 <= t_check / 86400000000)
            by (apply Z.div_le_lower_bound; lia). lia. }
        split; [reflexivity|]. split.
        + symmetry. apply sent_on_later_day.
          eapply Forall_impl; [exact Hpast|]. simpl. intros. lia.
        + eapply Forall_impl; [exact Hpast|]. simpl. intros. lia.
      - destruct (Hsame Hgt) as [Hc Hr]. rewrite Hc, Hr, Hreset, Hcount.
        assert (Heq : t_check / one_day = day).
        { apply day_of_unique; [lia|]. now rewrite <- Hreset. }
        rewrite Heq. auto. }
    destruct Hstate as (Hreset' & Hcount' & Hpast').
    destruct allowed.
    + destruct (Hallowed eq_refl) as [_ Hroom].
      destruct (limited_requests config rest (_record_request t_record tracker'))
        as [sent tracker''] eqn:Hrun.
      cbn [fst].
      replace (past ++ (t_check, t_record) :: sent)
        with ((past ++ [(t_check, t_record)]) ++ sent) by (now rewrite <- app_assoc).
      replace sent
        with (fst (limited_requests config rest (_record_request t_record tracker')))
        by (now rewrite Hrun).
      apply (IH _ _ t_record (t_check / one_day)); try assumption.
      * unfold _record_request. simpl. rewrite Hcount', sent_on_day_app. simpl.
        now rewrite Z.eqb_refl.
      * apply Forall_app. split; [exact Hpast'|]. constructor; [simpl; lia|constructor].
      * intros d'. rewrite sent_on_day_app. simpl.
        destruct (Z.eqb_spec (t_check / one_day) d') as [<-|Hne].
        -- rewrite <- Hcount'. lia.
        -- specialize (Hall d'). lia.
    + apply (IH _ _ t_record (t_check / one_day)); try assumption.
Qed.

(** X13: the limiter, on requests made one after the other.  Starting from
    a new tracker, whatever the attempts and the limits (not negative), no
    minute holds more than [rate_limit_per_minute] recorded requests, and no
    calendar day more than [rate_limit_per_day] requests that were checked on
    it; the clock is assumed not to run backwards. *)
Theorem limiter_bounds_requests (start : Z) (attempts : list (Z * Z)) :
  0 <= rate_limit_per_minute config ->
  0 <= rate_limit_per_day config ->
  in_time_order start attempts ->
  let sent := fst (limited_requests config attempts (new_tracker start)) in
  (forall t, sent_in_minute_to t sent <= rate_limit_per_minute config) /\
  (forall day, sent_on_day day sent <= rate_limit_per_day config).
Proof.
  intros Hpm Hpd Horder. cbv zeta. split.
  - intros t.
    apply (minute_invariant attempts [] (new_tracker start) start (start - one_minute));
      try assumption; try reflexivity; [lia|constructor|].
    intros t'. unfold sent_in_minute_to. simpl. exact Hpm.
  - intros day.
    apply (day_invariant attempts [] (new_tracker start) start (start / one_day));
      try assumption; try reflexivity; [apply next_midnight_day|constructor|].
    intros d. unfold sent_on_day. simpl. exact Hpd.
Qed.
End Limiter.

(** Of the five sample attempts the third is refused by the limit of the
    minute and the fifth by the limit of the day. *)
Lemma limiter_bounds_requests_witness :
  let sent := fst (limited_requests limited_config sample_attempts
                     (WeatherAPIClient.new_tracker 0)) in
  sent = [(0, 10); (500000, 500010); (61000000, 61000010)] /\
  (forall t, sent_in_minute_to t sent <= 2) /\
  (forall day, sent_on_day day sent <= 3).
Proof.
  split; [vm_compute; reflexivity|].
  apply (limiter_bounds_requests limited_config 0 sample_attempts);
    simpl; lia.
Defined.

(** ** The provider client: requests and their errors *)

Section MakeRequest.
Import WeatherAPIClient.
Context {W A : Type} `{HttpSession W A}.
Variable config : ClientConfig.

Lemma response_result_error (response : Response A) (e : exn) :
  response_result response = Raise e ->
  is_APIError e = true \/ foreign_failure (inl response) e.
Proof.
  unfold response_result, foreign_failure.
  repeat match goal with |- context [if ?b then _ else _] => destruct b end;
    try (intros [= <-]; now left).
  - destruct (json response) as [document|[description| |e0]] eqn:Hjson;
      try discriminate; simpl; intros [= <-]; try (now left).
    right. right. eauto.
  - destruct (text response) as [error_text|[description| |e0]] eqn:Htext;
      simpl; intros [= <-]; try (now left).
    right. right. eauto.
Qed.

(** X14: one call of [_make_request].  A request the limiter refuses raises
    the limiter's [APIError] and neither reaches the session nor is
    recorded; an allowed request is recorded once, before it is sent,
    whatever the answer is; the tracker moves as one step of
    [limited_requests]; and whatever is raised is an [APIError], unless
    the session raised something that is neither a client error nor a
    timeout. *)
Theorem make_request_outcomes (endpoint : str) (params : list (str * ParamValue))
    (tracker : Tracker) (w : W) :
  let checked := check_rate_limit config (datetime_now w) tracker in
  let attempt := (datetime_now w, datetime_now (_ensure_session w)) in
  let out := _make_request config endpoint params (tracker, w) in
  fst (snd out) = snd (limited_requests config [attempt] tracker) /\
  (fst checked = false ->
   out = (Raise limiter_refusal, (snd checked, w))) /\
  (fst checked = true ->
   fst (snd out) = _record_request (datetime_now (_ensure_session w)) (snd checked) /\
   exists params' answer,
     session_get (base_url config ++ py "/" ++ endpoint) params' (_ensure_session w)
     = (answer, snd (snd out)) /\
     (forall document, fst out = Ok document <->
                       exists response, answer = inl response /\ status response = 200 /\
                                        json response = inl document) /\
     (forall e, fst out = Raise e ->
                is_APIError e = true \/ foreign_failure answer e)).
Proof.
  cbv zeta. unfold _make_request. cbn [limited_requests].
  destruct (check_rate_limit config (datetime_now w) tracker) as [allowed checked].
  destruct allowed; cbn [negb fst snd].
  - match goal with
    | |- context [session_get ?url ?p ?w0] =>
        destruct (session_get url p w0) as [answer w'] eqn:Hget
    end.
    split; [now destruct answer|]. split; [discriminate|]. intros _.
    split; [now destruct answer|].
    eexists _, answer. split.
    { rewrite Hget. now destruct answer. }
    destruct answer as [response|e0]; cbn [fst]; split.
    + intros document. split.
      * intros Hok. exists response. split; [reflexivity|].
        unfold response_result in Hok.
        destruct (Z.eqb_spec (status response) 200) as [Hs|Hs].
        -- destruct (json response); [|discriminate]. now inversion Hok.
        -- repeat match type of Hok with
                  | context [if ?b then _ else _] => destruct b
                  end; try discriminate.
           destruct (text response); discriminate.
      * intros (response' & [= <-] & Hs & Hjson).
        unfold response_result. now rewrite Hs, Hjson.
    + intros e. apply response_result_error.
    + intros document. split; [discriminate|]. now intros (? & ? & _).
    + intros e [= <-]. destruct e0 as [description| |e0]; simpl; auto.
      right. now left.
  - split; [reflexivity|]. split; [reflexivity|discriminate].
Qed.
End MakeRequest.

Section ClientErrors.
Import WeatherAPIClient WeatherService.
Context `{PyRuntime} {A : Type}.
Hypothesis lower_plain : forall s, plain_text s = true -> str_lower s = ascii_lower s.

Lemma unknown_message (msg : str) :
  plain_text msg = true ->
  is_non_retryable (ascii_lower msg) = false ->
  rate_limit_msg (ascii_lower msg) = false ->
  network_msg (ascii_lower msg) = false ->
  server_msg (ascii_lower msg) = false ->
  (forall location,
     @friendly_error ascii_runtime (APIError msg) location
     = APIError (_get_friendly_error_message (py "api_unavailable") location)) ->
  treated_as_unknown (APIError msg).
Proof.
  intros Hplain Hretry Hrate Hnet Hserver Hfriendly.
  unfold treated_as_unknown, retryable. cbn [exn_str is_APIError].
  rewrite (lower_plain _ Hplain). repeat split; [exact Hretry| |].
  - intros retry_delay. unfold actual_delay.
    unfold rate_limit_msg in Hrate. unfold network_msg in Hnet.
    unfold server_msg in Hserver. now rewrite Hrate, Hnet, Hserver.
  - intros location. rewrite <- Hfriendly. unfold friendly_error.
    cbn [exn_str]. rewrite (lower_plain _ Hplain). reflexivity.
Qed.

Local Ltac unknown :=
  apply unknown_message; [..|intros location]; vm_compute; reflexivity.

(** X15: the errors of the client the service does not recognise.  The
    errors [_make_request] raises for the statuses 401, 404 and 429, for a
    timeout and for a request its own limiter refuses carry Chinese
    messages with none of the English keywords the service looks for: each
    is retried after the plain delay and reported as the service being
    unavailable.  The runtime is assumed to lower-case ASCII and Chinese
    text as ASCII. *)
Theorem client_errors_treated_as_unknown (response : Response A) (e : exn) :
  response_result response = Raise e ->
  (status response = 401 \/ status response = 404 \/ status response = 429 ->
   treated_as_unknown e) /\
  treated_as_unknown (http_error TimeoutError) /\
  treated_as_unknown limiter_refusal.
Proof.
  intros Hres. split; [|split; unknown].
  unfold response_result in Hres.
  intros [Hs|[Hs|Hs]]; rewrite Hs in Hres; cbn [Z.eqb Pos.eqb] in Hres;
    injection Hres as <-; unknown.
Qed.

Lemma server_statuses_retried :
  forallb retried_server_status (map (fun k => 500 + Z.of_nat k) (seq 0 100)) = true.
Proof. vm_compute. reflexivity. Qed.

Lemma server_status_retried (status : Z) :
  500 <= status <= 599 -> retried_server_status status = true.
Proof.
  intros Hs. pose proof server_statuses_retried as Hall.
  rewrite forallb_forall in Hall. apply Hall.
  apply in_map_iff. exists (Z.to_nat (status - 500)). split; [lia|].
  apply in_seq. lia.
Qed.

Lemma str_in_here (needle rest : str) : str_in needle (needle ++ rest) = true.
Proof.
  assert (Hstart : startswith (needle ++ rest) needle = true).
  { induction needle as [|c needle IH]; simpl; [now destruct rest|].
    now rewrite N.eqb_refl, IH. }
  destruct (needle ++ rest); cbn [str_in]; now rewrite Hstart.
Qed.

Lemma str_in_middle (needle before rest : str) :
  str_in needle (before ++ needle ++ rest) = true.
Proof.
  induction before as [|c before IH]; simpl.
  - apply str_in_here.
  - rewrite IH. apply orb_true_r.
Qed.

Lemma plain_text_app (a b : str) :
  plain_text (a ++ b) = plain_text a && plain_text b.
Proof. apply forallb_app. Qed.

(** X16: the statuses the retry wrapper does recognise.  The error of a
    status from 500 to 599 is retried, after the doubled delay for 500, 502
    and 503.  The error of the statuses 400 and 403, whose message carries
    the number of the status, is raised at once, when the body of the
    response is ASCII or Chinese text. *)
Theorem client_status_retry_classes (response : Response A) (e : exn) :
  response_result response = Raise e ->
  (500 <= status response <= 599 ->
   retryable e /\
   (status response = 500 \/ status response = 502 \/ status response = 503 ->
    forall retry_delay,
      actual_delay (str_lower (exn_str e)) retry_delay = (retry_delay * 2)%Q)) /\
  (status response = 400 \/ status response = 403 ->
   forall error_text,
     text response = inl error_text -> plain_text error_text = true ->
     is_APIError e = true /\ is_non_retryable (str_lower (exn_str e)) = true).
Proof.
  intros Hres. unfold response_result in Hres. split.
  - intros Hs.
    destruct (Z.eqb_spec (status response) 200); [lia|].
    destruct (Z.eqb_spec (status response) 401); [lia|].
    destruct (Z.eqb_spec (status response) 404); [lia|].
    destruct (Z.eqb_spec (status response) 429); [lia|].
    destruct (Z.leb_spec 500 (status response)); [|lia].
    injection Hres as <-.
    pose proof (server_status_retried _ Hs) as Hok.
    apply andb_true_iff in Hok as [Hplain Hretry].
    apply negb_true_iff in Hretry.
      split.
    + split; [reflexivity|].
      change (is_non_retryable (str_lower (server_error_message (status response)))
              = false).
      now rewrite (lower_plain _ Hplain).
    + intros Hstatus retry_delay.
      change (actual_delay (str_lower (server_error_message (status response)))
                           retry_delay = (retry_delay * 2)%Q).
      rewrite (lower_plain _ Hplain).
      destruct Hstatus as [->|[->| ->]]; vm_compute; reflexivity.
  - intros Hs error_text Htext Hplain. rewrite Htext in Hres.
    assert (Hmsg : exists code,
               (code = "400"%string \/ code = "403"%string) /\
               e = APIError (py "API 请求失败: " ++ py code ++ py " - " ++ error_text)).
    { destruct Hs as [Hs|Hs]; rewrite Hs in Hres;
        cbn [Z.eqb Pos.eqb Z.leb Z.compare Pos.compare Pos.compare_cont] in Hres;
        injection Hres as <-;
        [exists "400"%string|exists "403"%string]; (split; [auto|]);
        do 2 f_equal; vm_compute; reflexivity. }
    destruct Hmsg as (code & Hcode & ->). split; [reflexivity|].
    cbn [exn_str]. rewrite lower_plain.
    + unfold ascii_lower. rewrite !map_app.
      assert (Hlow : map ascii_lower_char (py code) = py code)
        by (destruct Hcode as [-> | ->]; vm_compute; reflexivity).
      rewrite Hlow. unfold is_non_retryable. apply existsb_exists.
      exists (py code). split; [|apply str_in_middle].
      destruct Hcode as [-> | ->]; unfold non_retryable_errors; simpl; auto 12.
    + rewrite !plain_text_app, Hplain.
      destruct Hcode as [-> | ->]; vm_compute; reflexivity.
Qed.
End ClientErrors.

(** The answer 401 under the ASCII runtime. *)
Lemma client_errors_treated_as_unknown_witness :
  @treated_as_unknown ascii_runtime (APIError (py "API 密钥无效或已过期")).
Proof.
  assert (Hres : @WeatherAPIClient.response_result unit
                   (WeatherAPIClient.mkResponse 401 (inl tt) (inl []))
                 = Raise (APIError (py "API 密钥无效或已过期")))
    by (vm_compute; reflexivity).
  destruct (@client_errors_treated_as_unknown ascii_runtime unit (fun s _ => eq_refl)
              _ _ Hres) as [Hstatus _].
  apply Hstatus. left. reflexivity.
Defined.

(** The answers 503 and 403 under the ASCII runtime. *)
Lemma client_status_retry_classes_witness :
  (forall retry_delay,
     WeatherService.actual_delay
       (@str_lower ascii_runtime (py "API 服务器错误: " ++ py "503")) retry_delay
     = (retry_delay * 2)%Q) /\
  WeatherService.is_non_retryable
    (@str_lower ascii_runtime (py "API 请求失败: " ++ py "403" ++ py " - " ++ py "Forbidden"))
  = true.
Proof.
  assert (Hres503 : @WeatherAPIClient.response_result unit
                      (WeatherAPIClient.mkResponse 503 (inl tt) (inl []))
                    = Raise (APIError (py "API 服务器错误: " ++ py "503")))
    by (vm_compute; reflexivity).
  assert (Hres403 : @WeatherAPIClient.response_result unit
                      (WeatherAPIClient.mkResponse 403 (inl tt) (inl (py "Forbidden")))
                    = Raise (APIError (py "API 请求失败: " ++ py "403" ++ py " - "
                                         ++ py "Forbidden")))
    by (vm_compute; reflexivity).
  destruct (@client_status_retry_classes ascii_runtime unit (fun s _ => eq_refl)
              _ _ Hres503) as [Hserver _].
  destruct (@client_status_retry_classes ascii_runtime unit (fun s _ => eq_refl)
              _ _ Hres403) as [_ Hclient].
  split.
  - apply Hserver; [simpl; lia|]. right. right. reflexivity.
  - apply (Hclient (or_intror eq_refl) (py "Forbidden") eq_refl).
    vm_compute. reflexivity.
Defined.

Section Fetchers.
Import WeatherAPIClient.
Context {W A : Type} `{HttpSession W A}.
Variable config : ClientConfig.

(** X17: what the fetchers check before they ask.  A number of days
    outside 1..16, a number of hours outside 1..48 and a provider that is
    neither of the two raise an [APIError] with nothing sent and nothing
    recorded.  For an accepted number of hours WeatherAPI is asked for
    the days that cover them, never more than two, so that the cap of
    three days is never reached; for a forecast of ten days or more it is
    asked for ten. *)
Theorem fetchers_check_before_asking (location : str) (s : Tracker * W) :
  (forall days, days <= 0 \/ 16 < days ->
     fetch_forecast config location days s
     = (Raise (APIError (py "预报天数必须在 1-16 之间")), s)) /\
  (forall hours, hours <= 0 \/ 48 < hours ->
     fetch_hourly_forecast config location hours s
     = (Raise (APIError (py "小时预报时长必须在 1-48 小时之间")), s)) /\
  (client_api_provider config <> py "openweathermap" ->
   client_api_provider config <> py "weatherapi" ->
   forall n,
     let unsupported :=
       (Raise (APIError (py "不支持的 API 提供商: " ++ client_api_provider config)), s) in
     fetch_current_weather config location s = unsupported /\
     (1 <= n <= 16 -> fetch_forecast config location n s = unsupported) /\
     (1 <= n <= 48 -> fetch_hourly_forecast config location n s = unsupported)) /\
  (client_api_provider config = py "weatherapi" ->
   (forall hours, 1 <= hours <= 48 ->
      exists days,
        hours <= 24 * days < hours + 24 /\ days <= 2 /\
        fetch_hourly_forecast config location hours s
        = _make_request config (py "forecast.json")
            [(py "q", PStr location); (py "days", PInt days);
             (py "aqi", PStr (py "yes")); (py "alerts", PStr (py "yes"))] s) /\
   (forall days, 10 <= days <= 16 ->
      fetch_forecast config location days s
      = _make_request config (py "forecast.json")
          [(py "q", PStr location); (py "days", PInt 10);
           (py "aqi", PStr (py "yes")); (py "alerts", PStr (py "yes"))] s)).
Proof.
  assert (Hlow : forall n k, n <= 0 \/ k < n -> (n <=? 0) || (k <? n) = true).
  { intros n k [Hn|Hn]; apply orb_true_iff; [left|right]; lia. }
  assert (Hin : forall n k, 1 <= n <= k -> (n <=? 0) || (k <? n) = false).
  { intros n k Hn. apply orb_false_iff. split; lia. }
  split; [|split; [|split]].
  - intros days Hdays. unfold fetch_forecast. now rewrite (Hlow _ _ Hdays).
  - intros hours Hhours. unfold fetch_hourly_forecast. now rewrite (Hlow _ _ Hhours).
  - intros Howm Hwapi n. cbv zeta.
    unfold fetch_current_weather, fetch_forecast, fetch_hourly_forecast, str_eqb.
    rewrite !(bool_decide_eq_false_2 _ Howm), !(bool_decide_eq_false_2 _ Hwapi).
    split; [reflexivity|].
    split; intros Hn; now rewrite (Hin _ _ Hn).
  - intros Hwapi.
    assert (Howm : client_api_provider config <> py "openweathermap").
    { rewrite Hwapi. intros Heq. apply (f_equal length) in Heq.
      vm_compute in Heq. discriminate. }
    split.
    + intros hours Hhours. exists ((hours + 23) / 24).
      assert (Hdiv : hours + 23 = 24 * ((hours + 23) / 24) + (hours + 23) mod 24)
        by (apply Z.div_mod; lia).
      pose proof (Z.mod_pos_bound (hours + 23) 24 ltac:(lia)) as Hmod.
      split; [lia|]. split; [lia|].
      unfold fetch_hourly_forecast, _fetch_weatherapi_hourly, str_eqb.
      rewrite (Hin _ _ Hhours), (bool_decide_eq_false_2 _ Howm),
        (bool_decide_eq_true_2 _ Hwapi).
      replace (Z.min ((hours + 23) / 24) 3) with ((hours + 23) / 24) by lia.
      reflexivity.
    + intros days Hdays.
      unfold fetch_forecast, _fetch_weatherapi_forecast, str_eqb.
      rewrite (Hin days 16), (bool_decide_eq_false_2 _ Howm),
        (bool_decide_eq_true_2 _ Hwapi) by lia.
      replace (Z.min days 10) with 10 by lia. reflexivity.
Qed.
End Fetchers.

(** ** The hourly forecast *)

Lemma bind_inv_Ok {S X Y} (m : M S X) (k : X -> M S Y) s r s' :
  bind m k s = (Ok r, s') -> exists a s1, m s = (Ok a, s1) /\ k a s1 = (Ok r, s').
Proof.
  unfold bind. destruct (m s) as [[a|e] s1]; [eauto|discriminate].
Qed.

Lemma res_mapM_length {X Y} (f : X -> Res Y) (l : list X) (l' : list Y) :
  res_mapM f l = Ok l' -> length l' = length l.
Proof.
  revert l'. induction l as [|x l IH]; intros l'; simpl.
  - now intros [= <-].
  - destruct (f x) as [y|e]; [|discriminate]. simpl.
    destruct (res_mapM f l) as [ys|e]; [|discriminate]. simpl.
    intros [= <-]. simpl. now rewrite (IH ys).
Qed.

Section HourlyConversion.
Import WeatherService WeatherServiceHourly.
Context `{PyRuntime} `{HourlyRuntime}.
Variable config : WeatherConfig.
Variable clock : nat -> Z.

Lemma weatherapi_hours_count units hours day_hours : forall hourly_data hour_count readings st',
  hour_count = Z.of_nat (length hourly_data) ->
  hour_count <= hours ->
  weatherapi_hours clock units hours day_hours (hourly_data, hour_count, readings) = Ok st' ->
  let '(hourly_data', hour_count', _) := st' in
  hour_count' = Z.of_nat (length hourly_data') /\ hour_count' <= hours.
Proof.
  induction day_hours as [|hour_data rest IH];
    intros hourly_data hour_count readings st' Hcount Hle; cbn [weatherapi_hours].
  - intros [= <-]. auto.
  - destruct (Z.leb_spec hours hour_count); [intros [= <-]; auto|].
    destruct (strptime_minute (hour_time hour_data)) as [dt|]; [|discriminate].
    destruct (clock readings <? dt).
    + apply IH; [|lia]. rewrite length_app. simpl. lia.
    + now apply IH.
Qed.

Lemma weatherapi_days_count units hours days : forall hourly_data hour_count readings st',
  hour_count = Z.of_nat (length hourly_data) ->
  hour_count <= hours ->
  weatherapi_days clock units hours days (hourly_data, hour_count, readings) = Ok st' ->
  let '(hourly_data', hour_count', _) := st' in
  hour_count' = Z.of_nat (length hourly_data') /\ hour_count' <= hours.
Proof.
  induction days as [|day_data rest IH];
    intros hourly_data hour_count readings st' Hcount Hle; cbn [weatherapi_days].
  - intros [= <-]. auto.
  - destruct (Z.leb_spec hours hour_count); [intros [= <-]; auto|].
    destruct (weatherapi_hours clock units hours (hour day_data)
                (hourly_data, hour_count, readings)) as [[[d c] k]|e] eqn:Hday;
      [|discriminate].
    pose proof (weatherapi_hours_count _ _ _ _ _ _ _ Hcount Hle Hday) as [Hc Hh].
    cbn [res_bind]. now apply IH.
Qed.

Lemma hourly_conversion_ok
  (raw_data : RawHourly) (location : str) (hours : Z) (units : str)
  (data : HourlyForecastData.t) :
  0 <= hours ->
  _convert_hourly_forecast_data config clock raw_data location hours units = Ok data ->
  Z.of_nat (length (HourlyForecastData.hours data)) <= hours /\
  HourlyForecastData.location data = location /\
  HourlyForecastData.units data = units /\
  (api_provider config = py "openweathermap" ->
   exists hourly_list,
     raw_data = OWM_hourly hourly_list /\
     res_mapM convert_openweathermap_hour (take (Z.to_nat hours) hourly_list)
     = Ok (HourlyForecastData.hours data)).
Proof.
  intros Hhours. unfold _convert_hourly_forecast_data, res_try, str_eqb.
  destruct (bool_decide (api_provider config = py "openweathermap")) eqn:Howm.
  - unfold _convert_openweathermap_hourly.
    destruct raw_data as [hourly_list|forecastday];
      [|cbv beta iota; discriminate].
    rewrite (slice_to_take _ _ Hhours).
    destruct (res_mapM convert_openweathermap_hour (take (Z.to_nat hours) hourly_list))
      as [hourly_data|e] eqn:Hmap; cbn [res_bind]; [|destruct e; discriminate].
    intros [= <-].
    cbn [HourlyForecastData.hours HourlyForecastData.location HourlyForecastData.units].
    pose proof (res_mapM_length _ _ _ Hmap) as Hlen.
    rewrite length_take in Hlen.
    repeat split; [lia|]. intros _. eauto.
  - destruct (bool_decide (api_provider config = py "weatherapi"));
      [|cbv beta iota; discriminate].
    unfold _convert_weatherapi_hourly.
    destruct raw_data as [hourly_list|forecastday];
      [cbv beta iota; discriminate|].
    destruct (weatherapi_days clock units hours forecastday ([], 0, 0%nat))
      as [[[d c] k]|e] eqn:Hdays; cbn [res_bind]; [|destruct e; discriminate].
    intros [= <-].
    cbn [HourlyForecastData.hours HourlyForecastData.location HourlyForecastData.units].
    pose proof (weatherapi_days_count units hours forecastday [] 0 0%nat (d, c, k)
                eq_refl Hhours Hdays) as [Hc Hh].
    repeat split; [lia|].
    intros Heq. apply bool_decide_eq_false in Howm. contradiction.
Qed.

(** X18: the conversion of an hourly payload.  For a number of hours
    that is not negative the record carries at most that many entries,
    under the location and the units it was given; from an OpenWeatherMap
    payload these are the first entries of the payload, one for each, so
    that the number counts the entries of the provider, not hours.
    Whatever goes wrong comes out as a [WeatherError]. *)
Theorem hourly_conversion_bounded
  (raw_data : RawHourly) (location : str) (hours : Z) (units : str) :
  (forall e,
     _convert_hourly_forecast_data config clock raw_data location hours units = Raise e ->
     exists msg, e = WeatherError msg) /\
  (0 <= hours ->
   forall data,
     _convert_hourly_forecast_data config clock raw_data location hours units = Ok data ->
     Z.of_nat (length (HourlyForecastData.hours data)) <= hours /\
     HourlyForecastData.location data = location /\
     HourlyForecastData.units data = units /\
     (api_provider config = py "openweathermap" ->
      exists hourly_list,
        raw_data = OWM_hourly hourly_list /\
        res_mapM convert_openweathermap_hour (take (Z.to_nat hours) hourly_list)
        = Ok (HourlyForecastData.hours data))).
Proof.
  split.
  - intros e. unfold _convert_hourly_forecast_data, res_try.
    match goal with |- match ?r with _ => _ end = _ -> _ => destruct r as [data|e0] end;
      [discriminate|].
    destruct e0; intros [= <-]; eauto.
  - intros Hhours data. now apply hourly_conversion_ok.
Qed.
End HourlyConversion.

Section HourlyOrchestrator.
Import WeatherService WeatherServiceHourly.
Context `{PyRuntime} `{HourlyRuntime} {W : Type} `{HourlyCollaborators W}.
Variable config : WeatherConfig.

(** X19: the hourly entry point.  A number of hours outside 1..48 is
    refused with a [WeatherError] before any collaborator is asked; a
    result carries at most the requested number of entries; an [APIError]
    of the provider is never answered from the cache: it is replaced by
    the message for the user at once; and, provided the location service's
    [suggest_corrections] returns, nothing but an [APIError] with one of the
    fixed messages, a [LocationError] or a [WeatherError] is raised. *)
Theorem hourly_forecast_outcomes
  (location user_id : str) (hours : Z) (st : ServiceState) :
  (hours <= 0 \/ 48 < hours ->
   get_hourly_forecast config location hours user_id st
   = (Raise (WeatherError (py "获取小时预报数据时发生错误: "
                             ++ py "小时预报时长必须在 1-48 小时之间")), st)) /\
  (forall data st',
     get_hourly_forecast config location hours user_id st = (Ok data, st') ->
     1 <= hours <= 48 /\
     Z.of_nat (length (HourlyForecastData.hours data)) <= hours) /\
  (forall msg st0,
     get_hourly_forecast_body config location hours user_id st
     = (Raise (APIError msg), st0) ->
     get_hourly_forecast config location hours user_id st
     = (Raise (friendly_error (APIError msg) location), st0)) /\
  ((forall l w, exists r w', suggest_corrections l w = (Ok r, w')) ->
   forall e st',
     get_hourly_forecast config location hours user_id st = (Raise e, st') ->
     exists msg,
       (e = APIError msg /\ msg ∈ map snd (error_messages location)) \/
       e = LocationError msg \/ e = WeatherError msg).
Proof.
  split; [|split; [|split]].
  - intros Hhours. unfold get_hourly_forecast, try_except, get_hourly_forecast_body.
    replace ((hours <=? 0) || (48 <? hours)) with true
      by (symmetry; apply orb_true_iff; lia).
    reflexivity.
  - intros data st'. unfold get_hourly_forecast, try_except.
    destruct (get_hourly_forecast_body config location hours user_id st)
      as [[r|e] st0] eqn:Hbody.
    + intros [= <- <-]. unfold get_hourly_forecast_body in Hbody.
      destruct ((hours <=? 0) || (48 <? hours)) eqn:Hrange; [discriminate|].
      apply orb_false_iff in Hrange as [Hlo Hhi].
      split; [lia|].
      apply bind_inv_Ok in Hbody as (location_info & s1 & _ & Hbody).
      apply bind_inv_Ok in Hbody as (user_prefs & s2 & _ & Hbody).
      apply bind_inv_Ok in Hbody as (cache_key & s3 & _ & Hbody).
      apply bind_inv_Ok in Hbody as (raw_data & s4 & _ & Hbody).
      injection Hbody as Hconv _.
      apply (hourly_conversion_ok config (later_now (snd s4)) raw_data
               (name location_info) hours (units user_prefs)); [lia|exact Hconv].
    + intros Hraise. exfalso.
      destruct e; try (unfold raise in Hraise; discriminate).
      unfold location_error_handler, bind, liftW in Hraise.
      destruct st0 as [breaker w].
      destruct (suggest_corrections location w) as [[suggestions|e] w'];
        [destruct suggestions|]; discriminate.
  - intros msg st0 Hbody. unfold get_hourly_forecast, try_except.
    now rewrite Hbody.
  - intros Hsuggest e st'. unfold get_hourly_forecast, try_except.
    destruct (get_hourly_forecast_body config location hours user_id st)
      as [[r|e0] st0]; [discriminate|].
    destruct e0;
      try (unfold raise; intros [= <- <-]; eexists; right; right; reflexivity).
    + unfold raise. intros [= <- <-].
      destruct (friendly_error_kind (APIError msg) location) as (m & [->| ->] & Hin);
        eauto.
    + unfold location_error_handler, bind, liftW. destruct st0 as [breaker w].
      destruct (Hsuggest location w) as (r & w' & ->).
      destruct r; unfold raise; intros [= <- <-]; eexists; right; left; reflexivity.
Qed.
End HourlyOrchestrator.

(** ** User preferences *)

Section Preferences.
Import UserPrefsModel.

Lemma bad_units_spec (u : str) :
  bad_units u = false <-> u = py "metric" \/ u = py "imperial".
Proof.
  unfold bad_units, str_eqb. rewrite negb_false_iff, orb_true_iff.
  now rewrite !bool_decide_eq_true.
Qed.

Lemma list_remove_subset x y l : y ∈ list_remove x l -> y ∈ l.
Proof.
  induction l as [|z l IH]; simpl; [auto|].
  destruct (bool_decide (z = x)).
  - intros Hy. now apply list_elem_of_further.
  - intros Hy. apply elem_of_cons in Hy as [->|Hy].
    + apply list_elem_of_here.
    + apply list_elem_of_further. auto.
Qed.

Lemma list_remove_NoDup x l : NoDup l -> NoDup (list_remove x l) /\ x ∉ list_remove x l.
Proof.
  induction 1 as [|z l Hz Hl IH]; simpl.
  - split; [constructor|]. apply not_elem_of_nil.
  - destruct (bool_decide_reflect (z = x)) as [->|Hne].
    + auto.
    + destruct IH as [IH1 IH2]. split.
      * constructor; [|exact IH1]. intros Hin. apply Hz.
        now apply list_remove_subset in Hin.
      * intros Hin. apply elem_of_cons in Hin as [Heq|Hin]; [congruence|auto].
Qed.

Lemma list_remove_added x l : x ∉ l -> list_remove x (l ++ [x]) = l.
Proof.
  induction l as [|z l IH]; simpl; intros Hx.
  - now rewrite bool_decide_eq_true_2.
  - apply not_elem_of_cons in Hx as [Hne Hx].
    rewrite bool_decide_eq_false_2 by congruence. now rewrite IH.
Qed.

(** X20: what the methods of [UserPrefs] keep.  The constructor and
    [update_units] accept "metric" and "imperial" only, and raise a
    [ValueError] for anything else; from preferences with one of the two
    unit systems and no alert subscribed twice every method gives
    preferences of that kind again, with the user and the time of creation
    unchanged. *)
Theorem user_prefs_stay_consistent (self : t) (now : Z) :
  (forall uid loc u subs lang created updated now1 now2,
     (u <> py "metric" -> u <> py "imperial" ->
      new uid loc u subs lang created updated now1 now2 = Raise (units_error u)) /\
     (forall fresh, new uid loc u subs lang created updated now1 now2 = Ok fresh ->
                    (u = py "metric" \/ u = py "imperial") /\ units fresh = u /\
                    alert_subscriptions fresh = default [] subs)) /\
  (forall u, u <> py "metric" -> u <> py "imperial" ->
             update_units u now self = Raise (units_error u)) /\
  (prefs_consistent self ->
   forall next,
     (exists location, next = update_location location now self) \/
     (exists u, update_units u now self = Ok next) \/
     (exists alert_type, next = add_alert_subscription alert_type now self) \/
     (exists alert_type, next = remove_alert_subscription alert_type now self) ->
     prefs_consistent next /\ user_id next = user_id self /\
     created_at next = created_at self).
Proof.
  assert (Hbad : forall u, u <> py "metric" -> u <> py "imperial" -> bad_units u = true).
  { intros u H1 H2. destruct (bad_units u) eqn:E; [reflexivity|].
    apply bad_units_spec in E as [E|E]; contradiction. }
  split; [|split].
  - intros uid loc u subs lang created updated now1 now2. unfold new. split.
    + intros H1 H2. now rewrite (Hbad u H1 H2).
    + intros fresh. destruct (bad_units u) eqn:E; [discriminate|].
      intros [= <-]. apply bad_units_spec in E. auto.
  - intros u H1 H2. unfold update_units. now rewrite (Hbad u H1 H2).
  - intros [Hunits Hsubs] next [(location & ->)|[(u & Hu)|[(a & ->)|(a & ->)]]].
    + repeat split; assumption.
    + unfold update_units in Hu. destruct (bad_units u) eqn:E; [discriminate|].
      injection Hu as <-. apply bad_units_spec in E. repeat split; assumption.
    + unfold add_alert_subscription.
      destruct (bool_decide_reflect (a ∈ alert_subscriptions self)) as [Hin|Hout];
        [repeat split; assumption|].
      repeat split; [assumption|]. cbn [alert_subscriptions].
      apply NoDup_app. repeat split; [assumption| |apply NoDup_singleton].
      intros x Hx Hx'. apply list_elem_of_singleton in Hx'. congruence.
    + unfold remove_alert_subscription.
      destruct (bool_decide_reflect (a ∈ alert_subscriptions self)) as [Hin|Hout];
        [|repeat split; assumption].
      repeat split; [assumption|]. cbn [alert_subscriptions].
      now apply list_remove_NoDup.
Qed.

(** X21: subscribing and unsubscribing.  After [add_alert_subscription]
    the alert is subscribed and after [remove_alert_subscription] it is
    not; a call that has nothing to do changes nothing, not even the time
    of the last update; and removing an alert that was just added gives
    the subscriptions from before, in their order. *)
Theorem alert_subscription_round_trip (self : t) (alert_type : AlertType) (now now' : Z) :
  prefs_consistent self ->
  alert_type ∈ alert_subscriptions (add_alert_subscription alert_type now self) /\
  (alert_type ∉ alert_subscriptions (remove_alert_subscription alert_type now self)) /\
  (alert_type ∈ alert_subscriptions self ->
   add_alert_subscription alert_type now self = self) /\
  (alert_type ∉ alert_subscriptions self ->
   remove_alert_subscription alert_type now self = self /\
   alert_subscriptions
     (remove_alert_subscription alert_type now' (add_alert_subscription alert_type now self))
   = alert_subscriptions self /\
   updated_at
     (remove_alert_subscription alert_type now' (add_alert_subscription alert_type now self))
   = now').
Proof.
  intros [_ Hsubs]. unfold add_alert_subscription, remove_alert_subscription.
  destruct (bool_decide_reflect (alert_type ∈ alert_subscriptions self)) as [Hin|Hout].
  - split; [assumption|]. split; [|split; [reflexivity|contradiction]].
    cbn [alert_subscriptions]. now apply list_remove_NoDup.
  - cbn [alert_subscriptions]. split; [|split; [assumption|split; [contradiction|]]].
    + apply elem_of_app. right. apply list_elem_of_here.
    + intros _. split; [reflexivity|].
      rewrite bool_decide_eq_true_2
        by (apply elem_of_app; right; apply list_elem_of_here).
      cbn [alert_subscriptions updated_at]. now rewrite list_remove_added.
Qed.
End Preferences.

(** Subscribing to the UV alerts and unsubscribing again leaves the one
    subscription to the wind alerts. *)
Lemma alert_subscription_round_trip_witness :
  UserPrefsModel.alert_subscriptions
    (UserPrefsModel.remove_alert_subscription UV_INDEX 2
       (UserPrefsModel.add_alert_subscription UV_INDEX 1 sample_prefs))
  = [WIND].
Proof.
  destruct (alert_subscription_round_trip sample_prefs UV_INDEX 1 2)
    as (_ & _ & _ & Hround).
  - split; [left; reflexivity|]. apply NoDup_singleton.
  - apply Hround. intros Hin. apply list_elem_of_singleton in Hin. discriminate.
Defined.
